(** * Medical-monitor-app: the waveform simulation and timing engine

    A shallow embedding of the simulation core of the patient-monitor
    simulator: the shape functions of [waveformUtils.js], the PQRST and
    AV-block generators of [ecgGenerators/], and the scheduler and
    parameter-change controller of the [WaveformGenerator] class in
    [script.js].

    Numbers.  A JavaScript number is modelled by [num]: an exact rational,
    one of the two infinities, or NaN.  Arithmetic on finite values is exact
    (no rounding, no overflow, no signed zero); the special values follow
    IEEE-754 as JavaScript does.  Decimal constants of the source
    ([0.28], [1e-9], ...) are the rationals they denote.

    Ambient effects.  [Math.sin], [Math.exp] and [Math.pow] are section
    variables (any functions on [num]); the wall clock [performance.now()]
    and the draws of [Math.random()] are explicit arguments.  The sample
    buffers, the DOM and the network are outside the model. *)

From Stdlib Require Import QArith Qabs Qround Qminmax ZArith Lia Lqa String List Bool.
Import ListNotations.

Open Scope Q_scope.

(** ** JavaScript numbers *)

Inductive num : Type :=
| Fin (q : Q)
| PInf
| NInf
| NaN.

Definition Qlt_bool (a b : Q) : bool := negb (Qle_bool b a).

Module Num.

Definition zero : num := Fin 0.

(** [Number.isFinite] *)
Definition isFinite (x : num) : bool :=
  match x with Fin _ => true | _ => false end.

Definition isNaN (x : num) : bool :=
  match x with NaN => true | _ => false end.

(** Sign of a value that is not NaN: [-1], [0] or [1]. *)
Definition sgn (x : num) : Z :=
  match x with
  | Fin q => if Qlt_bool 0 q then 1%Z else if Qlt_bool q 0 then (-1)%Z else 0%Z
  | PInf => 1%Z
  | NInf => (-1)%Z
  | NaN => 0%Z
  end.

Definition opp (x : num) : num :=
  match x with
  | Fin q => Fin (- q)
  | PInf => NInf
  | NInf => PInf
  | NaN => NaN
  end.

Definition add (x y : num) : num :=
  match x, y with
  | NaN, _ | _, NaN => NaN
  | Fin a, Fin b => Fin (a + b)
  | PInf, NInf | NInf, PInf => NaN
  | PInf, _ | _, PInf => PInf
  | NInf, _ | _, NInf => NInf
  end.

Definition sub (x y : num) : num := add x (opp y).

(** An infinity of the given sign; NaN when the sign is zero. *)
Definition inf_of_sign (s : Z) : num :=
  if (0 <? s)%Z then PInf else if (s <? 0)%Z then NInf else NaN.

Definition mul (x y : num) : num :=
  match x, y with
  | NaN, _ | _, NaN => NaN
  | Fin a, Fin b => Fin (a * b)
  | _, _ => inf_of_sign (sgn x * sgn y)
  end.

(** Division never raises: a finite non-zero value over zero is an
    infinity, zero over zero is NaN. *)
Definition div (x y : num) : num :=
  match x, y with
  | NaN, _ | _, NaN => NaN
  | Fin a, Fin b =>
      if Qeq_bool b 0 then inf_of_sign (sgn x) else Fin (a / b)
  | Fin _, _ => Fin 0
  | _, Fin b => if Qlt_bool b 0 then opp x else x
  | _, _ => NaN
  end.

(** Comparisons: every comparison with NaN is false. *)
Definition ltb (x y : num) : bool :=
  match x, y with
  | NaN, _ | _, NaN => false
  | Fin a, Fin b => Qlt_bool a b
  | NInf, NInf | PInf, _ => false
  | NInf, _ | _, PInf => true
  | _, NInf => false
  end.

Definition leb (x y : num) : bool :=
  match x, y with
  | NaN, _ | _, NaN => false
  | Fin a, Fin b => Qle_bool a b
  | NInf, _ | _, PInf => true
  | PInf, _ | _, NInf => false
  end.

Definition gtb (x y : num) : bool := ltb y x.
Definition geb (x y : num) : bool := leb y x.

(** [===] on numbers. *)
Definition eqb (x y : num) : bool :=
  match x, y with
  | Fin a, Fin b => Qeq_bool a b
  | PInf, PInf | NInf, NInf => true
  | _, _ => false
  end.

(** [Math.max] and [Math.min]: NaN when either argument is NaN. *)
Definition max (x y : num) : num :=
  match x, y with
  | NaN, _ | _, NaN => NaN
  | _, _ => if leb x y then y else x
  end.

Definition min (x y : num) : num :=
  match x, y with
  | NaN, _ | _, NaN => NaN
  | _, _ => if leb x y then x else y
  end.

(** [Math.abs] *)
Definition abs (x : num) : num :=
  match x with
  | Fin q => Fin (Qabs q)
  | PInf | NInf => PInf
  | NaN => NaN
  end.

(** Truncation of a rational toward zero. *)
Definition Qtrunc (q : Q) : Z := Z.quot (Qnum q) (Zpos (Qden q)).

(** The remainder operator [%]: the result has the sign of the dividend. *)
Definition rem (x y : num) : num :=
  match x, y with
  | Fin a, Fin b =>
      if Qeq_bool b 0 then NaN else Fin (a - b * inject_Z (Qtrunc (a / b)))
  | Fin a, (PInf | NInf) => Fin a
  | _, _ => NaN
  end.

(** Equality of values: [Qeq] on the finite ones. *)
Definition eq (x y : num) : Prop :=
  match x, y with
  | Fin a, Fin b => a == b
  | PInf, PInf | NInf, NInf | NaN, NaN => True
  | _, _ => False
  end.

End Num.

Declare Scope num_scope.
Delimit Scope num_scope with num.
Bind Scope num_scope with num.
Infix "+" := Num.add : num_scope.
Infix "-" := Num.sub : num_scope.
Infix "*" := Num.mul : num_scope.
Infix "/" := Num.div : num_scope.
Infix "<?" := Num.ltb (at level 70) : num_scope.
Infix "<=?" := Num.leb (at level 70) : num_scope.
Infix ">?" := Num.gtb (at level 70) : num_scope.
Infix ">=?" := Num.geb (at level 70) : num_scope.
Infix "=?" := Num.eqb (at level 70) : num_scope.
Infix "mod" := Num.rem (at level 40, no associativity) : num_scope.
Infix "=n=" := Num.eq (at level 70, no associativity).

(** [x ?? d] on an optional property. *)
Definition orDefault {A : Type} (d : A) (o : option A) : A :=
  match o with Some a => a | None => d end.

(** ** waveformUtils.js *)

(** [ensureFinite(value, defaultValue = 0)] *)
Definition ensureFinite (value defaultValue : num) : num :=
  if Num.isFinite value then value else defaultValue.

(** [Math.PI], the double nearest to pi. *)
Definition Math_PI : num := Fin (884279719003555 # 281474976710656).

Definition DEFAULT_FALLBACK_DURATION : num := Fin 2.0.
Definition ETCO2_MAX_SHAPE_REFERENCE_RR : num := Fin 20.
Definition ETCO2_MAX_ACTIVE_SHAPE_DURATION : num :=
  (Fin 60.0 / ETCO2_MAX_SHAPE_REFERENCE_RR)%num.

(** The guard [t !== null && Number.isFinite(t) && t >= 0] of the three
    shape functions. *)
Definition validTime (t : num) : bool :=
  Num.isFinite t && (t >=? Fin 0)%num.

(** The guard [beatDuration > 0 && Number.isFinite(beatDuration)]. *)
Definition validDuration (d : num) : bool :=
  (d >? Fin 0)%num && Num.isFinite d.


(** ** rhythms.js: the shape of a rhythm definition

    [rhythms.js] is not part of the sources at hand; a rhythm definition is
    the record of the properties the generators and the engine read from it.
    Every property is optional, as in a JavaScript object; [{}] is
    [emptyParams]. *)

Record RhythmParams : Type := mkRhythmParams {
  generatorType : option string;
  isPEA : option bool;
  isChaotic : option bool;
  isFlat : option bool;
  isArtifact : option bool;
  artifactType : option string;
  artifact_freq : option num;
  baseHR : option num;
  irregular : option num;
  noise_amp : option num;
  (* PQRST morphology *)
  p_amp : option num;
  t_amp : option num;
  qrs_amp : option num;
  q_amp_factor : option num;
  s_amp_factor : option num;
  pr_interval : option num;
  qrs_width : option num;
  t_width : option num;
  t_mean_offset : option num;
  hasP : option bool;
  hasT : option bool;
  st_elevation_amp : option num;
  p_duration : option num;
  (* AV block *)
  blockType : option string;
  atrialRate : option num;
  prIntervalStart : option num;
  prIntervalFixed : option num;
  prIncrement : option num;
  wenckebachRatioBeats : option num;
  conductionProbability : option num;
  escapeEnabled : option bool;
  escapeRate : option num;
  (* companion values of the other channels *)
  spo2Value : option num;
  spo2Shape : option string;
  abpSys : option num;
  abpDia : option num;
  abpShape : option string;
  cpr_abp_sys : option num;
  cpr_abp_dia : option num;
  cpr_abp_shape : option string;
  etco2ValueKpa : option num;
  respiratoryRate : option num;
  etco2Shape : option string
}.

Definition emptyParams : RhythmParams :=
  mkRhythmParams None None None None None None None None None None
                 None None None None None None None None None None None None None
                 None None None None None None None None None
                 None None None None None None None None None None None.

(** Truthiness of an optional boolean and of an optional string. *)
Definition truthy (o : option bool) : bool := orDefault false o.

Definition truthyStr (o : option string) : bool :=
  match o with
  | Some s => negb (String.eqb s "")
  | None => false
  end.

Definition strIs (o : option string) (s : string) : bool :=
  match o with
  | Some x => String.eqb x s
  | None => false
  end.

Section ShapeLibrary.

Local Open Scope num_scope.

Variables Math_sin Math_exp : num -> num.
Variable Math_pow : num -> num -> num.

(** The reading of [performance.now()], in milliseconds. *)
Variable performance_now : num.

Definition gaussian (t mean stdDev amplitude : num) : num :=
  let safeStdDev := Num.max (Num.abs stdDev) (Fin 1e-9) in
  let safeAmplitude := ensureFinite amplitude (Fin 0) in
  if safeAmplitude =? Fin 0 then Fin 0
  else
    let exponent :=
      Num.opp (Math_pow (ensureFinite t (Fin 0) - ensureFinite mean (Fin 0)) (Fin 2))
      / (Fin 2 * safeStdDev * safeStdDev) in
    if exponent <? Fin (-700) then Fin 0
    else safeAmplitude * Math_exp exponent.

(** The time the three shape functions work with: the argument when it is
    a finite non-negative number, the wall clock otherwise. *)
Definition effectiveTimeOf (t : num) : num :=
  if validTime t then t else performance_now / Fin 1000.

Definition effectiveDurationOf (beatDuration : num) : num :=
  if validDuration beatDuration then beatDuration else DEFAULT_FALLBACK_DURATION.

(** *** generatePlethPulseShape *)

Definition generatePlethPulseShape
    (t beatDuration spo2Value : num) (shapeType : string) : num :=
  let currentSpo2 := ensureFinite spo2Value (Fin 0) in
  let baseLevel := Fin 0.1 in
  if String.eqb shapeType "no_signal" then ensureFinite baseLevel baseLevel
  else if currentSpo2 <? Fin 1 then ensureFinite baseLevel baseLevel
  else
    let effectiveDuration := effectiveDurationOf beatDuration in
    let effectiveTime := effectiveTimeOf t in
    let t_rel := effectiveTime mod effectiveDuration in
    let low := String.eqb shapeType "low_perfusion" in
    let pulseAmplitude := if low then Fin 0.40 else Fin 0.85 in
    let riseTimeFactor := if low then Fin 0.35 else Fin 0.28 in
    let risePower := if low then Fin 1.5 else Fin 2 in
    let notchTimeFactor := if low then Fin 0.55 else Fin 0.50 in
    let notchWidthFactor := if low then Fin 0.08 else Fin 0.06 in
    let notchDepthFactor := if low then Fin 0.05 else Fin 0.20 in
    let decayFactor := if low then Fin 2.2 else Fin 2.5 in
    let pulseAmplitude :=
      pulseAmplitude * ((currentSpo2 / Fin 100) * Fin 0.8 + Fin 0.2) in
    let riseEndTime := effectiveDuration * riseTimeFactor in
    let notchTime := effectiveDuration * notchTimeFactor in
    let notchWidth := effectiveDuration * notchWidthFactor in
    let value :=
      if (t_rel <? riseEndTime) && (riseEndTime >? Fin 1e-6) then
        let phase := (t_rel / riseEndTime) * (Math_PI / Fin 2) in
        pulseAmplitude * Math_pow (Math_sin phase) risePower
      else if riseEndTime <=? t_rel then
        let timeSinceRiseEnd := t_rel - riseEndTime in
        let decayTimeConstant := effectiveDuration / decayFactor in
        pulseAmplitude * Math_exp (Num.opp timeSinceRiseEnd / decayTimeConstant)
      else Fin 0 in
    let notchDepth := pulseAmplitude * notchDepthFactor in
    let safeNotchWidth := Num.max notchWidth (Fin 1e-4) in
    let notch := gaussian t_rel notchTime safeNotchWidth (Num.opp notchDepth) in
    let value := value + notch in
    ensureFinite (Num.max (Fin 0) (baseLevel + value)) baseLevel.

(** *** generateAbpWaveformShape *)

(** The locals [sys], [dia], [safeDia], [safeSys] and [pulsePressure]. *)
Definition abp_sys (amplitudeSystolic : num) : num :=
  ensureFinite amplitudeSystolic (Fin 0).
Definition abp_dia (amplitudeDiastolic : num) : num :=
  ensureFinite amplitudeDiastolic (Fin 0).
Definition abp_safeDia (amplitudeDiastolic : num) : num :=
  Num.max (Fin 0) (abp_dia amplitudeDiastolic).
Definition abp_safeSys (amplitudeSystolic amplitudeDiastolic : num) : num :=
  Num.max (abp_safeDia amplitudeDiastolic + Fin 1) (abp_sys amplitudeSystolic).
Definition abp_pulsePressure (amplitudeSystolic amplitudeDiastolic : num) : num :=
  abp_safeSys amplitudeSystolic amplitudeDiastolic - abp_safeDia amplitudeDiastolic.

(** The first test of the function: both pressures effectively zero. *)
Definition abp_flatZero (amplitudeSystolic amplitudeDiastolic : num) : bool :=
  (abp_sys amplitudeSystolic <? Fin 1) && (abp_dia amplitudeDiastolic <? Fin 1).

(** The second early return: no forward pulse pressure. *)
Definition abp_noPulsePressure (amplitudeSystolic amplitudeDiastolic : num) : bool :=
  abp_pulsePressure amplitudeSystolic amplitudeDiastolic <=? Fin 0.

Record AbpFactors : Type := mkAbpFactors {
  upstrokeEndTimeFactor : num;
  upstrokePower : num;
  abpNotchTimeFactor : num;
  abpNotchWidthFactor : num;
  abpNotchDepthFactor : num;
  diastolicDecayFactor : num
}.

(** The [switch (shapeType)] of the function. *)
Definition abpFactors (shapeType : string) : AbpFactors :=
  if String.eqb shapeType "damped" then
    mkAbpFactors (Fin 0.28) (Fin 2) (Fin 0.45) (Fin 0.15) (Fin 0.005) (Fin 2.5)
  else if String.eqb shapeType "hyperdynamic" then
    mkAbpFactors (Fin 0.09) (Fin 5) (Fin 0.45) (Fin 0.06) (Fin 0.07) (Fin 4.8)
  else if String.eqb shapeType "vasoconstricted" then
    mkAbpFactors (Fin 0.13) (Fin 3.5) (Fin 0.30) (Fin 0.04) (Fin 0.09) (Fin 1.9)
  else
    mkAbpFactors (Fin 0.15) (Fin 3) (Fin 0.35) (Fin 0.05) (Fin 0.10) (Fin 3.0).

(** The value before the final clamp. *)
Definition abp_rawValue
    (t beatDuration amplitudeSystolic amplitudeDiastolic : num)
    (shapeType : string) : num :=
  let safeDia := abp_safeDia amplitudeDiastolic in
  let pulsePressure := abp_pulsePressure amplitudeSystolic amplitudeDiastolic in
  let effectiveDuration := effectiveDurationOf beatDuration in
  let effectiveTime := effectiveTimeOf t in
  let t_rel := effectiveTime mod effectiveDuration in
  let f := abpFactors shapeType in
  let upstrokeEndTime := effectiveDuration * upstrokeEndTimeFactor f in
  let notchTime := effectiveDuration * abpNotchTimeFactor f in
  let safeNotchWidth :=
    Num.max (effectiveDuration * abpNotchWidthFactor f) (Fin 1e-4) in
  let value :=
    if (t_rel <? upstrokeEndTime) && (upstrokeEndTime >? Fin 1e-6) then
      let phase := (t_rel / upstrokeEndTime) * (Math_PI / Fin 2) in
      safeDia + pulsePressure * Math_pow (Math_sin phase) (upstrokePower f)
    else if upstrokeEndTime <=? t_rel then
      let timeSinceUpstrokeEnd := t_rel - upstrokeEndTime in
      let decayTimeConstant := effectiveDuration / diastolicDecayFactor f in
      let effectiveDecay :=
        pulsePressure * Math_exp (Num.opp timeSinceUpstrokeEnd / decayTimeConstant) in
      safeDia + effectiveDecay
    else safeDia in
  let notchDepth := pulsePressure * abpNotchDepthFactor f in
  let notch := gaussian t_rel notchTime safeNotchWidth (Num.opp notchDepth) in
  value + notch.

Definition generateAbpWaveformShape
    (t beatDuration amplitudeSystolic amplitudeDiastolic : num)
    (shapeType : string) : num :=
  if abp_flatZero amplitudeSystolic amplitudeDiastolic then
    ensureFinite (Fin 0) (Fin 0)
  else
    let safeDia := abp_safeDia amplitudeDiastolic in
    let safeSys := abp_safeSys amplitudeSystolic amplitudeDiastolic in
    if abp_noPulsePressure amplitudeSystolic amplitudeDiastolic then safeDia
    else
      let value :=
        abp_rawValue t beatDuration amplitudeSystolic amplitudeDiastolic shapeType in
      ensureFinite (Num.max (Fin 0) (Num.min (safeSys + Fin 15) value)) safeDia.

(** *** generateEtco2WaveformShape *)

(** The first two tests: an invalid breath duration, a (near-)zero value or
    the [disconnect] shape give a flat zero. *)
Definition etco2_flat (breathDuration etco2Value : num) (shapeType : string) : bool :=
  ((breathDuration <=? Fin 0) || negb (Num.isFinite breathDuration))
  || ((ensureFinite etco2Value (Fin 0) <? Fin 0.01) || String.eqb shapeType "disconnect").

(** The local [t_rel]: the elapsed time folded into one breath. *)
Definition etco2_t_rel (t breathDuration : num) : num :=
  ((effectiveTimeOf t mod breathDuration) + breathDuration) mod breathDuration.

Record Etco2Factors : Type := mkEtco2Factors {
  inspirationEndFactor : num;
  plateauStartFactor : num;
  plateauEndFactor : num;
  plateauSlopeFactor : num;
  upstrokeSteepness : num;
  downstrokeSteepness : num
}.

Definition etco2Factors (shapeType : string) : Etco2Factors :=
  if String.eqb shapeType "bronchospasm" then
    mkEtco2Factors (Fin 0.40) (Fin 0.65) (Fin 0.90) (Fin 0.30) (Fin 6) (Fin 12)
  else if String.eqb shapeType "leak_obstruction" then
    mkEtco2Factors (Fin 0.40) (Fin 0.60) (Fin 0.90) (Fin (-0.15)) (Fin 7) (Fin 12)
  else
    mkEtco2Factors (Fin 0.40) (Fin 0.50) (Fin 0.90) (Fin 0.05) (Fin 10) (Fin 12).

Definition generateEtco2WaveformShape
    (t breathDuration etco2Value : num) (shapeType : string) : num :=
  if etco2_flat breathDuration etco2Value shapeType then Fin 0
  else
    let t_rel := etco2_t_rel t breathDuration in
    let durationForShapeCalculation :=
      Num.min breathDuration ETCO2_MAX_ACTIVE_SHAPE_DURATION in
    let f := etco2Factors shapeType in
    let inspirationEnd := durationForShapeCalculation * inspirationEndFactor f in
    let plateauStart := durationForShapeCalculation * plateauStartFactor f in
    let plateauEnd := durationForShapeCalculation * plateauEndFactor f in
    let activeWaveformEnd := durationForShapeCalculation in
    let targetEtco2 := ensureFinite etco2Value (Fin 0) in
    let value :=
      if t_rel <? activeWaveformEnd then
        if t_rel <? inspirationEnd then Fin 0
        else if t_rel <? plateauStart then
          let phaseDuration := plateauStart - inspirationEnd in
          if phaseDuration >? Fin 1e-6 then
            let phaseProgress := (t_rel - inspirationEnd) / phaseDuration in
            targetEtco2 *
            (Fin 1 / (Fin 1 + Math_exp (Num.opp (upstrokeSteepness f)
                                        * (phaseProgress - Fin 0.5))))
          else targetEtco2
        else if t_rel <? plateauEnd then
          let plateauDuration := plateauEnd - plateauStart in
          if plateauDuration >? Fin 1e-6 then
            let plateauProgress := (t_rel - plateauStart) / plateauDuration in
            targetEtco2 * (Fin 1 + plateauProgress * plateauSlopeFactor f)
          else targetEtco2
        else
          let phaseDuration := activeWaveformEnd - plateauEnd in
          if phaseDuration >? Fin 1e-6 then
            let phaseProgress := (t_rel - plateauEnd) / phaseDuration in
            let startValue := targetEtco2 * (Fin 1 + plateauSlopeFactor f) in
            startValue *
            (Fin 1 - (Fin 1 / (Fin 1 + Math_exp (Num.opp (downstrokeSteepness f)
                                                 * (phaseProgress - Fin 0.5)))))
          else Fin 0
      else Fin 0 in
    ensureFinite (Num.max (Fin 0) value) (Fin 0).

(** ** ecgGenerators/pqrstGenerator.js: the cardiac complex *)

Definition generatePQRST (t_relative : num) (params : RhythmParams) : num :=
  let p_amp := orDefault (Fin 0.15) (p_amp params) in
  let t_amp := orDefault (Fin 0.25) (t_amp params) in
  let qrs_amp := orDefault (Fin 1.0) (qrs_amp params) in
  let q_amp_factor := orDefault (Fin 0.1) (q_amp_factor params) in
  let s_amp_factor := orDefault (Fin 0.15) (s_amp_factor params) in
  let pr_interval := orDefault (Fin 0.16) (pr_interval params) in
  let qrs_width := orDefault (Fin 0.08) (qrs_width params) in
  let t_width := orDefault (Fin 0.07) (t_width params) in
  let t_mean_offset := orDefault (Fin 0.25) (t_mean_offset params) in
  let hasP := orDefault true (hasP params) in
  let hasT := orDefault true (hasT params) in
  let st_elevation_amp := orDefault (Fin 0) (st_elevation_amp params) in
  (* P wave *)
  let p_value :=
    if hasP && negb (p_amp =? Fin 0) && (pr_interval >? Fin 0) then
      let p_duration :=
        orDefault (Num.min (pr_interval * Fin 0.7) (Fin 0.12)) (p_duration params) in
      if (p_duration >? Fin 1e-3) && (t_relative >=? Fin 0)
         && (t_relative <? p_duration) then
        let Bp := Math_PI / p_duration in
        let v := p_amp * Math_sin (Bp * t_relative) in
        if v <? Fin 0 then Fin 0 else v
      else Fin 0
    else Fin 0 in
  (* QRS complex *)
  let qrs_value :=
    if negb (qrs_amp =? Fin 0) && (qrs_width >? Fin 0) then
      let Aq := qrs_amp * q_amp_factor in
      let Ar := qrs_amp in
      let As := qrs_amp * s_amp_factor in
      let tq := pr_interval + qrs_width * Fin 0.1 in
      let tr := pr_interval + qrs_width * Fin 0.5 in
      let ts := pr_interval + qrs_width * Fin 0.9 in
      let sigma_q := qrs_width / Fin 6 in
      let sigma_r := qrs_width / Fin 5 in
      let sigma_s := qrs_width / Fin 5 in
      gaussian t_relative tr sigma_r Ar
      - gaussian t_relative tq sigma_q Aq
      - gaussian t_relative ts sigma_s As
    else Fin 0 in
  (* T wave *)
  let tOn := hasT && negb (t_amp =? Fin 0) && (t_width >? Fin 0) in
  let t_duration := Num.max (Fin 0.1) (Fin 3.0 * t_width) in
  let t_mean := pr_interval + t_mean_offset in
  let t_wave_start_time := if tOn then t_mean - t_duration / Fin 2 else PInf in
  let t_wave_end_time := if tOn then t_wave_start_time + t_duration else NInf in
  let inT := (t_relative >=? t_wave_start_time) && (t_relative <? t_wave_end_time) in
  let t_value :=
    if tOn && inT then
      let Bt := Math_PI / t_duration in
      let t_phase := Bt * (t_relative - t_wave_start_time) in
      let v := t_amp * Math_pow (Math_sin t_phase) (Fin 2) in
      let v := if (t_amp >? Fin 0) && (v <? Fin 0) then Fin 0 else v in
      if (t_amp <? Fin 0) && (v >? Fin 0) then Fin 0 else v
    else Fin 0 in
  (* ST segment *)
  let total_value := p_value + qrs_value + t_value in
  let j_point_time := pr_interval + qrs_width * Fin 0.9 in
  let total_value :=
    if st_elevation_amp >? Fin 0 then
      let elevation_end_time :=
        if hasT then t_wave_end_time else j_point_time + Fin 0.3 in
      if (t_relative >=? j_point_time) && (t_relative <? elevation_end_time) then
        let time_since_j_point := t_relative - j_point_time in
        let total_elevation_duration :=
          Num.max (Fin 1e-6) (elevation_end_time - j_point_time) in
        let progress := time_since_j_point / total_elevation_duration in
        let decay_start_factor := Fin 1.0 in
        let decay_end_factor := Fin 0.6 in
        let current_decay :=
          decay_start_factor - (decay_start_factor - decay_end_factor) * progress in
        let current_st_elevation := st_elevation_amp * current_decay in
        if inT then
          p_value + qrs_value + current_st_elevation + (t_value * current_decay)
        else p_value + qrs_value + current_st_elevation
      else total_value
    else if st_elevation_amp <? Fin 0 then
      if (t_relative >=? j_point_time) && (t_relative <? t_wave_start_time) then
        p_value + qrs_value + st_elevation_amp
      else total_value
    else total_value in
  ensureFinite total_value (Fin 0).

End ShapeLibrary.

(** ** ecgGenerators/avBlockGenerator.js *)

(** The generator's state object.  The two integer counters are [Z]; a
    property that is [undefined] until first written is [false]
    ([droppedLast], [lastQRSwasEscape]) or [None] ([lastConductedPR]). *)
Record AVBlockState : Type := mkAVBlockState {
  lastPTime : num;
  nextPTime : num;
  lastQRSTime : num;
  nextQRSTime : num;
  wenckebachCycleBeat : Z;
  currentPR : num;
  pWaveCount : Z;
  conductedBeatCount : Z;
  nextEscapeBeatTime : num;
  droppedLast : bool;
  lastQRSwasEscape : bool;
  lastConductedPR : option num
}.

Definition set_lastPTime (v : num) (s : AVBlockState) : AVBlockState :=
  mkAVBlockState v (nextPTime s) (lastQRSTime s) (nextQRSTime s) (wenckebachCycleBeat s) (currentPR s) (pWaveCount s) (conductedBeatCount s) (nextEscapeBeatTime s) (droppedLast s) (lastQRSwasEscape s) (lastConductedPR s).

Definition set_nextPTime (v : num) (s : AVBlockState) : AVBlockState :=
  mkAVBlockState (lastPTime s) v (lastQRSTime s) (nextQRSTime s) (wenckebachCycleBeat s) (currentPR s) (pWaveCount s) (conductedBeatCount s) (nextEscapeBeatTime s) (droppedLast s) (lastQRSwasEscape s) (lastConductedPR s).

Definition set_lastQRSTime (v : num) (s : AVBlockState) : AVBlockState :=
  mkAVBlockState (lastPTime s) (nextPTime s) v (nextQRSTime s) (wenckebachCycleBeat s) (currentPR s) (pWaveCount s) (conductedBeatCount s) (nextEscapeBeatTime s) (droppedLast s) (lastQRSwasEscape s) (lastConductedPR s).

Definition set_nextQRSTime (v : num) (s : AVBlockState) : AVBlockState :=
  mkAVBlockState (lastPTime s) (nextPTime s) (lastQRSTime s) v (wenckebachCycleBeat s) (currentPR s) (pWaveCount s) (conductedBeatCount s) (nextEscapeBeatTime s) (droppedLast s) (lastQRSwasEscape s) (lastConductedPR s).

Definition set_wenckebachCycleBeat (v : Z) (s : AVBlockState) : AVBlockState :=
  mkAVBlockState (lastPTime s) (nextPTime s) (lastQRSTime s) (nextQRSTime s) v (currentPR s) (pWaveCount s) (conductedBeatCount s) (nextEscapeBeatTime s) (droppedLast s) (lastQRSwasEscape s) (lastConductedPR s).

Definition set_currentPR (v : num) (s : AVBlockState) : AVBlockState :=
  mkAVBlockState (lastPTime s) (nextPTime s) (lastQRSTime s) (nextQRSTime s) (wenckebachCycleBeat s) v (pWaveCount s) (conductedBeatCount s) (nextEscapeBeatTime s) (droppedLast s) (lastQRSwasEscape s) (lastConductedPR s).

Definition set_pWaveCount (v : Z) (s : AVBlockState) : AVBlockState :=
  mkAVBlockState (lastPTime s) (nextPTime s) (lastQRSTime s) (nextQRSTime s) (wenckebachCycleBeat s) (currentPR s) v (conductedBeatCount s) (nextEscapeBeatTime s) (droppedLast s) (lastQRSwasEscape s) (lastConductedPR s).

Definition set_conductedBeatCount (v : Z) (s : AVBlockState) : AVBlockState :=
  mkAVBlockState (lastPTime s) (nextPTime s) (lastQRSTime s) (nextQRSTime s) (wenckebachCycleBeat s) (currentPR s) (pWaveCount s) v (nextEscapeBeatTime s) (droppedLast s) (lastQRSwasEscape s) (lastConductedPR s).

Definition set_nextEscapeBeatTime (v : num) (s : AVBlockState) : AVBlockState :=
  mkAVBlockState (lastPTime s) (nextPTime s) (lastQRSTime s) (nextQRSTime s) (wenckebachCycleBeat s) (currentPR s) (pWaveCount s) (conductedBeatCount s) v (droppedLast s) (lastQRSwasEscape s) (lastConductedPR s).

Definition set_droppedLast (v : bool) (s : AVBlockState) : AVBlockState :=
  mkAVBlockState (lastPTime s) (nextPTime s) (lastQRSTime s) (nextQRSTime s) (wenckebachCycleBeat s) (currentPR s) (pWaveCount s) (conductedBeatCount s) (nextEscapeBeatTime s) v (lastQRSwasEscape s) (lastConductedPR s).

Definition set_lastQRSwasEscape (v : bool) (s : AVBlockState) : AVBlockState :=
  mkAVBlockState (lastPTime s) (nextPTime s) (lastQRSTime s) (nextQRSTime s) (wenckebachCycleBeat s) (currentPR s) (pWaveCount s) (conductedBeatCount s) (nextEscapeBeatTime s) (droppedLast s) v (lastConductedPR s).

Definition set_lastConductedPR (v : option num) (s : AVBlockState) : AVBlockState :=
  mkAVBlockState (lastPTime s) (nextPTime s) (lastQRSTime s) (nextQRSTime s) (wenckebachCycleBeat s) (currentPR s) (pWaveCount s) (conductedBeatCount s) (nextEscapeBeatTime s) (droppedLast s) (lastQRSwasEscape s) v.

(** The draws of [Math.random()] one call of the generator may make, one
    per call site: the noise sample, the initial jitter of a complete block,
    the conduction test and the escape deferral of Mobitz II, and the
    irregularity of an escape beat. *)
Record Draws : Type := mkDraws {
  d_noise : num;
  d_init : num;
  d_conduct : num;
  d_defer : num;
  d_irreg : num
}.

(** What one atrial event decided: whether the P wave conducts, the PR
    interval used when it does, and the beat-in-cycle counter after the
    event's bookkeeping. *)
Record AtrialEvent : Type := mkAtrialEvent {
  conducted : bool;
  prUsed : num;
  cycleBeat : Z
}.

(** A numeric property that may be [undefined]: [undefined] converts to NaN. *)
Definition toNumber (o : option num) : num := orDefault NaN o.

(** [rate > 0 ? 60.0 / rate : Infinity] *)
Definition intervalOfRate (rate : num) : num :=
  if (rate >? Fin 0)%num then (Fin 60.0 / rate)%num else PInf.

(** [generateNoise(amplitude)], given the draw of [Math.random()]. *)
Definition generateNoise (draw amplitude : num) : num :=
  ((draw - Fin 0.5) * amplitude * Fin 2)%num.

Section AVBlock.

Local Open Scope num_scope.

Variables Math_sin Math_exp : num -> num.
Variable Math_pow : num -> num -> num.

Definition generatePWave (t_relative_p p_amp p_duration : num) : num :=
  if (p_amp =? Fin 0) || (p_duration <=? Fin 1e-3)
     || (t_relative_p <? Fin 0) || (t_relative_p >=? p_duration) then Fin 0
  else
    let Bp := Math_PI / p_duration in
    let p_value := p_amp * Math_sin (Bp * t_relative_p) in
    if p_value <? Fin 0 then Fin 0 else p_value.

Definition generateQRST (t_relative_p : num) (params : RhythmParams) (pr_offset : num) : num :=
  let qrs_amp := orDefault (Fin 1.0) (qrs_amp params) in
  let t_amp := orDefault (Fin 0.25) (t_amp params) in
  let q_amp_factor := orDefault (Fin 0.1) (q_amp_factor params) in
  let s_amp_factor := orDefault (Fin 0.15) (s_amp_factor params) in
  let qrs_width := orDefault (Fin 0.08) (qrs_width params) in
  let t_width := orDefault (Fin 0.07) (t_width params) in
  let t_mean_offset_from_qrs_start :=
    orDefault (Fin 0.25) (t_mean_offset params) - orDefault pr_offset (pr_interval params) in
  let hasT := orDefault true (hasT params) in
  let qrs_value :=
    if negb (qrs_amp =? Fin 0) && (qrs_width >? Fin 0) then
      let Aq := qrs_amp * q_amp_factor in
      let Ar := qrs_amp in
      let As := qrs_amp * s_amp_factor in
      let tq := pr_offset + qrs_width * Fin 0.1 in
      let tr := pr_offset + qrs_width * Fin 0.5 in
      let ts := pr_offset + qrs_width * Fin 0.9 in
      let sigma_q := qrs_width / Fin 6 in
      let sigma_r := qrs_width / Fin 5 in
      let sigma_s := qrs_width / Fin 5 in
      gaussian Math_exp Math_pow t_relative_p tr sigma_r Ar
      - gaussian Math_exp Math_pow t_relative_p tq sigma_q Aq
      - gaussian Math_exp Math_pow t_relative_p ts sigma_s As
    else Fin 0 in
  let t_value :=
    if hasT && negb (t_amp =? Fin 0) && (t_width >? Fin 0) then
      let t_duration := Num.max (Fin 0.1) (Fin 3.0 * t_width) in
      let t_mean := pr_offset + t_mean_offset_from_qrs_start in
      let t_wave_start_time := t_mean - t_duration / Fin 2 in
      let t_wave_end_time := t_wave_start_time + t_duration in
      if (t_relative_p >=? t_wave_start_time) && (t_relative_p <? t_wave_end_time) then
        let Bt := Math_PI / t_duration in
        let t_phase := Bt * (t_relative_p - t_wave_start_time) in
        let v := t_amp * Math_pow (Math_sin t_phase) (Fin 2) in
        let v := if (t_amp >? Fin 0) && (v <? Fin 0) then Fin 0 else v in
        if (t_amp <? Fin 0) && (v >? Fin 0) then Fin 0 else v
      else Fin 0
    else Fin 0 in
  qrs_value + t_value.

(** The state created on the first call for a rhythm. *)
Definition initialAVBlockState
    (currentTime : num) (params : RhythmParams) (d : Draws) : AVBlockState :=
  let state :=
    mkAVBlockState NInf currentTime NInf currentTime
      0%Z (orDefault (Fin 0.16) (prIntervalStart params))
      0%Z 0%Z PInf false false None in
  let state :=
    if strIs (blockType params) "avb3" then
      let escapeInterval := intervalOfRate (toNumber (baseHR params)) in
      set_nextQRSTime (currentTime + escapeInterval * d_init d) state
    else state in
  if strIs (blockType params) "mobitz2" && truthy (escapeEnabled params) then
    let escapeInterval := intervalOfRate (toNumber (escapeRate params)) in
    set_nextEscapeBeatTime (currentTime + escapeInterval) state
  else state.

(** The atrial schedule: when a P wave is due, advance the schedule and
    decide whether this P wave conducts. *)
Definition atrialSchedule
    (currentTime : num) (params : RhythmParams) (d : Draws) (state : AVBlockState)
  : AVBlockState * option AtrialEvent :=
  let mobitz1 := strIs (blockType params) "mobitz1" in
  let mobitz2 := strIs (blockType params) "mobitz2" in
  let atrialRate := orDefault (Fin 70) (atrialRate params) in
  let pInterval := intervalOfRate atrialRate in
  if (currentTime >=? nextPTime state) && (pInterval <? PInf) then
    let state := set_lastPTime (nextPTime state) state in
    let state := set_nextPTime (nextPTime state + pInterval) state in
    let state :=
      if mobitz1 then
        let state := set_wenckebachCycleBeat (wenckebachCycleBeat state + 1)%Z state in
        if droppedLast state then
          set_droppedLast false
            (set_wenckebachCycleBeat 1%Z
               (set_currentPR (orDefault (Fin 0.16) (prIntervalStart params)) state))
        else state
      else if mobitz2 then set_pWaveCount (pWaveCount state + 1)%Z state
      else state in
    let '(state, conductThisP, currentPRForConduction) :=
      if mobitz1 then
        if Fin (inject_Z (wenckebachCycleBeat state))
           >=? orDefault (Fin 4) (wenckebachRatioBeats params) then
          (set_droppedLast true state, false, Fin 0)
        else
          (set_currentPR (currentPR state + orDefault (Fin 0.06) (prIncrement params)) state,
           true, currentPR state)
      else if mobitz2 then
        let probability := orDefault (Fin 0.5) (conductionProbability params) in
        if d_conduct d <? probability then
          (set_conductedBeatCount (conductedBeatCount state + 1)%Z state,
           true, orDefault (Fin 0.18) (prIntervalFixed params))
        else (state, false, Fin 0)
      else (state, false, Fin 0) in
    let event := mkAtrialEvent conductThisP currentPRForConduction
                   (wenckebachCycleBeat state) in
    let state :=
      if conductThisP then
        let state := set_nextQRSTime (lastPTime state + currentPRForConduction) state in
        if mobitz2 && truthy (escapeEnabled params) then
          let escapeInterval := intervalOfRate (toNumber (escapeRate params)) in
          set_nextEscapeBeatTime
            (currentTime + escapeInterval * (Fin 1.5 + d_defer d)) state
        else state
      else state in
    (state, Some event)
  else (state, None).

(** The ventricular schedule: the new state, [generateQRSNow],
    [qrsIsEscape] and [prForThisQRS]. *)
Definition ventricularSchedule
    (currentTime : num) (params : RhythmParams) (d : Draws) (state : AVBlockState)
  : AVBlockState * bool * bool * num :=
  let mobitz1 := strIs (blockType params) "mobitz1" in
  let mobitz2 := strIs (blockType params) "mobitz2" in
  let avb3 := strIs (blockType params) "avb3" in
  let irregularityFactor :=
    Fin 1.0 + (orDefault (Fin 0.02) (irregular params) * (d_irreg d - Fin 0.5) * Fin 2) in
  if (mobitz1 || mobitz2) && (currentTime >=? nextQRSTime state)
     && (nextQRSTime state >? lastQRSTime state) then
    if nextQRSTime state >? lastPTime state then
      let prForThisQRS := nextQRSTime state - lastPTime state in
      let state := set_lastQRSTime (nextQRSTime state) state in
      (set_nextQRSTime PInf state, true, false, prForThisQRS)
    else (set_nextQRSTime PInf state, false, false, Fin 0)
  else if avb3 && (currentTime >=? nextQRSTime state) then
    let state := set_lastQRSTime (nextQRSTime state) state in
    let escapeInterval := intervalOfRate (toNumber (baseHR params)) in
    (set_nextQRSTime (nextQRSTime state + escapeInterval * irregularityFactor) state,
     true, true, Fin 0)
  else if mobitz2 && truthy (escapeEnabled params)
          && (currentTime >=? nextEscapeBeatTime state) then
    if currentTime >? lastQRSTime state
                      + (Fin 60.0 / (toNumber (atrialRate params) * Fin 1.5)) then
      let state := set_lastQRSTime (nextEscapeBeatTime state) state in
      let escapeInterval := intervalOfRate (toNumber (escapeRate params)) in
      (set_nextEscapeBeatTime
         (nextEscapeBeatTime state + escapeInterval * irregularityFactor) state,
       true, true, Fin 0)
    else
      (set_nextEscapeBeatTime (nextEscapeBeatTime state + Fin 0.1) state,
       false, false, Fin 0)
  else (state, false, false, Fin 0).

(** [generateAVBlock(currentTime, params, state)], together with the atrial
    event of this call, if any.  An absent or empty state object is [None]. *)
Definition generateAVBlock_event
    (currentTime : num) (params : RhythmParams) (d : Draws)
    (state : option AVBlockState)
  : num * AVBlockState * option AtrialEvent :=
  let noise := generateNoise (d_noise d) (orDefault (Fin 0.02) (noise_amp params)) in
  let state :=
    match state with
    | Some s => s
    | None => initialAVBlockState currentTime params d
    end in
  let pDuration :=
    orDefault (orDefault (Fin 0.16) (prIntervalFixed params)) (prIntervalStart params)
    * Fin 0.7 in
  let '(state, event) := atrialSchedule currentTime params d state in
  let '(state, generateQRSNow, qrsIsEscape, prForThisQRS) :=
    ventricularSchedule currentTime params d state in
  let timeSinceLastP := currentTime - lastPTime state in
  let timeSinceLastQRS := currentTime - lastQRSTime state in
  let currentValue := Fin 0 in
  let currentValue :=
    if (timeSinceLastP >=? Fin 0) && (timeSinceLastP <? pDuration) then
      currentValue
      + generatePWave timeSinceLastP (orDefault (Fin 0.15) (p_amp params)) pDuration
    else currentValue in
  let qrsDurationEstimate :=
    orDefault (Fin 0.08) (qrs_width params)
    + orDefault (Fin 0.07) (t_width params) * Fin 3 in
  let currentValue :=
    if generateQRSNow then
      currentValue
      + generateQRST (Fin 0) params (if qrsIsEscape then Fin 0 else prForThisQRS)
    else if (lastQRSTime state >? NInf) && (timeSinceLastQRS >=? Fin 0)
            && (timeSinceLastQRS <? qrsDurationEstimate) then
      currentValue + generateQRST timeSinceLastQRS params (Fin 0)
    else currentValue in
  let state :=
    if generateQRSNow then
      set_lastConductedPR (Some (if qrsIsEscape then Fin 0 else prForThisQRS))
        (set_lastQRSwasEscape qrsIsEscape state)
    else state in
  (ensureFinite (currentValue + noise) (Fin 0), state, event).

Definition generateAVBlock
    (currentTime : num) (params : RhythmParams) (d : Draws)
    (state : option AVBlockState) : num * AVBlockState :=
  fst (generateAVBlock_event currentTime params d state).

End AVBlock.

(** [JSON.parse(JSON.stringify(state))], as [script.js] does before every
    call: a non-finite number is written as [null], which every later
    comparison and sum converts to 0. *)
Definition jsonNum (x : num) : num := if Num.isFinite x then x else Fin 0.

Definition jsonAVBlockState (s : AVBlockState) : AVBlockState :=
  mkAVBlockState
    (jsonNum (lastPTime s)) (jsonNum (nextPTime s))
    (jsonNum (lastQRSTime s)) (jsonNum (nextQRSTime s))
    (wenckebachCycleBeat s) (jsonNum (currentPR s))
    (pWaveCount s) (conductedBeatCount s)
    (jsonNum (nextEscapeBeatTime s))
    (droppedLast s) (lastQRSwasEscape s)
    (option_map jsonNum (lastConductedPR s)).

(** The atrial events of a run of calls, each call given its time and its
    draws, the state going through the JSON copy between calls. *)
Fixpoint avBlockEvents
    (Math_sin Math_exp : num -> num) (Math_pow : num -> num -> num)
    (params : RhythmParams) (state : option AVBlockState)
    (calls : list (num * Draws)) : list AtrialEvent :=
  match calls with
  | [] => []
  | (currentTime, d) :: rest =>
      let '(_, state', event) :=
        generateAVBlock_event Math_sin Math_exp Math_pow currentTime params d
          (option_map jsonAVBlockState state) in
      match event with
      | Some e => e :: avBlockEvents Math_sin Math_exp Math_pow params (Some state') rest
      | None => avBlockEvents Math_sin Math_exp Math_pow params (Some state') rest
      end
  end.

(** ** Specification predicates for the Wenckebach cycle *)

(** The three fields the Wenckebach logic owns. *)
Definition wfields (s : AVBlockState) : Z * num * bool :=
  (wenckebachCycleBeat s, currentPR s, droppedLast s).

(** Position [j] (0..3) in a cycle of four whose first PR interval is
    [start] and whose increment is [inc]: the number of P waves seen since
    the cycle began.  Position 0 is the fresh state or the state just after
    a dropped beat. *)
Definition wphase (start inc : Q) (j : nat) (s : AVBlockState) : Prop :=
  match j with
  | O => (wenckebachCycleBeat s = 0%Z /\ currentPR s =n= Fin start
          /\ droppedLast s = false)
         \/ droppedLast s = true
  | _ => wenckebachCycleBeat s = Z.of_nat j
         /\ currentPR s =n= Fin (start + inject_Z (Z.of_nat j) * inc)
         /\ droppedLast s = false
  end.

Definition wphaseOpt (start inc : Q) (j : nat) (st : option AVBlockState) : Prop :=
  match st with
  | None => j = O
  | Some s => wphase start inc j s
  end.

(** What the P wave at position [j] must decide: it conducts unless it is
    the fourth, the counter reads [j + 1], and a conducted beat uses the PR
    interval [start + j * inc]. *)
Definition eventOk (start inc : Q) (j : nat) (e : AtrialEvent) : Prop :=
  conducted e = negb (Nat.eqb j 3)
  /\ cycleBeat e = (Z.of_nat j + 1)%Z
  /\ (conducted e = true -> prUsed e =n= Fin (start + inject_Z (Z.of_nat j) * inc)).

(** ** Sample inputs *)

(** A Wenckebach rhythm definition that leaves every numeric property to
    the generator's defaults (PR 0.16 s, increment 0.06 s, cycle of 4,
    atrial rate 70/min). *)
Definition sampleMobitz1 : RhythmParams :=
  mkRhythmParams (Some "avBlock"%string) None None None None None None (Some (Fin 40)) None None
                 None None None None None None None None None None None None None
                 (Some "mobitz1"%string) None None None None None None None None
                 None None None None None None None None None None None.

Definition sampleDraws : Draws :=
  mkDraws (Fin 0.5) (Fin 0.5) (Fin 0.5) (Fin 0.5) (Fin 0.5).

(** [n] calls at the sample period of 10 ms, the first at time [t]. *)
Fixpoint sampleCalls (n : nat) (t : Q) : list (num * Draws) :=
  match n with
  | O => []
  | S k => (Fin (Qred t), sampleDraws) :: sampleCalls k (t + 0.01)
  end.

(** ** script.js: the engine's data

    The three parameter snapshots hold one record per channel.  The NIBP
    channel and the colours take no part in the simulation and are left
    out. *)

Record EcgChannel : Type := mkEcgChannel {
  rhythm : string;
  hr : num;
  ecg_params : RhythmParams;
  ecg_visible : bool
}.

Definition set_rhythm (v : string) (s : EcgChannel) : EcgChannel :=
  mkEcgChannel v (hr s) (ecg_params s) (ecg_visible s).

Definition set_hr (v : num) (s : EcgChannel) : EcgChannel :=
  mkEcgChannel (rhythm s) v (ecg_params s) (ecg_visible s).

Definition set_ecg_params (v : RhythmParams) (s : EcgChannel) : EcgChannel :=
  mkEcgChannel (rhythm s) (hr s) v (ecg_visible s).

Definition set_ecg_visible (v : bool) (s : EcgChannel) : EcgChannel :=
  mkEcgChannel (rhythm s) (hr s) (ecg_params s) v.

Record Spo2Channel : Type := mkSpo2Channel {
  spo2_value : num;
  spo2_shape : string;
  spo2_visible : bool
}.

Definition set_spo2_value (v : num) (s : Spo2Channel) : Spo2Channel :=
  mkSpo2Channel v (spo2_shape s) (spo2_visible s).

Definition set_spo2_shape (v : string) (s : Spo2Channel) : Spo2Channel :=
  mkSpo2Channel (spo2_value s) v (spo2_visible s).

Definition set_spo2_visible (v : bool) (s : Spo2Channel) : Spo2Channel :=
  mkSpo2Channel (spo2_value s) (spo2_shape s) v.

Record AbpChannel : Type := mkAbpChannel {
  sys : num;
  dia : num;
  abp_shape : string;
  abp_visible : bool
}.

Definition set_sys (v : num) (s : AbpChannel) : AbpChannel :=
  mkAbpChannel v (dia s) (abp_shape s) (abp_visible s).

Definition set_dia (v : num) (s : AbpChannel) : AbpChannel :=
  mkAbpChannel (sys s) v (abp_shape s) (abp_visible s).

Definition set_abp_shape (v : string) (s : AbpChannel) : AbpChannel :=
  mkAbpChannel (sys s) (dia s) v (abp_visible s).

Definition set_abp_visible (v : bool) (s : AbpChannel) : AbpChannel :=
  mkAbpChannel (sys s) (dia s) (abp_shape s) v.

Record Etco2Channel : Type := mkEtco2Channel {
  valueKpa : num;
  rr : num;
  etco2_unitPref : string;
  etco2_shape : string;
  etco2_visible : bool
}.

Definition set_valueKpa (v : num) (s : Etco2Channel) : Etco2Channel :=
  mkEtco2Channel v (rr s) (etco2_unitPref s) (etco2_shape s) (etco2_visible s).

Definition set_rr (v : num) (s : Etco2Channel) : Etco2Channel :=
  mkEtco2Channel (valueKpa s) v (etco2_unitPref s) (etco2_shape s)
    (etco2_visible s).

Definition set_etco2_unitPref (v : string) (s : Etco2Channel) : Etco2Channel :=
  mkEtco2Channel (valueKpa s) (rr s) v (etco2_shape s) (etco2_visible s).

Definition set_etco2_shape (v : string) (s : Etco2Channel) : Etco2Channel :=
  mkEtco2Channel (valueKpa s) (rr s) (etco2_unitPref s) v (etco2_visible s).

Definition set_etco2_visible (v : bool) (s : Etco2Channel) : Etco2Channel :=
  mkEtco2Channel (valueKpa s) (rr s) (etco2_unitPref s) (etco2_shape s) v.

Record TempChannel : Type := mkTempChannel {
  valueC : num;
  temp_unitPref : string;
  temp_visible : bool
}.

Definition set_valueC (v : num) (s : TempChannel) : TempChannel :=
  mkTempChannel v (temp_unitPref s) (temp_visible s).

Definition set_temp_unitPref (v : string) (s : TempChannel) : TempChannel :=
  mkTempChannel (valueC s) v (temp_visible s).

Definition set_temp_visible (v : bool) (s : TempChannel) : TempChannel :=
  mkTempChannel (valueC s) (temp_unitPref s) v.

Record Params : Type := mkParams {
  ecg : EcgChannel;
  spo2 : Spo2Channel;
  abp : AbpChannel;
  etco2 : Etco2Channel;
  temp : TempChannel
}.

Definition set_ecg (v : EcgChannel) (s : Params) : Params :=
  mkParams v (spo2 s) (abp s) (etco2 s) (temp s).

Definition set_spo2 (v : Spo2Channel) (s : Params) : Params :=
  mkParams (ecg s) v (abp s) (etco2 s) (temp s).

Definition set_abp (v : AbpChannel) (s : Params) : Params :=
  mkParams (ecg s) (spo2 s) v (etco2 s) (temp s).

Definition set_etco2 (v : Etco2Channel) (s : Params) : Params :=
  mkParams (ecg s) (spo2 s) (abp s) v (temp s).

Definition set_temp (v : TempChannel) (s : Params) : Params :=
  mkParams (ecg s) (spo2 s) (abp s) (etco2 s) v.

(** The fields of a [WaveformGenerator] that the simulation reads and writes. *)
Record Monitor : Type := mkMonitor {
  rhythmTime : num;
  respiratoryTime : num;
  lastTimestamp : num;
  simulationTimeAccumulator : num;
  nextBeatTime : num;
  lastBeatTime : num;
  nextBreathTime : num;
  lastBreathTime : num;
  nextCompressionTime : num;
  lastCompressionTime : num;
  ecgState : option AVBlockState;
  currentParams : Params;
  targetParams : Params;
  interpolationTargetParams : option Params;
  animationRunning : bool;
  shockRequested : bool;
  pendingEtco2Params : option Etco2Channel;
  isEtco2UpdatePending : bool;
  pendingSpo2Params : option Spo2Channel;
  isSpo2UpdatePending : bool;
  pendingAbpParams : option AbpChannel;
  isAbpUpdatePending : bool
}.

Definition set_rhythmTime (v : num) (s : Monitor) : Monitor :=
  mkMonitor v (respiratoryTime s) (lastTimestamp s)
    (simulationTimeAccumulator s) (nextBeatTime s) (lastBeatTime s)
    (nextBreathTime s) (lastBreathTime s) (nextCompressionTime s)
    (lastCompressionTime s) (ecgState s) (currentParams s) (targetParams s)
    (interpolationTargetParams s) (animationRunning s) (shockRequested s)
    (pendingEtco2Params s) (isEtco2UpdatePending s) (pendingSpo2Params s)
    (isSpo2UpdatePending s) (pendingAbpParams s) (isAbpUpdatePending s).

Definition set_respiratoryTime (v : num) (s : Monitor) : Monitor :=
  mkMonitor (rhythmTime s) v (lastTimestamp s) (simulationTimeAccumulator s)
    (nextBeatTime s) (lastBeatTime s) (nextBreathTime s) (lastBreathTime s)
    (nextCompressionTime s) (lastCompressionTime s) (ecgState s)
    (currentParams s) (targetParams s) (interpolationTargetParams s)
    (animationRunning s) (shockRequested s) (pendingEtco2Params s)
    (isEtco2UpdatePending s) (pendingSpo2Params s) (isSpo2UpdatePending s)
    (pendingAbpParams s) (isAbpUpdatePending s).

Definition set_lastTimestamp (v : num) (s : Monitor) : Monitor :=
  mkMonitor (rhythmTime s) (respiratoryTime s) v (simulationTimeAccumulator s)
    (nextBeatTime s) (lastBeatTime s) (nextBreathTime s) (lastBreathTime s)
    (nextCompressionTime s) (lastCompressionTime s) (ecgState s)
    (currentParams s) (targetParams s) (interpolationTargetParams s)
    (animationRunning s) (shockRequested s) (pendingEtco2Params s)
    (isEtco2UpdatePending s) (pendingSpo2Params s) (isSpo2UpdatePending s)
    (pendingAbpParams s) (isAbpUpdatePending s).

Definition set_simulationTimeAccumulator (v : num) (s : Monitor) : Monitor :=
  mkMonitor (rhythmTime s) (respiratoryTime s) (lastTimestamp s) v
    (nextBeatTime s) (lastBeatTime s) (nextBreathTime s) (lastBreathTime s)
    (nextCompressionTime s) (lastCompressionTime s) (ecgState s)
    (currentParams s) (targetParams s) (interpolationTargetParams s)
    (animationRunning s) (shockRequested s) (pendingEtco2Params s)
    (isEtco2UpdatePending s) (pendingSpo2Params s) (isSpo2UpdatePending s)
    (pendingAbpParams s) (isAbpUpdatePending s).

Definition set_nextBeatTime (v : num) (s : Monitor) : Monitor :=
  mkMonitor (rhythmTime s) (respiratoryTime s) (lastTimestamp s)
    (simulationTimeAccumulator s) v (lastBeatTime s) (nextBreathTime s)
    (lastBreathTime s) (nextCompressionTime s) (lastCompressionTime s)
    (ecgState s) (currentParams s) (targetParams s)
    (interpolationTargetParams s) (animationRunning s) (shockRequested s)
    (pendingEtco2Params s) (isEtco2UpdatePending s) (pendingSpo2Params s)
    (isSpo2UpdatePending s) (pendingAbpParams s) (isAbpUpdatePending s).

Definition set_lastBeatTime (v : num) (s : Monitor) : Monitor :=
  mkMonitor (rhythmTime s) (respiratoryTime s) (lastTimestamp s)
    (simulationTimeAccumulator s) (nextBeatTime s) v (nextBreathTime s)
    (lastBreathTime s) (nextCompressionTime s) (lastCompressionTime s)
    (ecgState s) (currentParams s) (targetParams s)
    (interpolationTargetParams s) (animationRunning s) (shockRequested s)
    (pendingEtco2Params s) (isEtco2UpdatePending s) (pendingSpo2Params s)
    (isSpo2UpdatePending s) (pendingAbpParams s) (isAbpUpdatePending s).

Definition set_nextBreathTime (v : num) (s : Monitor) : Monitor :=
  mkMonitor (rhythmTime s) (respiratoryTime s) (lastTimestamp s)
    (simulationTimeAccumulator s) (nextBeatTime s) (lastBeatTime s) v
    (lastBreathTime s) (nextCompressionTime s) (lastCompressionTime s)
    (ecgState s) (currentParams s) (targetParams s)
    (interpolationTargetParams s) (animationRunning s) (shockRequested s)
    (pendingEtco2Params s) (isEtco2UpdatePending s) (pendingSpo2Params s)
    (isSpo2UpdatePending s) (pendingAbpParams s) (isAbpUpdatePending s).

Definition set_lastBreathTime (v : num) (s : Monitor) : Monitor :=
  mkMonitor (rhythmTime s) (respiratoryTime s) (lastTimestamp s)
    (simulationTimeAccumulator s) (nextBeatTime s) (lastBeatTime s)
    (nextBreathTime s) v (nextCompressionTime s) (lastCompressionTime s)
    (ecgState s) (currentParams s) (targetParams s)
    (interpolationTargetParams s) (animationRunning s) (shockRequested s)
    (pendingEtco2Params s) (isEtco2UpdatePending s) (pendingSpo2Params s)
    (isSpo2UpdatePending s) (pendingAbpParams s) (isAbpUpdatePending s).

Definition set_nextCompressionTime (v : num) (s : Monitor) : Monitor :=
  mkMonitor (rhythmTime s) (respiratoryTime s) (lastTimestamp s)
    (simulationTimeAccumulator s) (nextBeatTime s) (lastBeatTime s)
    (nextBreathTime s) (lastBreathTime s) v (lastCompressionTime s)
    (ecgState s) (currentParams s) (targetParams s)
    (interpolationTargetParams s) (animationRunning s) (shockRequested s)
    (pendingEtco2Params s) (isEtco2UpdatePending s) (pendingSpo2Params s)
    (isSpo2UpdatePending s) (pendingAbpParams s) (isAbpUpdatePending s).

Definition set_lastCompressionTime (v : num) (s : Monitor) : Monitor :=
  mkMonitor (rhythmTime s) (respiratoryTime s) (lastTimestamp s)
    (simulationTimeAccumulator s) (nextBeatTime s) (lastBeatTime s)
    (nextBreathTime s) (lastBreathTime s) (nextCompressionTime s) v
    (ecgState s) (currentParams s) (targetParams s)
    (interpolationTargetParams s) (animationRunning s) (shockRequested s)
    (pendingEtco2Params s) (isEtco2UpdatePending s) (pendingSpo2Params s)
    (isSpo2UpdatePending s) (pendingAbpParams s) (isAbpUpdatePending s).

Definition set_ecgState (v : option AVBlockState) (s : Monitor) : Monitor :=
  mkMonitor (rhythmTime s) (respiratoryTime s) (lastTimestamp s)
    (simulationTimeAccumulator s) (nextBeatTime s) (lastBeatTime s)
    (nextBreathTime s) (lastBreathTime s) (nextCompressionTime s)
    (lastCompressionTime s) v (currentParams s) (targetParams s)
    (interpolationTargetParams s) (animationRunning s) (shockRequested s)
    (pendingEtco2Params s) (isEtco2UpdatePending s) (pendingSpo2Params s)
    (isSpo2UpdatePending s) (pendingAbpParams s) (isAbpUpdatePending s).

Definition set_currentParams (v : Params) (s : Monitor) : Monitor :=
  mkMonitor (rhythmTime s) (respiratoryTime s) (lastTimestamp s)
    (simulationTimeAccumulator s) (nextBeatTime s) (lastBeatTime s)
    (nextBreathTime s) (lastBreathTime s) (nextCompressionTime s)
    (lastCompressionTime s) (ecgState s) v (targetParams s)
    (interpolationTargetParams s) (animationRunning s) (shockRequested s)
    (pendingEtco2Params s) (isEtco2UpdatePending s) (pendingSpo2Params s)
    (isSpo2UpdatePending s) (pendingAbpParams s) (isAbpUpdatePending s).

Definition set_targetParams (v : Params) (s : Monitor) : Monitor :=
  mkMonitor (rhythmTime s) (respiratoryTime s) (lastTimestamp s)
    (simulationTimeAccumulator s) (nextBeatTime s) (lastBeatTime s)
    (nextBreathTime s) (lastBreathTime s) (nextCompressionTime s)
    (lastCompressionTime s) (ecgState s) (currentParams s) v
    (interpolationTargetParams s) (animationRunning s) (shockRequested s)
    (pendingEtco2Params s) (isEtco2UpdatePending s) (pendingSpo2Params s)
    (isSpo2UpdatePending s) (pendingAbpParams s) (isAbpUpdatePending s).

Definition set_interpolationTargetParams (v : option Params) (s : Monitor) : Monitor :=
  mkMonitor (rhythmTime s) (respiratoryTime s) (lastTimestamp s)
    (simulationTimeAccumulator s) (nextBeatTime s) (lastBeatTime s)
    (nextBreathTime s) (lastBreathTime s) (nextCompressionTime s)
    (lastCompressionTime s) (ecgState s) (currentParams s) (targetParams s) v
    (animationRunning s) (shockRequested s) (pendingEtco2Params s)
    (isEtco2UpdatePending s) (pendingSpo2Params s) (isSpo2UpdatePending s)
    (pendingAbpParams s) (isAbpUpdatePending s).

Definition set_animationRunning (v : bool) (s : Monitor) : Monitor :=
  mkMonitor (rhythmTime s) (respiratoryTime s) (lastTimestamp s)
    (simulationTimeAccumulator s) (nextBeatTime s) (lastBeatTime s)
    (nextBreathTime s) (lastBreathTime s) (nextCompressionTime s)
    (lastCompressionTime s) (ecgState s) (currentParams s) (targetParams s)
    (interpolationTargetParams s) v (shockRequested s) (pendingEtco2Params s)
    (isEtco2UpdatePending s) (pendingSpo2Params s) (isSpo2UpdatePending s)
    (pendingAbpParams s) (isAbpUpdatePending s).

Definition set_shockRequested (v : bool) (s : Monitor) : Monitor :=
  mkMonitor (rhythmTime s) (respiratoryTime s) (lastTimestamp s)
    (simulationTimeAccumulator s) (nextBeatTime s) (lastBeatTime s)
    (nextBreathTime s) (lastBreathTime s) (nextCompressionTime s)
    (lastCompressionTime s) (ecgState s) (currentParams s) (targetParams s)
    (interpolationTargetParams s) (animationRunning s) v
    (pendingEtco2Params s) (isEtco2UpdatePending s) (pendingSpo2Params s)
    (isSpo2UpdatePending s) (pendingAbpParams s) (isAbpUpdatePending s).

Definition set_pendingEtco2Params (v : option Etco2Channel) (s : Monitor) : Monitor :=
  mkMonitor (rhythmTime s) (respiratoryTime s) (lastTimestamp s)
    (simulationTimeAccumulator s) (nextBeatTime s) (lastBeatTime s)
    (nextBreathTime s) (lastBreathTime s) (nextCompressionTime s)
    (lastCompressionTime s) (ecgState s) (currentParams s) (targetParams s)
    (interpolationTargetParams s) (animationRunning s) (shockRequested s) v
    (isEtco2UpdatePending s) (pendingSpo2Params s) (isSpo2UpdatePending s)
    (pendingAbpParams s) (isAbpUpdatePending s).

Definition set_isEtco2UpdatePending (v : bool) (s : Monitor) : Monitor :=
  mkMonitor (rhythmTime s) (respiratoryTime s) (lastTimestamp s)
    (simulationTimeAccumulator s) (nextBeatTime s) (lastBeatTime s)
    (nextBreathTime s) (lastBreathTime s) (nextCompressionTime s)
    (lastCompressionTime s) (ecgState s) (currentParams s) (targetParams s)
    (interpolationTargetParams s) (animationRunning s) (shockRequested s)
    (pendingEtco2Params s) v (pendingSpo2Params s) (isSpo2UpdatePending s)
    (pendingAbpParams s) (isAbpUpdatePending s).

Definition set_pendingSpo2Params (v : option Spo2Channel) (s : Monitor) : Monitor :=
  mkMonitor (rhythmTime s) (respiratoryTime s) (lastTimestamp s)
    (simulationTimeAccumulator s) (nextBeatTime s) (lastBeatTime s)
    (nextBreathTime s) (lastBreathTime s) (nextCompressionTime s)
    (lastCompressionTime s) (ecgState s) (currentParams s) (targetParams s)
    (interpolationTargetParams s) (animationRunning s) (shockRequested s)
    (pendingEtco2Params s) (isEtco2UpdatePending s) v (isSpo2UpdatePending s)
    (pendingAbpParams s) (isAbpUpdatePending s).

Definition set_isSpo2UpdatePending (v : bool) (s : Monitor) : Monitor :=
  mkMonitor (rhythmTime s) (respiratoryTime s) (lastTimestamp s)
    (simulationTimeAccumulator s) (nextBeatTime s) (lastBeatTime s)
    (nextBreathTime s) (lastBreathTime s) (nextCompressionTime s)
    (lastCompressionTime s) (ecgState s) (currentParams s) (targetParams s)
    (interpolationTargetParams s) (animationRunning s) (shockRequested s)
    (pendingEtco2Params s) (isEtco2UpdatePending s) (pendingSpo2Params s) v
    (pendingAbpParams s) (isAbpUpdatePending s).

Definition set_pendingAbpParams (v : option AbpChannel) (s : Monitor) : Monitor :=
  mkMonitor (rhythmTime s) (respiratoryTime s) (lastTimestamp s)
    (simulationTimeAccumulator s) (nextBeatTime s) (lastBeatTime s)
    (nextBreathTime s) (lastBreathTime s) (nextCompressionTime s)
    (lastCompressionTime s) (ecgState s) (currentParams s) (targetParams s)
    (interpolationTargetParams s) (animationRunning s) (shockRequested s)
    (pendingEtco2Params s) (isEtco2UpdatePending s) (pendingSpo2Params s)
    (isSpo2UpdatePending s) v (isAbpUpdatePending s).

Definition set_isAbpUpdatePending (v : bool) (s : Monitor) : Monitor :=
  mkMonitor (rhythmTime s) (respiratoryTime s) (lastTimestamp s)
    (simulationTimeAccumulator s) (nextBeatTime s) (lastBeatTime s)
    (nextBreathTime s) (lastBreathTime s) (nextCompressionTime s)
    (lastCompressionTime s) (ecgState s) (currentParams s) (targetParams s)
    (interpolationTargetParams s) (animationRunning s) (shockRequested s)
    (pendingEtco2Params s) (isEtco2UpdatePending s) (pendingSpo2Params s)
    (isSpo2UpdatePending s) (pendingAbpParams s) v.

(** ** config.js and the constants of script.js *)

Definition SAMPLE_RATE : num := Fin 100.
Definition VITAL_INTERPOLATION_RATE : num := Fin 0.3.
Definition INTERPOLATION_SNAP_THRESHOLD : num := Fin 0.1.
Definition DEFAULT_ETCO2_KPA : num := Fin 5.3.
Definition DEFAULT_RESP_RATE : num := Fin 15.
Definition DEFAULT_ETCO2_SHAPE : string := "normal".
Definition DEFAULT_ABP_SHAPE : string := "normal".
Definition DEFAULT_SPO2_SHAPE : string := "normal".
Definition SHOCK_ARTIFACT_SAMPLES : num := Fin 15.

(** [const simulationStep = 1.0 / SAMPLE_RATE] *)
Definition simulationStep : num := (Fin 1.0 / SAMPLE_RATE)%num.

(** The draws of one logical step: the irregularity draw of
    [_calculateNextBeatTime] and the draws of the ECG generator. *)
Record TickDraws : Type := mkTickDraws {
  td_beat : num;
  td_gen : Draws
}.

(** [s || d] on a string: the empty string is falsy. *)
Definition strOr (s d : string) : string :=
  if String.eqb s "" then d else s.

(** Two numbers written by [JSON.stringify] compare equal when they are the
    same finite number, or both non-finite (both written [null]). *)
Definition jsonNumEqb (x y : num) : bool :=
  match x, y with
  | Fin a, Fin b => Qeq_bool a b
  | Fin _, _ | _, Fin _ => false
  | _, _ => true
  end.

Definition etco2CoreEqb (a b : Etco2Channel) : bool :=
  jsonNumEqb (valueKpa a) (valueKpa b) && jsonNumEqb (rr a) (rr b)
  && String.eqb (etco2_shape a) (etco2_shape b).

Definition etco2JsonEqb (a b : Etco2Channel) : bool :=
  etco2CoreEqb a b && String.eqb (etco2_unitPref a) (etco2_unitPref b)
  && Bool.eqb (etco2_visible a) (etco2_visible b).

Definition spo2CoreEqb (a b : Spo2Channel) : bool :=
  jsonNumEqb (spo2_value a) (spo2_value b) && String.eqb (spo2_shape a) (spo2_shape b).

Definition abpCoreEqb (a b : AbpChannel) : bool :=
  jsonNumEqb (sys a) (sys b) && jsonNumEqb (dia a) (dia b)
  && String.eqb (abp_shape a) (abp_shape b).

(** The test that recurs in the engine: PEA, chaotic, flat, pulseless VT or
    CPR artifact. *)
Definition isPulselessOrCpr (rhythmKey : string) (p : RhythmParams) : bool :=
  truthy (isPEA p) || truthy (isChaotic p) || truthy (isFlat p)
  || String.eqb rhythmKey "vt_pulseless"
  || (truthy (isArtifact p) && strIs (artifactType p) "cpr").

(** The keys of [ecgGeneratorRegistry]. *)
Definition registeredGenerator (g : option string) : bool :=
  strIs g "pqrst" || strIs g "avBlock" || strIs g "chaotic"
  || strIs g "flatline" || strIs g "artifact" || strIs g "paced".

(** [rr > 0 ? 60.0 / rr : Infinity] and its variant with the 0.5 s floor. *)
Definition breathIntervalOf (rr : num) : num :=
  if (rr >? Fin 0)%num then (Fin 60.0 / rr)%num else PInf.

Definition breathIntervalFloored (rr : num) : num :=
  if (rr >? Fin 0)%num then Num.max (Fin 0.5) (Fin 60.0 / rr)%num else PInf.

Section Engine.

Local Open Scope num_scope.

Variables Math_sin Math_exp : num -> num.
Variable Math_pow : num -> num -> num.

(** The rhythm catalog of [rhythms.js], a read-only table from rhythm
    identifier to rhythm definition.  The file is not among the sources at
    hand; the engine is modelled for any catalog. *)
Variable RHYTHM_PARAMS : string -> option RhythmParams.

Definition _resetBreathTiming (interval : num) (m : Monitor) : Monitor :=
  set_nextBreathTime (respiratoryTime m + interval)
    (set_lastBreathTime (respiratoryTime m) m).

(** [this.interpolationTargetParams?.ecg || this.currentParams.ecg] *)
Definition ecgSourceForRate (m : Monitor) : EcgChannel :=
  match interpolationTargetParams m with
  | Some p => ecg p
  | None => ecg (currentParams m)
  end.

(** The local [rate] of [_calculateNextBeatTime]. *)
Definition beatRate (src : EcgChannel) : num :=
  let params := ecg_params src in
  let generatorType := generatorType params in
  let isPEA := truthy (isPEA params) in
  let isPulselessVT := String.eqb (rhythm src) "vt_pulseless" in
  if strIs generatorType "pqrst" then
    if isPEA || isPulselessVT then
      Num.max (ensureFinite (toNumber (baseHR params)) (Fin 0)) (Fin 0)
    else Num.max (ensureFinite (hr src) (Fin 0)) (Fin 0)
  else if strIs generatorType "avBlock" || strIs generatorType "paced" then
    Num.max (ensureFinite (hr src) (Fin 0)) (Fin 0)
  else Fin 0.

(** The local [interval] of [_calculateNextBeatTime], from the rate, the
    rhythm's irregularity and the draw of [Math.random()]. *)
Definition beatInterval (rate : num) (params : RhythmParams) (draw : num) : num :=
  if rate >? Fin 0 then
    let interval := Fin 60.0 / rate in
    let irreg := orDefault (Fin 0) (irregular params) in
    let interval :=
      if (irreg >? Fin 0) && (irreg <=? Fin 1) then
        interval * (Fin 1.0 + (draw - Fin 0.5) * Fin 2 * irreg)
      else interval in
    Num.max (Fin 0.1) interval
  else PInf.

Definition _calculateNextBeatTime (draw : num) (m : Monitor) : Monitor :=
  let src := ecgSourceForRate m in
  let rate := beatRate src in
  let interval := beatInterval rate (ecg_params src) draw in
  if interval =? PInf then set_nextBeatTime PInf m
  else
    let baseTime :=
      if lastBeatTime m =? NInf then rhythmTime m else lastBeatTime m in
    let next := baseTime + interval in
    if next <=? rhythmTime m then
      set_nextBeatTime (rhythmTime m + (Fin 1.0 / SAMPLE_RATE)) m
    else set_nextBeatTime next m.

Definition _resetCompressionTiming (m : Monitor) : Monitor :=
  let m := set_lastCompressionTime (rhythmTime m) m in
  let params := ecg_params (ecg (currentParams m)) in
  let interval :=
    if strIs (generatorType params) "artifact" && strIs (artifactType params) "cpr" then
      let freq := orDefault (Fin 110) (artifact_freq params) in
      if freq >? Fin 0 then Num.max (Fin 0.1) (Fin 60.0 / freq) else PInf
    else PInf in
  let m := set_nextCompressionTime (rhythmTime m + interval) m in
  set_lastBeatTime (lastCompressionTime m) m.

(** The two blocks that apply a pending SpO2 and a pending ABP shape. *)
Definition applyPendingSpo2 (m : Monitor) : Monitor :=
  match isSpo2UpdatePending m, pendingSpo2Params m with
  | true, Some pending =>
      let cur := currentParams m in
      let m := set_currentParams
                 (set_spo2 (set_spo2_shape (spo2_shape pending) (spo2 cur)) cur) m in
      set_pendingSpo2Params None (set_isSpo2UpdatePending false m)
  | _, _ => m
  end.

Definition applyPendingAbp (m : Monitor) : Monitor :=
  match isAbpUpdatePending m, pendingAbpParams m with
  | true, Some pending =>
      let cur := currentParams m in
      let m := set_currentParams
                 (set_abp (set_abp_shape (abp_shape pending) (abp cur)) cur) m in
      set_pendingAbpParams None (set_isAbpUpdatePending false m)
  | _, _ => m
  end.

(** The breath half of [_checkAndResetTimers]. *)
Definition checkBreathTimer (m : Monitor) : Monitor :=
  match isEtco2UpdatePending m, pendingEtco2Params m with
  | true, Some pending =>
      if respiratoryTime m >=? nextBreathTime m then
        let m := set_currentParams (set_etco2 pending (currentParams m)) m in
        let newRr := rr (etco2 (currentParams m)) in
        let newBreathInterval := breathIntervalFloored newRr in
        let m := set_lastBreathTime (respiratoryTime m) m in
        let m := set_nextBreathTime (respiratoryTime m + newBreathInterval) m in
        set_pendingEtco2Params None (set_isEtco2UpdatePending false m)
      else m
  | _, _ =>
      if respiratoryTime m >=? nextBreathTime m then
        let currentRr := ensureFinite (rr (etco2 (currentParams m))) (Fin 0) in
        let currentBreathInterval := breathIntervalFloored currentRr in
        if currentBreathInterval <? PInf then
          _resetBreathTiming currentBreathInterval m
        else m
      else m
  end.

(** The beat and compression half of [_checkAndResetTimers]. *)
Definition checkBeatTimer (draw : num) (m : Monitor) : Monitor :=
  let currentTime := rhythmTime m in
  let ecgParams := ecg_params (ecg (currentParams m)) in
  let generatorType := generatorType ecgParams in
  if strIs generatorType "pqrst" || strIs generatorType "avBlock"
     || strIs generatorType "paced" then
    if currentTime >=? nextBeatTime m then
      let m := set_lastBeatTime (nextBeatTime m) m in
      let m := _calculateNextBeatTime draw m in
      applyPendingAbp (applyPendingSpo2 m)
    else m
  else if strIs generatorType "artifact" && strIs (artifactType ecgParams) "cpr" then
    if currentTime >=? nextCompressionTime m then
      let m := _resetCompressionTiming m in
      applyPendingAbp (applyPendingSpo2 m)
    else m
  else m.

Definition _checkAndResetTimers (draw : num) (m : Monitor) : Monitor :=
  checkBeatTimer draw (checkBreathTimer m).

(** What [_generateECGWaveformInternal] does to the engine: the generator
    state it returns and its resets of [lastBeatTime].  (The sample it
    returns goes to the sweep buffer.) *)
Definition _generateECGWaveformInternal (d : Draws) (m : Monitor) : Monitor :=
  let params := ecg_params (ecg (currentParams m)) in
  let generatorType := generatorType params in
  let currentEcgState := option_map jsonAVBlockState (ecgState m) in
  if registeredGenerator generatorType then
    if strIs generatorType "pqrst" || strIs generatorType "paced" then
      set_ecgState None m
    else if strIs generatorType "avBlock" then
      let result :=
        generateAVBlock Math_sin Math_exp Math_pow (rhythmTime m) params d
          currentEcgState in
      set_ecgState (Some (snd result)) m
    else if strIs generatorType "chaotic" then
      set_lastBeatTime NInf (set_ecgState None m)
    else if strIs generatorType "flatline" then
      set_lastBeatTime NInf (set_ecgState None m)
    else if strIs generatorType "artifact" && strIs (artifactType params) "cpr" then
      set_ecgState None m
    else set_ecgState currentEcgState m
  else set_lastBeatTime NInf (set_ecgState None m).

(** One logical step of the simulation. *)
Definition updateWaveforms (step : num) (d : TickDraws) (m : Monitor) : Monitor :=
  let m := set_rhythmTime (rhythmTime m + step) m in
  let m := set_respiratoryTime (respiratoryTime m + step) m in
  let m := _checkAndResetTimers (td_beat d) m in
  _generateECGWaveformInternal (td_gen d) m.

(** *** initiateParameterChange *)

(** The visibility loop: the visibility flags of the target go to [current]
    at once. *)
Definition applyVisibility (target cur : Params) : Params :=
  mkParams
    (set_ecg_visible (ecg_visible (ecg target)) (ecg cur))
    (set_spo2_visible (spo2_visible (spo2 target)) (spo2 cur))
    (set_abp_visible (abp_visible (abp target)) (abp cur))
    (set_etco2_visible (etco2_visible (etco2 target)) (etco2 cur))
    (set_temp_visible (temp_visible (temp target)) (temp cur)).

(** [interpolationTargetParams] is assigned a copy of [targetParams] first
    thing, so it is present from there on. *)
Definition interp (m : Monitor) : Params :=
  orDefault (targetParams m) (interpolationTargetParams m).

Definition set_interp (p : Params) (m : Monitor) : Monitor :=
  set_interpolationTargetParams (Some p) m.

(** ETCO2: a difference from [current] (or from what is already pending)
    is recorded as pending, to be applied at the next breath. *)
Definition ipcEtco2 (oldCurrentEtco2RR : num) (m : Monitor) : Monitor :=
  let target := etco2 (targetParams m) in
  let cur := etco2 (currentParams m) in
  let pendingDiffers :=
    match pendingEtco2Params m with
    | Some p => negb (etco2JsonEqb p target)
    | None => true
    end in
  let m :=
    if negb (etco2CoreEqb target cur) || (isEtco2UpdatePending m && pendingDiffers) then
      let m := set_pendingEtco2Params (Some target) m in
      let m := set_isEtco2UpdatePending true m in
      let m := set_interp (set_etco2 target (interp m)) m in
      let newPendingRR := rr target in
      if (newPendingRR >? Fin 0) && (oldCurrentEtco2RR =? Fin 0) then
        set_nextBreathTime (respiratoryTime m) m
      else m
    else m in
  if negb (String.eqb (etco2_unitPref (etco2 (currentParams m))) (etco2_unitPref target)) then
    let cur := currentParams m in
    let m := set_currentParams
               (set_etco2 (set_etco2_unitPref (etco2_unitPref target) (etco2 cur)) cur) m in
    let i := interp m in
    set_interp (set_etco2 (set_etco2_unitPref (etco2_unitPref target) (etco2 i)) i) m
  else m.

(** SpO2: the target is compared with the interpolation target. *)
Definition ipcSpo2 (oldSpo2Shape : string) (m : Monitor) : Monitor :=
  let target := spo2 (targetParams m) in
  if negb (spo2CoreEqb target (spo2 (interp m))) then
    let m := set_pendingSpo2Params (Some target) m in
    let m := set_isSpo2UpdatePending true m in
    let m := set_interp (set_spo2 target (interp m)) m in
    let wasSpo2NoSignal := String.eqb oldSpo2Shape "no_signal" in
    let isNowSpo2Signal :=
      negb (String.eqb (spo2_shape target) "no_signal") && (spo2_value target >? Fin 0) in
    if wasSpo2NoSignal && isNowSpo2Signal then
      let cur := currentParams m in
      let m := set_currentParams
                 (set_spo2 (set_spo2_shape (spo2_shape target) (spo2 cur)) cur) m in
      set_isSpo2UpdatePending false m
    else m
  else m.

(** ABP: the target is compared with the interpolation target. *)
Definition ipcAbp (oldAbpShape : string) (m : Monitor) : Monitor :=
  let target := abp (targetParams m) in
  if negb (abpCoreEqb target (abp (interp m))) then
    let m := set_pendingAbpParams (Some target) m in
    let m := set_isAbpUpdatePending true m in
    let m := set_interp (set_abp target (interp m)) m in
    let cur := currentParams m in
    let wasAbpNoPressure :=
      String.eqb oldAbpShape "damped"
      && ((sys (abp cur) =? Fin 0) || (dia (abp cur) =? Fin 0)) in
    let isNowAbpPressure := (sys target >? Fin 0) || (dia target >? Fin 0) in
    if wasAbpNoPressure && isNowAbpPressure then
      let m := set_currentParams
                 (set_abp (set_abp_shape (abp_shape target) (abp cur)) cur) m in
      set_isAbpUpdatePending false m
    else m
  else m.

(** The companion values a pulseless or CPR rhythm forces on the other
    channels when [rhythmDefaults] is in the catalog. *)
Definition snapToRhythmDefaults
    (targetRhythmKey : string) (rhythmDefaults : RhythmParams) (m : Monitor) : Monitor :=
  let cpr := String.eqb targetRhythmKey "cpr_artifact" in
  let cur := currentParams m in
  let spo2' :=
    set_spo2_shape
      (if cpr && truthyStr (spo2Shape rhythmDefaults)
       then orDefault "no_signal"%string (spo2Shape rhythmDefaults) else "no_signal"%string)
      (set_spo2_value
         (match spo2Value rhythmDefaults with
          | Some v => if cpr then v else Fin 0
          | None => Fin 0
          end) (spo2 cur)) in
  let abp' :=
    set_abp_shape
      (if cpr && truthyStr (cpr_abp_shape rhythmDefaults)
       then orDefault "damped"%string (cpr_abp_shape rhythmDefaults) else "damped"%string)
      (set_dia
         (match cpr_abp_dia rhythmDefaults with
          | Some v => if cpr then v else Fin 0
          | None => Fin 0
          end)
         (set_sys
            (match cpr_abp_sys rhythmDefaults with
             | Some v => if cpr then v else Fin 0
             | None => Fin 0
             end) (abp cur))) in
  let etco2' :=
    set_etco2_shape
      (if cpr && truthyStr (etco2Shape rhythmDefaults)
       then orDefault "disconnect"%string (etco2Shape rhythmDefaults)
       else "disconnect"%string)
      (set_rr
         (match respiratoryRate rhythmDefaults with
          | Some v => if cpr then v else Fin 0
          | None => Fin 0
          end)
         (set_valueKpa
            (match etco2ValueKpa rhythmDefaults with
             | Some v => if cpr then v else Fin 0
             | None => Fin 0
             end) (etco2 cur))) in
  let m := set_currentParams (set_etco2 etco2' (set_abp abp' (set_spo2 spo2' cur))) m in
  let m := set_interp (set_etco2 etco2' (interp m)) m in
  let m := set_pendingEtco2Params None (set_isEtco2UpdatePending false m) in
  let m := set_lastBreathTime NInf m in
  let m := set_nextBreathTime (respiratoryTime m) m in
  _resetBreathTiming (breathIntervalOf (rr (etco2 (currentParams m)))) m.

(** The rhythm-type and heart-rate part; returns [ecgTimingResetNeeded]
    with the state. *)
Definition ipcEcg (oldRhythmKey : string) (oldCurrentHR : num) (m : Monitor)
  : Monitor * bool :=
  let targetRhythmKey := rhythm (ecg (targetParams m)) in
  if negb (String.eqb targetRhythmKey "") && negb (String.eqb targetRhythmKey oldRhythmKey) then
    (* rhythm type changed *)
    let cur := currentParams m in
    let newEcgRuntimeParams := orDefault emptyParams (RHYTHM_PARAMS targetRhythmKey) in
    let m := set_currentParams
               (set_ecg (set_ecg_params newEcgRuntimeParams
                           (set_rhythm targetRhythmKey (ecg cur))) cur) m in
    let m := set_ecgState None m in
    if isPulselessOrCpr targetRhythmKey newEcgRuntimeParams then
      let cur := currentParams m in
      let m := set_currentParams (set_ecg (set_hr (Fin 0) (ecg cur)) cur) m in
      let m :=
        match RHYTHM_PARAMS targetRhythmKey with
        | Some rhythmDefaults => snapToRhythmDefaults targetRhythmKey rhythmDefaults m
        | None => m
        end in
      let cur := currentParams m in
      let i := interp m in
      let m := set_interp
                 (set_abp (abp cur)
                    (set_spo2 (spo2 cur) (set_ecg (set_hr (hr (ecg cur)) (ecg i)) i))) m in
      let m := set_pendingSpo2Params None (set_isSpo2UpdatePending false m) in
      let m := set_pendingAbpParams None (set_isAbpUpdatePending false m) in
      (m, true)
    else
      let wasPulselessOrCpr :=
        negb (String.eqb oldRhythmKey "")
        && match RHYTHM_PARAMS oldRhythmKey with
           | Some old => isPulselessOrCpr oldRhythmKey old
           | None => false
           end in
      if wasPulselessOrCpr then
        let cur := currentParams m in
        let target := targetParams m in
        (set_currentParams
           (set_abp (set_abp_shape (strOr (abp_shape (abp target)) DEFAULT_ABP_SHAPE) (abp cur))
              (set_spo2 (set_spo2_shape (strOr (spo2_shape (spo2 target)) DEFAULT_SPO2_SHAPE)
                           (spo2 cur)) cur)) m, true)
      else (m, true)
  else if negb (hr (ecg (targetParams m)) =? oldCurrentHR) then
    let cur := currentParams m in
    if isPulselessOrCpr (rhythm (ecg cur)) (ecg_params (ecg cur)) then
      let m := set_currentParams (set_ecg (set_hr (Fin 0) (ecg cur)) cur) m in
      let i := interp m in
      let m := set_interp (set_ecg (set_hr (Fin 0) (ecg i)) i) m in
      let t := targetParams m in
      (set_targetParams (set_ecg (set_hr (Fin 0) (ecg t)) t) m, false)
    else (m, true)
  else (m, false).

(** The start of [initiateParameterChange]: the interpolation target is
    replaced by a copy of the target, visibility is applied, and the ETCO2,
    SpO2 and ABP blocks run. *)
Definition ipcPrefix (m : Monitor) : Monitor :=
  let oldCurrentEtco2RR := rr (etco2 (currentParams m)) in
  let oldSpo2Shape := spo2_shape (spo2 (currentParams m)) in
  let oldAbpShape := abp_shape (abp (currentParams m)) in
  let m := set_interp (targetParams m) m in
  let m := set_currentParams (applyVisibility (targetParams m) (currentParams m)) m in
  let m := ipcEtco2 oldCurrentEtco2RR m in
  let m := ipcSpo2 oldSpo2Shape m in
  ipcAbp oldAbpShape m.

(** The block under [if (ecgTimingResetNeeded)]. *)
Definition ipcTimingReset (draw : num) (m : Monitor) : Monitor :=
  let m := set_lastBeatTime NInf m in
  let m := set_nextBeatTime (rhythmTime m) m in
  let m := _calculateNextBeatTime draw m in
  let m := set_lastCompressionTime NInf m in
  let m := set_nextCompressionTime (rhythmTime m) m in
  if strIs (artifactType (ecg_params (ecg (currentParams m)))) "cpr" then
    _resetCompressionTiming m
  else m.

Definition initiateParameterChange (draw : num) (m : Monitor) : Monitor :=
  let oldRhythmKey := rhythm (ecg (currentParams m)) in
  let oldCurrentHR := hr (ecg (currentParams m)) in
  let '(m, ecgTimingResetNeeded) := ipcEcg oldRhythmKey oldCurrentHR (ipcPrefix m) in
  if ecgTimingResetNeeded then ipcTimingReset draw m else m.

(** *** handleRemoteParamUpdate *)

(** A message from the session relay: the channels it carries.  The ECG
    channel arrives with whatever [params] the sender put there; the
    receiver replaces them from its own catalog. *)
Record ReceivedParams : Type := mkReceivedParams {
  r_ecg : option EcgChannel;
  r_spo2 : option Spo2Channel;
  r_abp : option AbpChannel;
  r_etco2 : option Etco2Channel;
  r_temp : option TempChannel
}.

Definition mergeReceived (r : ReceivedParams) (t : Params) : Params :=
  mkParams (orDefault (ecg t) (r_ecg r)) (orDefault (spo2 t) (r_spo2 r))
           (orDefault (abp t) (r_abp r)) (orDefault (etco2 t) (r_etco2 r))
           (orDefault (temp t) (r_temp r)).

Definition handleRemoteParamUpdate
    (draw : num) (receivedParams : ReceivedParams) (m : Monitor) : Monitor :=
  let t := mergeReceived receivedParams (targetParams m) in
  let key := rhythm (ecg t) in
  let t :=
    match (if String.eqb key "" then None else RHYTHM_PARAMS key) with
    | Some p => set_ecg (set_ecg_params p (ecg t)) t
    | None => set_ecg (set_ecg_params emptyParams (ecg t)) t
    end in
  let m := set_targetParams t m in
  if negb (animationRunning m) then
    let m := set_currentParams (targetParams m) m in
    set_interp (currentParams m) m
  else initiateParameterChange draw m.

(** *** _executeShock *)

(** [parseInt(x, 10)] of a number and [Math.round]. *)
Definition parseInt10 (x : num) : num :=
  match x with
  | Fin q => Fin (inject_Z (Num.Qtrunc q))
  | _ => NaN
  end.

Definition Math_round (x : num) : num :=
  match x with
  | Fin q => Fin (inject_Z (Qfloor (q + 0.5)))
  | _ => x
  end.

(** [_calculateInitialHR(ecgParams, sliderValue).initialHR] *)
Definition _calculateInitialHR (ecgParams : RhythmParams) (sliderValue : option num) : num :=
  let generatorType := generatorType ecgParams in
  let isCprArtifact := truthy (isArtifact ecgParams) && strIs (artifactType ecgParams) "cpr" in
  let isPulselessOrCPR :=
    truthy (isPEA ecgParams) || truthy (isChaotic ecgParams) || truthy (isFlat ecgParams)
    || isCprArtifact in
  let fromSlider (d : num) : num :=
    match sliderValue with
    | Some v => if Num.isNaN (parseInt10 v) then orDefault d (baseHR ecgParams)
                else parseInt10 v
    | None => orDefault d (baseHR ecgParams)
    end in
  let initialHR :=
    if isPulselessOrCPR then Fin 0
    else if strIs generatorType "avBlock" then orDefault (Fin 0) (baseHR ecgParams)
    else if strIs generatorType "paced" then fromSlider (Fin 70)
    else if strIs generatorType "pqrst" then fromSlider (Fin 75)
    else fromSlider (Fin 50) in
  Math_round (ensureFinite initialHR (Fin 0)).

(** What the shock handler reads from its surroundings: the role of this
    client and the value of the rhythm selector, if the element exists. *)
Record ShockEnv : Type := mkShockEnv {
  role : string;
  rhythmSelectValue : option string
}.

Definition shockRhythmKey (env : ShockEnv) (remoteRhythmKey : option string) : string :=
  match remoteRhythmKey with
  | Some k =>
      if String.eqb (role env) "monitor" && negb (String.eqb k "") then k
      else orDefault "normal"%string (rhythmSelectValue env)
  | None => orDefault "normal"%string (rhythmSelectValue env)
  end.

Definition _executeShock
    (draw : num) (env : ShockEnv) (remoteRhythmKey : option string) (m : Monitor)
  : Monitor :=
  let shockStartTime := rhythmTime m in
  let newRhythmKey := shockRhythmKey env remoteRhythmKey in
  let afterArtifact := shockStartTime + (SHOCK_ARTIFACT_SAMPLES / SAMPLE_RATE) + Fin 0.05 in
  match RHYTHM_PARAMS newRhythmKey with
  | None =>
      (* "Could not find params for rhythm ... Aborting rhythm change." *)
      let m := set_ecgState None m in
      let m := set_lastBeatTime NInf m in
      let m := set_nextBeatTime afterArtifact m in
      _calculateNextBeatTime draw m
  | Some newEcgRuntimeParams =>
      let isNewRhythmPulseless :=
        truthy (isPEA newEcgRuntimeParams) || truthy (isChaotic newEcgRuntimeParams)
        || truthy (isFlat newEcgRuntimeParams) || String.eqb newRhythmKey "vt_pulseless" in
      let isNewRhythmCpr := String.eqb newRhythmKey "cpr_artifact" in
      let nonPerfusing := isNewRhythmPulseless || isNewRhythmCpr in
      let newHr :=
        if nonPerfusing then Fin 0
        else _calculateInitialHR newEcgRuntimeParams (baseHR newEcgRuntimeParams) in
      let cur := currentParams m in
      let newEcg :=
        set_hr newHr (set_ecg_params newEcgRuntimeParams (set_rhythm newRhythmKey (ecg cur))) in
      let t := targetParams m in
      let newTargetSpo2 :=
        if nonPerfusing then
          mkSpo2Channel
            (if isNewRhythmCpr then orDefault (Fin 0) (spo2Value newEcgRuntimeParams) else Fin 0)
            (if isNewRhythmCpr
             then orDefault "no_signal"%string (spo2Shape newEcgRuntimeParams)
             else "no_signal"%string)
            (spo2_visible (spo2 t))
        else
          mkSpo2Channel
            (orDefault (Fin 98) (spo2Value newEcgRuntimeParams))
            (if truthyStr (spo2Shape newEcgRuntimeParams)
             then orDefault DEFAULT_SPO2_SHAPE (spo2Shape newEcgRuntimeParams)
             else DEFAULT_SPO2_SHAPE)
            (spo2_visible (spo2 t)) in
      let newTargetAbp :=
        if nonPerfusing then
          mkAbpChannel
            (if isNewRhythmCpr then orDefault (Fin 0) (cpr_abp_sys newEcgRuntimeParams) else Fin 0)
            (if isNewRhythmCpr then orDefault (Fin 0) (cpr_abp_dia newEcgRuntimeParams) else Fin 0)
            (if isNewRhythmCpr
             then orDefault "damped"%string (cpr_abp_shape newEcgRuntimeParams)
             else "damped"%string)
            (abp_visible (abp t))
        else
          let s := orDefault (Fin 120) (abpSys newEcgRuntimeParams) in
          let d := orDefault (Fin 80) (abpDia newEcgRuntimeParams) in
          let d := Num.max (Fin 0) (Num.min d (s - Fin 1)) in
          let s := Num.max (d + Fin 1) s in
          mkAbpChannel s d
            (if truthyStr (abpShape newEcgRuntimeParams)
             then orDefault DEFAULT_ABP_SHAPE (abpShape newEcgRuntimeParams)
             else DEFAULT_ABP_SHAPE)
            (abp_visible (abp t)) in
      let unit := strOr (etco2_unitPref (etco2 t)) "kPa" in
      let newTargetEtco2 :=
        if nonPerfusing then
          mkEtco2Channel
            (if isNewRhythmCpr then orDefault (Fin 0) (etco2ValueKpa newEcgRuntimeParams) else Fin 0)
            (if isNewRhythmCpr then orDefault (Fin 0) (respiratoryRate newEcgRuntimeParams) else Fin 0)
            unit
            (if isNewRhythmCpr
             then (if truthyStr (etco2Shape newEcgRuntimeParams)
                   then orDefault "cpr_low_flow"%string (etco2Shape newEcgRuntimeParams)
                   else "cpr_low_flow"%string)
             else "disconnect"%string)
            (etco2_visible (etco2 t))
        else
          mkEtco2Channel
            (orDefault DEFAULT_ETCO2_KPA (etco2ValueKpa newEcgRuntimeParams))
            (orDefault DEFAULT_RESP_RATE (respiratoryRate newEcgRuntimeParams))
            unit
            (if truthyStr (etco2Shape newEcgRuntimeParams)
             then orDefault DEFAULT_ETCO2_SHAPE (etco2Shape newEcgRuntimeParams)
             else DEFAULT_ETCO2_SHAPE)
            (etco2_visible (etco2 t)) in
      (* current: ECG at once, ETCO2 at once, SpO2 and ABP at once only
         for a non-perfusing rhythm *)
      let cur := set_ecg newEcg cur in
      let cur :=
        if nonPerfusing then
          set_abp (set_abp_shape (abp_shape newTargetAbp)
                     (set_dia (dia newTargetAbp) (set_sys (sys newTargetAbp) (abp cur))))
            (set_spo2 (set_spo2_shape (spo2_shape newTargetSpo2)
                         (set_spo2_value (spo2_value newTargetSpo2) (spo2 cur))) cur)
        else cur in
      let cur := set_etco2 newTargetEtco2 cur in
      let retarget (p : Params) : Params :=
        set_etco2 newTargetEtco2 (set_abp newTargetAbp (set_spo2 newTargetSpo2 (set_ecg newEcg p))) in
      let m := set_currentParams cur m in
      let m := set_targetParams (retarget t) m in
      let m := set_interp (retarget (interp m)) m in
      let m := set_pendingEtco2Params None (set_isEtco2UpdatePending false m) in
      let m := set_lastBreathTime NInf m in
      let m := set_nextBreathTime (respiratoryTime m) m in
      let m := _resetBreathTiming (breathIntervalOf (rr (etco2 (currentParams m)))) m in
      let m := set_ecgState None m in
      let m := set_lastBeatTime NInf m in
      let m := set_nextBeatTime afterArtifact m in
      let m := _calculateNextBeatTime draw m in
      let m := set_pendingSpo2Params None (set_isSpo2UpdatePending false m) in
      set_pendingAbpParams None (set_isAbpUpdatePending false m)
  end.

(** *** _animationLoop *)

(** One numeric field, one callback:
    [if (|diff| > snap) current += diff * rate * dt; else if (current !== target) current = target]. *)
Definition nudge (rate dt target current : num) : num :=
  let diff := target - current in
  if Num.abs diff >? INTERPOLATION_SNAP_THRESHOLD then current + diff * rate * dt
  else if negb (current =? target) then target
  else current.

(** The guard of the heart-rate interpolation: rhythms whose rate cannot
    change are held at 0. *)
Definition hrHeldAtZero (e : EcgChannel) : bool :=
  let p := ecg_params e in
  truthy (isFlat p) || truthy (isChaotic p) || truthy (isPEA p) || truthy (isArtifact p)
  || String.eqb (rhythm e) "vt_pulseless".

Definition interpolateHr (dt : num) (target cur : EcgChannel) : EcgChannel :=
  let targetVal := hr target in
  let currentVal := hr cur in
  let diff := targetVal - currentVal in
  if Num.abs diff >? INTERPOLATION_SNAP_THRESHOLD then
    if negb (hrHeldAtZero cur) then
      set_hr (currentVal + diff * VITAL_INTERPOLATION_RATE * dt) cur
    else if negb (currentVal =? Fin 0) then set_hr (Fin 0) cur
    else cur
  else if negb (currentVal =? targetVal) then set_hr targetVal cur
  else cur.

Definition interpolateSpo2 (dt : num) (pending : bool) (target cur : Spo2Channel)
  : Spo2Channel :=
  let cur := set_spo2_value
               (nudge VITAL_INTERPOLATION_RATE dt (spo2_value target) (spo2_value cur)) cur in
  if negb (String.eqb (spo2_shape cur) (spo2_shape target)) && negb pending then
    set_spo2_shape (spo2_shape target) cur
  else cur.

Definition interpolateAbp (dt : num) (pending : bool) (target cur : AbpChannel)
  : AbpChannel :=
  let snap := INTERPOLATION_SNAP_THRESHOLD in
  let targetSys := sys target in
  let targetDia := dia target in
  let s := nudge VITAL_INTERPOLATION_RATE dt targetSys (sys cur) in
  let d := nudge VITAL_INTERPOLATION_RATE dt targetDia (dia cur) in
  let d := Num.max (Fin 0) d in
  let s := Num.max (d + Fin 1) s in
  let zero :=
    (targetSys =? Fin 0) && (targetDia =? Fin 0)
    && (Num.abs s <? snap * Fin 2) && (Num.abs d <? snap * Fin 2) in
  let s := if zero then Fin 0 else s in
  let d := if zero then Fin 0 else d in
  let cur := set_dia d (set_sys s cur) in
  if negb (String.eqb (abp_shape cur) (abp_shape target)) && negb pending then
    set_abp_shape (abp_shape target) cur
  else cur.

Definition interpolateEtco2 (target cur : Etco2Channel) : Etco2Channel :=
  if negb (String.eqb (etco2_unitPref cur) (etco2_unitPref target)) then
    set_etco2_unitPref (etco2_unitPref target) cur
  else cur.

Definition interpolateTemp (dt : num) (target cur : TempChannel) : TempChannel :=
  let cur := set_valueC
               (nudge (VITAL_INTERPOLATION_RATE / Fin 2) dt (valueC target) (valueC cur)) cur in
  if negb (String.eqb (temp_unitPref cur) (temp_unitPref target)) then
    set_temp_unitPref (temp_unitPref target) cur
  else cur.

(** The reconciliation block of [_animationLoop], once per callback. *)
Definition interpolateParams (interpolationDelta : num) (m : Monitor) : Monitor :=
  match interpolationTargetParams m with
  | Some target =>
      if interpolationDelta >? Fin 0 then
        let cur := currentParams m in
        set_currentParams
          (mkParams
             (interpolateHr interpolationDelta (ecg target) (ecg cur))
             (interpolateSpo2 interpolationDelta (isSpo2UpdatePending m) (spo2 target) (spo2 cur))
             (interpolateAbp interpolationDelta (isAbpUpdatePending m) (abp target) (abp cur))
             (interpolateEtco2 (etco2 target) (etco2 cur))
             (interpolateTemp interpolationDelta (temp target) (temp cur))) m
      else m
  | None => m
  end.

(** The catch-up loop
    [while (acc >= simulationStep) { if (!running) break; updateWaveforms; acc -= simulationStep }]
    with the number of steps it has executed.  [None]: out of fuel. *)
Fixpoint catchUp (fuel : nat) (draws : nat -> TickDraws) (steps : nat) (m : Monitor)
  : option (Monitor * nat) :=
  if (simulationTimeAccumulator m >=? simulationStep) && animationRunning m then
    match fuel with
    | O => None
    | S fuel' =>
        let m := updateWaveforms simulationStep (draws steps) m in
        let m := set_simulationTimeAccumulator
                   (simulationTimeAccumulator m - simulationStep) m in
        catchUp fuel' draws (S steps) m
    end
  else Some (m, steps).

(** One rendering-loop callback: the new state and the number of logical
    steps executed.  [shockDraw] and [env] serve a requested shock. *)
Definition _animationLoop
    (fuel : nat) (draws : nat -> TickDraws) (shockDraw : num) (env : ShockEnv)
    (timestamp : num) (m : Monitor) : option (Monitor * nat) :=
  if negb (animationRunning m) then Some (m, O)
  else
    let m :=
      if shockRequested m then
        _executeShock shockDraw env None (set_shockRequested false m)
      else m in
    if lastTimestamp m =? Fin 0 then Some (set_lastTimestamp timestamp m, O)
    else
      let deltaTimeSeconds := (timestamp - lastTimestamp m) / Fin 1000.0 in
      let m := set_lastTimestamp timestamp m in
      let m := set_simulationTimeAccumulator
                 (simulationTimeAccumulator m + deltaTimeSeconds) m in
      match catchUp fuel draws O m with
      | Some (m, steps) => Some (interpolateParams deltaTimeSeconds m, steps)
      | None => None
      end.

(** *** The constructor and startAnimation *)

(** The state the constructor leaves, given the target parameters read from
    the controls. *)
Definition newMonitor (target : Params) : Monitor :=
  mkMonitor (Fin 0) (Fin 0) (Fin 0) (Fin 0)
            (Fin 0) NInf (Fin 0) NInf (Fin 0) NInf
            None target target (Some target)
            false false
            None false None false None false.

(** [startAnimation()], charts initialised. *)
Definition startAnimation (draw : num) (m : Monitor) : Monitor :=
  if animationRunning m then m
  else
    let cur := targetParams m in
    let key := rhythm (ecg cur) in
    let cur :=
      match (if String.eqb key "" then None else RHYTHM_PARAMS key) with
      | Some p => set_ecg (set_ecg_params p (ecg cur)) cur
      | None => set_ecg (set_ecg_params emptyParams (ecg cur)) cur
      end in
    let m := set_currentParams cur m in
    let m := set_interp (currentParams m) m in
    let m := set_rhythmTime (Fin 0) m in
    let m := set_respiratoryTime (Fin 0) m in
    let m := set_lastTimestamp (Fin 0) m in
    let m := set_simulationTimeAccumulator (Fin 0) m in
    let m := set_ecgState None m in
    let m := set_pendingEtco2Params None (set_isEtco2UpdatePending false m) in
    let m := set_pendingSpo2Params None (set_isSpo2UpdatePending false m) in
    let m := set_pendingAbpParams None (set_isAbpUpdatePending false m) in
    let m := set_nextBeatTime (Fin 0) (set_lastBeatTime (Fin 0) m) in
    let m := set_nextBreathTime (Fin 0) (set_lastBreathTime NInf m) in
    let m := set_nextCompressionTime (Fin 0) (set_lastCompressionTime NInf m) in
    let m := _calculateNextBeatTime draw m in
    let m := _resetBreathTiming (breathIntervalOf (rr (etco2 (currentParams m)))) m in
    let m :=
      if strIs (artifactType (ecg_params (ecg (currentParams m)))) "cpr" then
        _resetCompressionTiming m
      else m in
    set_animationRunning true (set_shockRequested false m).

(** A run of logical steps, one per element of [ds]. *)
Definition runTicks (ds : list TickDraws) (m : Monitor) : Monitor :=
  fold_left (fun m d => updateWaveforms simulationStep d m) ds m.

End Engine.

(** ** Specification predicates for the scheduler *)

(** A rhythm whose beat interval takes no irregularity multiplier: its
    [irregular] property is absent or outside (0, 1]. *)
Definition regularRhythm (params : RhythmParams) : bool :=
  let irreg := orDefault (Fin 0) (irregular params) in
  negb ((irreg >? Fin 0)%num && (irreg <=? Fin 1)%num).

(** The beat-based generator families. *)
Definition beatBased (params : RhythmParams) : bool :=
  strIs (generatorType params) "pqrst" || strIs (generatorType params) "avBlock"
  || strIs (generatorType params) "paced".

(** The channel whose heart rate drives the schedule: a beat-based family
    that is neither PEA nor pulseless VT. *)
Definition rateFromHr (src : EcgChannel) : bool :=
  beatBased (ecg_params src)
  && negb (strIs (generatorType (ecg_params src)) "pqrst"
           && (truthy (isPEA (ecg_params src)) || String.eqb (rhythm src) "vt_pulseless")).

(** [current.ecg.hr := h], everything else as it is. *)
Definition withCurrentHr (h : num) (m : Monitor) : Monitor :=
  set_currentParams
    (set_ecg (set_hr h (ecg (currentParams m))) (currentParams m)) m.

(** ** Sample rhythm catalog and sample engine states

    Modelled from the spec: [rhythms.js] is not among the sources, so the
    examples use a small catalog whose entries carry the properties the
    spec names for a rhythm definition: generator family, baseline rate and
    flags.  "normal" is the sinus rhythm of the PQRST family and "asystole"
    the flat, pulseless rhythm. *)

Definition normalSinus : RhythmParams :=
  mkRhythmParams (Some "pqrst"%string) None None None None None None (Some (Fin 75)) None None
                 None None None None None None None None None None None None None
                 None None None None None None None None None
                 None None None None None None None None None None None.

Definition asystole : RhythmParams :=
  mkRhythmParams (Some "flatline"%string) None None (Some true) None None None (Some (Fin 0)) None None
                 None None None None None None None None None None None None None
                 None None None None None None None None None
                 None None None None None None None None None None None.

Definition sampleCatalog (key : string) : option RhythmParams :=
  if String.eqb key "normal" then Some normalSinus
  else if String.eqb key "asystole" then Some asystole
  else None.

Definition sampleTarget : Params :=
  mkParams (mkEcgChannel "normal" (Fin 75) normalSinus true)
           (mkSpo2Channel (Fin 98) "normal" true)
           (mkAbpChannel (Fin 120) (Fin 80) "normal" true)
           (mkEtco2Channel (Fin 5.3) (Fin 15) "kPa" "normal" true)
           (mkTempChannel (Fin 37.0) "C" true).

Definition sampleTickDraws : TickDraws := mkTickDraws (Fin 0.5) sampleDraws.

(** The sample monitor just after activation: normal sinus rhythm at
    75/min, first beat due 0.8 s after the start. *)
Definition sampleMonitor : Monitor :=
  startAnimation sampleCatalog (Fin 0.5) (newMonitor sampleTarget).

(** The sample monitor after [n] logical steps. *)
Definition sampleMonitorAfter (n : nat) : Monitor :=
  runTicks (fun _ => Fin 0) (fun _ => Fin 0) (fun _ _ => Fin 0)
    (repeat sampleTickDraws n) sampleMonitor.

(** The sample monitor with a heart rate of 120/min requested. *)
Definition sampleHrRequest : Monitor :=
  set_targetParams
    (set_ecg (set_hr (Fin 120) (ecg sampleTarget)) sampleTarget) sampleMonitor.

(** The sample monitor 0.3 s into its first beat (the next beat is due at
    0.8 s), one rendering callback behind it, with the pleth shape
    [low_perfusion] requested and nothing else changed. *)
Definition sampleShapeRequest : Monitor :=
  set_lastTimestamp (Fin 1000)
    (set_targetParams
       (set_spo2 (set_spo2_shape "low_perfusion" (spo2 sampleTarget)) sampleTarget)
       (sampleMonitorAfter 30)).

Definition sampleEnv : ShockEnv := mkShockEnv "standalone" (Some "normal"%string).

(** One rendering callback of the sample engine. *)
Definition sampleCallback (fuel : nat) (timestamp : num) (m : Monitor)
  : option (Monitor * nat) :=
  _animationLoop (fun _ => Fin 0) (fun _ => Fin 0) (fun _ _ => Fin 0) sampleCatalog
    fuel (fun _ => sampleTickDraws) (Fin 0.5) sampleEnv timestamp m.

(** ** Specification predicates for the parameter-change controller *)

(** What a step of the controller leaves alone as far as the ECG channel
    and the beat schedule are concerned. *)
Definition ecgFrame (m m' : Monitor) : Prop :=
  rhythmTime m' = rhythmTime m
  /\ targetParams m' = targetParams m
  /\ rhythm (ecg (currentParams m')) = rhythm (ecg (currentParams m))
  /\ hr (ecg (currentParams m')) = hr (ecg (currentParams m))
  /\ ecg_params (ecg (currentParams m')) = ecg_params (ecg (currentParams m))
  /\ (forall ip, interpolationTargetParams m = Some ip ->
        exists ip', interpolationTargetParams m' = Some ip' /\ ecg ip' = ecg ip).

(** ** Specification predicates for the interpolation *)

(** The values one field takes over a run of callbacks with the time deltas
    [dts], the target fixed. *)
Fixpoint nudgeTrajectory (rate : num) (dts : list Q) (target current : num) : list num :=
  match dts with
  | [] => []
  | dt :: rest =>
      let next := nudge rate (Fin dt) target current in
      next :: nudgeTrajectory rate rest target next
  end.

(** [x] lies between [c] and [t]. *)
Definition between (c x t : Q) : Prop :=
  (c <= t -> c <= x /\ x <= t) /\ (t <= c -> t <= x /\ x <= c).

(** Every value of the trajectory is finite and lies between its
    predecessor (at first [c]) and the target [t]. *)
Fixpoint approaches (t c : Q) (traj : list num) : Prop :=
  match traj with
  | [] => True
  | x :: rest => exists q, x = Fin q /\ between c q t /\ approaches t q rest
  end.

(** ** Specification predicates for the rendering loop *)

(** The fields only the rendering loop itself writes. *)
Definition loopFields (m : Monitor) : num * bool * num * bool :=
  (simulationTimeAccumulator m, animationRunning m, lastTimestamp m, shockRequested m).

(** The number of whole logical steps in [a] seconds. *)
Definition wholeSteps (a : Q) : nat := Z.to_nat (Qfloor (a * 100)).

(** A relayed update that names a rhythm the catalog does not have. *)
Definition unknownRhythmUpdate : ReceivedParams :=
  mkReceivedParams (Some (mkEcgChannel "bogus" (Fin 75) emptyParams true))
                   None None None None.


(** * Further parts of the engine and of the generators *)

(** ** Specification predicates for the breath schedule and the clocks *)

(** What the breath half of the timer check owns. *)
Definition breathFields (m : Monitor)
  : Etco2Channel * bool * option Etco2Channel * num * num * num :=
  (etco2 (currentParams m), isEtco2UpdatePending m, pendingEtco2Params m,
   lastBreathTime m, nextBreathTime m, respiratoryTime m).

(** A value that is a finite number or minus infinity, as [lastBeatTime]
    is at every point of the engine. *)
Definition finiteOrNInf (x : num) : bool :=
  match x with Fin _ | NInf => true | _ => false end.

(** ** Further sample inputs *)

(** An ETCO2 channel an operator might request: 4 kPa at 20 breaths a
    minute. *)
Definition sampleEtco2Request : Etco2Channel :=
  mkEtco2Channel (Fin 4) (Fin 20) "kPa" "normal" true.

(** The sample monitor 0.3 s into a breath that ends at 4 s, with
    [sampleEtco2Request] pending. *)
Definition samplePendingEtco2 : Monitor :=
  set_isEtco2UpdatePending true
    (set_pendingEtco2Params (Some sampleEtco2Request)
       (set_respiratoryTime (Fin 0.3) (set_nextBreathTime (Fin 4) sampleMonitor))).

(** The two simulated clocks. *)
Definition clockFields (m : Monitor) : num * num :=
  (rhythmTime m, respiratoryTime m).

(** A channel record whose pressures are finite, with the diastolic
    non-negative and the systolic at least one above it. *)
Definition abpWellFormed (a : AbpChannel) : Prop :=
  exists s d, sys a = Fin s /\ dia a = Fin d /\ 0 <= d /\ d + 1 <= s.

(** ** script.js: stopAnimation and requestShock *)

(** [stopAnimation()], as far as the engine's state goes (the timers of the
    display, the alarms and the charts are outside the model). *)
Definition stopAnimation (m : Monitor) : Monitor :=
  if negb (animationRunning m) then m
  else
    let m := set_animationRunning false m in
    let m := set_shockRequested false m in
    let m := set_ecgState None m in
    let m := set_rhythmTime (Fin 0) m in
    let m := set_respiratoryTime (Fin 0) m in
    let m := set_simulationTimeAccumulator (Fin 0) m in
    let m := set_lastBeatTime NInf m in
    let m := set_nextBeatTime (Fin 0) m in
    let m := set_lastBreathTime NInf m in
    let m := set_nextBreathTime (Fin 0) m in
    let m := set_lastCompressionTime NInf m in
    let m := set_nextCompressionTime (Fin 0) m in
    let m := set_pendingEtco2Params None m in
    let m := set_isEtco2UpdatePending false m in
    let m := set_pendingSpo2Params None m in
    let m := set_isSpo2UpdatePending false m in
    let m := set_pendingAbpParams None m in
    set_isAbpUpdatePending false m.

(** [requestShock()] *)
Definition requestShock (m : Monitor) : Monitor :=
  if animationRunning m then set_shockRequested true m else m.

(** ** Specification predicates for the shock handler *)

(** The three parameter snapshots. *)
Definition paramFields (m : Monitor) : Params * Params * option Params :=
  (currentParams m, targetParams m, interpolationTargetParams m).

(** The rhythm the shock converts to is perfusing: not PEA, chaotic, flat,
    pulseless VT or CPR. *)
Definition perfusingAfterShock (newRhythmKey : string) (p : RhythmParams) : bool :=
  negb (truthy (isPEA p) || truthy (isChaotic p) || truthy (isFlat p)
        || String.eqb newRhythmKey "vt_pulseless"
        || String.eqb newRhythmKey "cpr_artifact").

(** A rhythm that is pulseless but not CPR. *)
Definition pulselessAfterShock (newRhythmKey : string) (p : RhythmParams) : bool :=
  (truthy (isPEA p) || truthy (isChaotic p) || truthy (isFlat p)
   || String.eqb newRhythmKey "vt_pulseless")
  && negb (String.eqb newRhythmKey "cpr_artifact").

(** A catalog with one more rhythm, ventricular fibrillation, of the
    chaotic family. *)
Definition vfib : RhythmParams :=
  mkRhythmParams (Some "chaotic"%string) None (Some true) None None None None (Some (Fin 0)) None None
                 None None None None None None None None None None None None None
                 None None None None None None None None None
                 None None None None None None None None None None None.

Definition sampleCatalog2 (key : string) : option RhythmParams :=
  if String.eqb key "vfib" then Some vfib else sampleCatalog key.

(** The three pending flags. *)
Definition pendingFlags (m : Monitor) : bool * bool * bool :=
  (isEtco2UpdatePending m, isSpo2UpdatePending m, isAbpUpdatePending m).

(** ** Specification predicates for the ETCO2 channel *)

(** What the capnogram is drawn from: value, respiratory rate and shape. *)
Definition etco2Core (e : Etco2Channel) : num * num * string :=
  (valueKpa e, rr e, etco2_shape e).

(** The sample monitor with [sampleEtco2Request] requested. *)
Definition sampleEtco2Change : Monitor :=
  set_targetParams (set_etco2 sampleEtco2Request sampleTarget) sampleMonitor.

(** ** Further AV-block samples *)

(** A complete block: atrial rate 70/min by default, escape rhythm at
    40/min. *)
Definition sampleAvb3 : RhythmParams :=
  mkRhythmParams (Some "avBlock"%string) None None None None None None (Some (Fin 40)) None None
                 None None None None None None None None None None None None None
                 (Some "avb3"%string) None None None None None None None None
                 None None None None None None None None None None None.

(** A Mobitz II block with a fixed PR interval of 0.2 s. *)
Definition sampleMobitz2 : RhythmParams :=
  mkRhythmParams (Some "avBlock"%string) None None None None None None (Some (Fin 50)) None None
                 None None None None None None None None None None None None None
                 (Some "mobitz2"%string) None None (Some (Fin 0.2)) None None None None None
                 None None None None None None None None None None None.

(** The state of the generator with the next P wave due at [np]. *)
Definition avStateDueAt (np : num) : AVBlockState :=
  mkAVBlockState (Fin 0) np (Fin 0) (Fin 0) 0%Z (Fin 0.16) 0%Z 0%Z (Fin 0)
    false false None.

(** ** script.js: the samples of the pleth, ABP and ETCO2 channels *)

Definition DEFAULT_FALLBACK_BEAT_INTERVAL : num := Fin 2.0.
Definition DEFAULT_FALLBACK_BREATH_INTERVAL : num := Fin 4.0.
Definition CPR_ETCO2_VALUE_KPA : num := Fin 1.5.

(** [ecgParams?.isArtifact && ecgParams?.artifactType === "cpr"] *)
Definition isCprArtifact (p : RhythmParams) : bool :=
  truthy (isArtifact p) && strIs (artifactType p) "cpr".

(** The block that opens both [_generateSpo2WaveformInternal] and
    [_generateAbpWaveformInternal] (the same statements in both): the time
    since the last pulse and the duration of a pulse, before the
    fallback. *)
Definition rawPulseTiming (m : Monitor) : num * num :=
  let ecgParams := ecg_params (ecg (currentParams m)) in
  let src := ecgSourceForRate m in
  let hrForPulse := Num.max (ensureFinite (hr src) (Fin 1)) (Fin 1) in
  let notPEA := negb (orDefault false (isPEA ecgParams)) in
  if Num.isFinite (lastBeatTime m) && (lastBeatTime m >? NInf)%num then
    let timeSincePulse := (rhythmTime m - lastBeatTime m)%num in
    let rateToUse :=
      if isCprArtifact ecgParams then orDefault (Fin 110) (artifact_freq ecgParams)
      else if strIs (generatorType ecgParams) "avBlock" && notPEA then
        Num.max (ensureFinite (hr src) (Fin 1)) (Fin 1)
      else if strIs (generatorType ecgParams) "paced" && notPEA then
        Num.max (ensureFinite (hr src) (Fin 1)) (Fin 1)
      else if strIs (generatorType ecgParams) "pqrst" && notPEA
              && negb (String.eqb (rhythm src) "vt_pulseless") then hrForPulse
      else if strIs (generatorType ecgParams) "pqrst"
              && (truthy (isPEA ecgParams) || String.eqb (rhythm src) "vt_pulseless") then
        Num.max (ensureFinite (toNumber (baseHR ecgParams)) (Fin 1)) (Fin 1)
      else Fin 0 in
    (timeSincePulse, if (rateToUse >? Fin 0)%num then (Fin 60.0 / rateToUse)%num else PInf)
  else if (lastBeatTime m =? Fin 0)%num && (rhythmTime m >=? Fin 0)%num then
    let rateToUse :=
      if isCprArtifact ecgParams then orDefault (Fin 110) (artifact_freq ecgParams)
      else if (hrForPulse >? Fin 0)%num then hrForPulse
      else Fin 0 in
    (rhythmTime m, if (rateToUse >? Fin 0)%num then (Fin 60.0 / rateToUse)%num else PInf)
  else (Fin (-1), PInf).

(** The fallback: a negative time or a duration that is not a positive
    finite number gives the default interval of 2 s, folded over the rhythm
    clock. *)
Definition pulseTiming (m : Monitor) : num * num :=
  let '(timeSincePulse, pulseDuration) := rawPulseTiming m in
  if (timeSincePulse <? Fin 0)%num || (pulseDuration <=? Fin 0)%num
     || negb (Num.isFinite pulseDuration) then
    ((rhythmTime m mod DEFAULT_FALLBACK_BEAT_INTERVAL)%num, DEFAULT_FALLBACK_BEAT_INTERVAL)
  else (timeSincePulse, pulseDuration).

Section Samples.

Local Open Scope num_scope.

Variables Math_sin Math_exp : num -> num.
Variable Math_pow : num -> num -> num.
Variable performance_now : num.

Definition _generateSpo2WaveformInternal (m : Monitor) : num :=
  let spo2Params := spo2 (currentParams m) in
  let ecgParams := ecg_params (ecg (currentParams m)) in
  let '(validTimeSincePulse, validDuration) := pulseTiming m in
  let currentSpo2Value := ensureFinite (spo2_value spo2Params) (Fin 0) in
  let originalShapeType := strOr (spo2_shape spo2Params) DEFAULT_SPO2_SHAPE in
  let effectiveShapeType :=
    if (currentSpo2Value <? Fin 1) || String.eqb originalShapeType "no_signal" then
      "no_signal"%string
    else if isCprArtifact ecgParams then
      (if truthyStr (spo2Shape ecgParams)
       then orDefault "low_perfusion"%string (spo2Shape ecgParams)
       else "low_perfusion"%string)
    else originalShapeType in
  generatePlethPulseShape Math_sin Math_exp Math_pow performance_now
    validTimeSincePulse validDuration currentSpo2Value effectiveShapeType.

(** The shape and the two pressures [_generateAbpWaveformInternal] hands
    to the shape function. *)
Definition abpShapeArguments (m : Monitor) : num * num * string :=
  let abpParams := abp (currentParams m) in
  let ecgParams := ecg_params (ecg (currentParams m)) in
  let pulseDuration := snd (pulseTiming m) in
  let shapeType := strOr (abp_shape abpParams) DEFAULT_ABP_SHAPE in
  let targetSys := ensureFinite (sys abpParams) (Fin 0) in
  let targetDia := ensureFinite (dia abpParams) (Fin 0) in
  let '(targetSys, targetDia, shapeType) :=
    if (pulseDuration =? PInf) && negb (isCprArtifact ecgParams) then
      (Fin 0, Fin 0, "damped"%string)
    else if isCprArtifact ecgParams then
      (ensureFinite (sys abpParams)
         (ensureFinite (toNumber (cpr_abp_sys ecgParams)) (Fin 0)),
       ensureFinite (dia abpParams)
         (ensureFinite (toNumber (cpr_abp_dia ecgParams)) (Fin 0)),
       if negb (String.eqb (abp_shape abpParams) "") then abp_shape abpParams
       else if truthyStr (cpr_abp_shape ecgParams)
            then orDefault "damped"%string (cpr_abp_shape ecgParams)
            else "damped"%string)
    else (targetSys, targetDia, shapeType) in
  if (sys abpParams =? Fin 0) && (dia abpParams =? Fin 0) then
    (Fin 0, Fin 0, "damped"%string)
  else (targetSys, targetDia, shapeType).

Definition _generateAbpWaveformInternal (m : Monitor) : num :=
  let '(validTimeSincePulse, validDuration) := pulseTiming m in
  let '(targetSys, targetDia, shapeType) := abpShapeArguments m in
  generateAbpWaveformShape Math_sin Math_exp Math_pow performance_now
    validTimeSincePulse validDuration targetSys targetDia shapeType.

Definition _generateEtco2WaveformInternal (m : Monitor) : num :=
  let etco2Params := etco2 (currentParams m) in
  let currentShape := etco2_shape etco2Params in
  let rr := ensureFinite (rr etco2Params) (Fin 0) in
  let breathDuration := if rr >? Fin 0 then Fin 60.0 / rr else PInf in
  let timing : option (num * num) :=
    if (breathDuration <? PInf) && (lastBreathTime m >? NInf) then
      Some (respiratoryTime m - lastBreathTime m, breathDuration)
    else if breathDuration <? PInf then
      Some (respiratoryTime m mod breathDuration, breathDuration)
    else None in
  match timing with
  | None => Fin 0
  | Some (validTimeSinceBreath, validDuration) =>
      let validTimeSinceBreath := Num.max (Fin 0) validTimeSinceBreath in
      let targetValueKpa := ensureFinite (valueKpa etco2Params) (Fin 0) in
      let '(valueForShape, shapeForGenerator) :=
        if (rr =? Fin 0) || String.eqb currentShape "disconnect" then
          (Fin 0, "disconnect"%string)
        else if String.eqb currentShape "cpr_low_flow" then
          (CPR_ETCO2_VALUE_KPA, currentShape)
        else (targetValueKpa, currentShape) in
      generateEtco2WaveformShape Math_exp performance_now
        validTimeSinceBreath validDuration valueForShape shapeForGenerator
  end.

End Samples.

(** A monitor whose clocks are finite and non-negative and whose last beat
    and last breath are finite or not yet recorded. *)
Definition clocksValid (m : Monitor) : bool :=
  validTime (rhythmTime m) && validTime (respiratoryTime m)
  && finiteOrNInf (lastBeatTime m) && finiteOrNInf (lastBreathTime m).

(** The sample monitor after one second of simulation. *)
Definition sampleMonitorAt1s : Monitor := sampleMonitorAfter 100.

(** The sample monitor in asystole, one second after the rhythm was
    selected: no beat has been recorded. *)
Definition sampleAsystole : Monitor :=
  set_lastBeatTime NInf
    (set_rhythmTime (Fin 1)
       (set_currentParams
          (set_ecg (mkEcgChannel "asystole" (Fin 0) asystole true) sampleTarget)
          sampleMonitor)).

(** ** script.js: the sweep buffers

    A cell of a sample array: [null], a number, or a hole (an index never
    written, which reads as [undefined]).  The constructor creates the
    arrays with [new Array(size).fill(null)]. *)

Inductive cell : Type :=
| Hole
| Null
| Sample (v : num).

(** [array[i] = v]: an index past the end extends the array, leaving
    holes. *)
Fixpoint jsSet (i : nat) (v : cell) (l : list cell) : list cell :=
  match i, l with
  | O, [] => [v]
  | O, _ :: r => v :: r
  | S k, [] => Hole :: jsSet k v []
  | S k, x :: r => x :: jsSet k v r
  end.

(** [array[i]] *)
Definition jsGet (i : nat) (l : list cell) : cell := nth i l Hole.

Definition BUFFER_SECONDS : Z := 9.
Definition SAMPLE_RATE_Z : Z := 100.
Definition BUFFER_SIZE : Z := BUFFER_SECONDS * SAMPLE_RATE_Z.
Definition ETCO2_BUFFER_SECONDS : Z := 15.
Definition ETCO2_BUFFER_SIZE : Z := ETCO2_BUFFER_SECONDS * SAMPLE_RATE_Z.
Definition GAP_SAMPLES : nat := 10.

Record SweepBuffers : Type := mkSweepBuffers {
  sweepBufferECG : list cell;
  sweepBufferSpO2 : list cell;
  sweepBufferABP : list cell;
  sweepBufferETCO2 : list cell;
  sweepIndex : Z;
  etco2SweepIndex : Z
}.

(** [ensureFinite(value, null)] *)
Definition sampleCell (value : num) : cell :=
  if Num.isFinite value then Sample value else Null.

(** The two guards on an index: at or past the size, or negative, it
    restarts at 0. *)
Definition wrapIndex (size index : Z) : Z :=
  let index := if (index >=? size)%Z then 0%Z else index in
  if (index <? 0)%Z then 0%Z else index.

(** The loop [for (let i = 0; i < gapSize; i++)] on one array: the cells
    [(index + i) % size] are set to [null].  [i] counts up from [start];
    [n] iterations are left. *)
Fixpoint clearGap (size index : Z) (n : nat) (i : Z) (buffer : list cell) : list cell :=
  match n with
  | O => buffer
  | S k =>
      let gapIndex := Z.rem (index + i) size in
      let buffer :=
        if (gapIndex >=? 0)%Z && (gapIndex <? size)%Z
        then jsSet (Z.to_nat gapIndex) Null buffer else buffer in
      clearGap size index k (i + 1)%Z buffer
  end.

(** What [_manageSweepBuffer] does to one array, the index already
    guarded: the gap is cleared, then the sample is written. *)
Definition sweepWrite (size index : Z) (value : num) (buffer : list cell) : list cell :=
  let buffer := clearGap size index GAP_SAMPLES 0%Z buffer in
  if (index >=? 0)%Z && (index <? size)%Z
  then jsSet (Z.to_nat index) (sampleCell value) buffer else buffer.

Definition _manageSweepBuffer
    (ecgValue spo2Value abpValue etco2Value : num) (b : SweepBuffers) : SweepBuffers :=
  let i := wrapIndex BUFFER_SIZE (sweepIndex b) in
  let j := wrapIndex ETCO2_BUFFER_SIZE (etco2SweepIndex b) in
  mkSweepBuffers
    (sweepWrite BUFFER_SIZE i ecgValue (sweepBufferECG b))
    (sweepWrite BUFFER_SIZE i spo2Value (sweepBufferSpO2 b))
    (sweepWrite BUFFER_SIZE i abpValue (sweepBufferABP b))
    (sweepWrite ETCO2_BUFFER_SIZE j etco2Value (sweepBufferETCO2 b))
    i j.

(** The end of [updateWaveforms]: the four samples are written and the two
    indices advance. *)
Definition writeSamples
    (ecgValue spo2Value abpValue etco2Value : num) (b : SweepBuffers) : SweepBuffers :=
  let b := _manageSweepBuffer ecgValue spo2Value abpValue etco2Value b in
  mkSweepBuffers (sweepBufferECG b) (sweepBufferSpO2 b) (sweepBufferABP b)
    (sweepBufferETCO2 b) (sweepIndex b + 1)%Z (etco2SweepIndex b + 1)%Z.

(** The buffers the constructor creates, and those [startAnimation] and
    [stopAnimation] leave. *)
Definition emptyBuffers : SweepBuffers :=
  mkSweepBuffers (repeat Null (Z.to_nat BUFFER_SIZE)) (repeat Null (Z.to_nat BUFFER_SIZE))
    (repeat Null (Z.to_nat BUFFER_SIZE)) (repeat Null (Z.to_nat ETCO2_BUFFER_SIZE))
    0%Z 0%Z.

(** A run of sample writes, one per logical step. *)
Definition writeRun (samples : list (num * num * num * num)) (b : SweepBuffers)
  : SweepBuffers :=
  fold_left (fun b s => let '(e, p, a, c) := s in writeSamples e p a c b) samples b.

(** The buffers have the lengths the constructor gave them and the indices
    are within them. *)
Definition buffersWellFormed (b : SweepBuffers) : Prop :=
  length (sweepBufferECG b) = Z.to_nat BUFFER_SIZE
  /\ length (sweepBufferSpO2 b) = Z.to_nat BUFFER_SIZE
  /\ length (sweepBufferABP b) = Z.to_nat BUFFER_SIZE
  /\ length (sweepBufferETCO2 b) = Z.to_nat ETCO2_BUFFER_SIZE
  /\ (0 <= sweepIndex b <= BUFFER_SIZE)%Z
  /\ (0 <= etco2SweepIndex b <= ETCO2_BUFFER_SIZE)%Z.

(** Whether cell [c] is one of those the gap loop sets to [null]. *)
Fixpoint gapHits (size index : Z) (n : nat) (i : Z) (c : Z) : bool :=
  match n with
  | O => false
  | S k => (Z.rem (index + i) size =? c)%Z || gapHits size index k (i + 1)%Z c
  end.

(** The ECG samples of a run. *)
Definition ecgSampleOf (s : num * num * num * num) : num :=
  let '(e, _, _, _) := s in e.

(** The ETCO2 samples of a run. *)
Definition etco2SampleOf (s : num * num * num * num) : num :=
  let '(_, _, _, c) := s in c.

(** The sweep invariant of one array after the samples [vals] have been
    written from a fresh start: the array has its length, the index is
    within it and (guarded) is the number of samples modulo the size, each
    of the latest [size - 9] samples sits in the cell numbered by its
    position modulo the size, and the 9 cells ahead of the last one written
    are [null]. *)
Definition holdsLatest (size : Z) (vals : list num) (index : Z) (buffer : list cell)
  : Prop :=
  let N := Z.of_nat (length vals) in
  length buffer = Z.to_nat size
  /\ (0 <= index <= size)%Z
  /\ wrapIndex size index = (N mod size)%Z
  /\ (forall k : Z,
        (0 <= k < N)%Z -> (N - k <= size - 9)%Z ->
        jsGet (Z.to_nat (k mod size)) buffer = sampleCell (nth (Z.to_nat k) vals NaN))
  /\ (forall g : Z,
        (0 < N)%Z -> (1 <= g <= 9)%Z ->
        jsGet (Z.to_nat ((N - 1 + g) mod size)) buffer = Null).

(** ** config.js: the temperature conversions *)

Definition celsiusToFahrenheit (c : num) : num := ((c * Fin 9 / Fin 5) + Fin 32)%num.
Definition fahrenheitToCelsius (f : num) : num := ((f - Fin 32) * Fin 5 / Fin 9)%num.

(** ** ecgGenerators/chaoticGenerator.js and flatlineGenerator.js *)

(** The properties [generateChaotic] reads from a rhythm definition besides
    [noise_amp]. *)
Record ChaoticProps : Type := mkChaoticProps {
  vf_amp : option num;
  vf_hold_duration : option num
}.

(** The module-level variables of the generator. *)
Record ChaoticState : Type := mkChaoticState {
  lastChaoticValue : num;
  nextChaoticValue : num;
  holdCounter : num;
  interpolationStep : num
}.

(** Their values when the module is loaded. *)
Definition initialChaoticState : ChaoticState :=
  mkChaoticState (Fin 0) (Fin 0) (Fin 0) (Fin 0).

Definition DEFAULT_VF_HOLD_DURATION : num := Fin 4.

(** The draws of [Math.random()] of one call: the new target (used only
    when a new target is due) and the noise sample. *)
Record ChaoticDraws : Type := mkChaoticDraws {
  cd_target : num;
  cd_noise : num
}.

Definition generateChaotic
    (d : ChaoticDraws) (params : RhythmParams) (props : ChaoticProps) (st : ChaoticState)
  : num * ChaoticState :=
  let vfAmplitude := orDefault (Fin 0.7) (vf_amp props) in
  let noiseAmp := orDefault (Fin 0.03) (noise_amp params) in
  let currentVfHoldDuration := orDefault DEFAULT_VF_HOLD_DURATION (vf_hold_duration props) in
  let st :=
    if (holdCounter st <=? Fin 0)%num then
      mkChaoticState (nextChaoticValue st)
        ((cd_target d - Fin 0.5) * Fin 2 * vfAmplitude)%num
        currentVfHoldDuration (Fin 0)
    else st in
  let '(currentValue, st) :=
    if (currentVfHoldDuration >? Fin 0)%num
       && (interpolationStep st <? currentVfHoldDuration)%num then
      let progress := (interpolationStep st / currentVfHoldDuration)%num in
      ((lastChaoticValue st
        + (nextChaoticValue st - lastChaoticValue st) * progress)%num,
       mkChaoticState (lastChaoticValue st) (nextChaoticValue st) (holdCounter st)
         (interpolationStep st + Fin 1)%num)
    else (nextChaoticValue st, st) in
  let st :=
    mkChaoticState (lastChaoticValue st) (nextChaoticValue st)
      (holdCounter st - Fin 1)%num (interpolationStep st) in
  let ecgValue := (currentValue + generateNoise (cd_noise d) noiseAmp)%num in
  (ensureFinite ecgValue (Fin 0), st).

(** The values of a run of calls, one per element of [ds], the module
    state carried from call to call. *)
Fixpoint chaoticRun
    (params : RhythmParams) (props : ChaoticProps) (st : ChaoticState)
    (ds : list ChaoticDraws) : list num :=
  match ds with
  | [] => []
  | d :: rest =>
      let '(v, st') := generateChaotic d params props st in
      v :: chaoticRun params props st' rest
  end.

(** [generateFlatline(params)], given the draw of [Math.random()]. *)
Definition generateFlatline (draw : num) (params : RhythmParams) : num :=
  generateNoise draw (orDefault (Fin 0.015) (noise_amp params)).

(** A draw of [Math.random()]: a number in [0, 1). *)
Definition unitDraw (x : num) : Prop :=
  exists q, x = Fin q /\ 0 <= q /\ q < 1.

(** A finite value of magnitude at most [bound]. *)
Definition withinBand (bound : Q) (x : num) : Prop :=
  exists q, x = Fin q /\ - bound <= q /\ q <= bound.

(** The invariant of the module state of the chaotic generator: both ends
    of the interpolation lie within the amplitude, and the step counter is a
    non-negative number. *)
Definition chaoticStateOk (amplitude : Q) (st : ChaoticState) : Prop :=
  withinBand amplitude (lastChaoticValue st)
  /\ withinBand amplitude (nextChaoticValue st)
  /\ (exists k, interpolationStep st = Fin k /\ 0 <= k).

(** Ventricular fibrillation with every property left to the defaults. *)
Definition sampleChaoticProps : ChaoticProps := mkChaoticProps None None.

Definition sampleChaoticDraws : list ChaoticDraws :=
  [mkChaoticDraws (Fin 0.9) (Fin 0.5); mkChaoticDraws (Fin 0.1) (Fin 0.2);
   mkChaoticDraws (Fin 0.3) (Fin 0.7); mkChaoticDraws (Fin 0.6) (Fin 0.4);
   mkChaoticDraws (Fin 0.2) (Fin 0.9); mkChaoticDraws (Fin 0.8) (Fin 0.1)].

(** ** Further samples for the scheduler *)

(** The CPR artifact rhythm at the default 110 compressions a minute. *)
Definition cprArtifact : RhythmParams :=
  mkRhythmParams (Some "artifact"%string) None None None (Some true) (Some "cpr"%string)
                 None (Some (Fin 0)) None None
                 None None None None None None None None None None None None None
                 None None None None None None None None None
                 None None None None None None None None None None None.

(** The sample monitor under CPR, a compression due at 2 s, the time
    2.004 s. *)
Definition sampleCpr : Monitor :=
  set_nextCompressionTime (Fin 2)
    (set_rhythmTime (Fin 2.004)
       (set_currentParams
          (set_ecg (mkEcgChannel "cpr_artifact" (Fin 0) cprArtifact true) sampleTarget)
          sampleMonitor)).

(** A relayed update that carries the SpO2 channel only. *)
Definition spo2OnlyUpdate : ReceivedParams :=
  mkReceivedParams None (Some (mkSpo2Channel (Fin 91) "low_perfusion" true)) None None None.

(** ** alarmManager.js: the alarm check

    [checkAlarms(currentParams)] builds the object of the alarms that are
    active; a key that is absent reads as [false].  The engine passes its
    own [currentParams], which is never null and whose [ecg.params] is
    always an object. *)

Definition ALARM_LOW_HR : num := Fin 50.
Definition ALARM_HIGH_HR : num := Fin 100.
Definition ALARM_LOW_SPO2 : num := Fin 95.
Definition ALARM_LOW_MAP : num := Fin 60.
Definition ALARM_LOW_KPA : num := Fin 3.0.
Definition ALARM_HIGH_KPA : num := Fin 7.0.

Record Alarms : Type := mkAlarms {
  low_hr : bool;
  high_hr : bool;
  low_spo2 : bool;
  low_map : bool;
  low_etco2 : bool;
  high_etco2 : bool
}.

(** [ensureFinite(value, null)] *)
Definition ensureFiniteOrNull (value : num) : option num :=
  if Num.isFinite value then Some value else None.

(** The rhythm flags that silence the heart-rate alarm. *)
Definition hrAlarmSuppressed (p : RhythmParams) : bool :=
  truthy (isFlat p) || truthy (isChaotic p) || truthy (isPEA p)
  || truthy (isArtifact p).

Definition checkAlarms (currentParams : Params) : Alarms :=
  let ecgParams := ecg_params (ecg currentParams) in
  let '(lowHr, highHr) :=
    if ecg_visible (ecg currentParams)
       && negb (truthy (isFlat ecgParams)) && negb (truthy (isChaotic ecgParams))
       && negb (truthy (isPEA ecgParams)) && negb (truthy (isArtifact ecgParams))
    then
      match ensureFiniteOrNull (hr (ecg currentParams)) with
      | Some hr => ((hr <? ALARM_LOW_HR)%num, (hr >? ALARM_HIGH_HR)%num)
      | None => (false, false)
      end
    else (false, false) in
  let lowSpo2 :=
    if spo2_visible (spo2 currentParams) then
      match ensureFiniteOrNull (spo2_value (spo2 currentParams)) with
      | Some spo2v =>
          if (spo2v >? Fin 0)%num
             && negb (String.eqb (spo2_shape (spo2 currentParams)) "no_signal")
          then (spo2v <? ALARM_LOW_SPO2)%num
          else false
      | None => false
      end
    else false in
  let lowMap :=
    if abp_visible (abp currentParams)
       && negb (truthy (isArtifact ecgParams) && strIs (artifactType ecgParams) "cpr")
    then
      match ensureFiniteOrNull (sys (abp currentParams)),
            ensureFiniteOrNull (dia (abp currentParams)) with
      | Some sysv, Some diav =>
          if (sysv >? Fin 0)%num && (diav >=? Fin 0)%num && (sysv >? diav)%num then
            let map := Math_round (diav + (sysv - diav) / Fin 3)%num in
            (map <? ALARM_LOW_MAP)%num
          else false
      | _, _ => false
      end
    else false in
  let '(lowEtco2, highEtco2) :=
    if etco2_visible (etco2 currentParams) then
      match ensureFiniteOrNull (valueKpa (etco2 currentParams)) with
      | Some kpa =>
          if (kpa >? Fin 0)%num
             && negb (String.eqb (etco2_shape (etco2 currentParams)) "disconnect")
             && negb (String.eqb (etco2_shape (etco2 currentParams)) "cpr_low_flow")
          then ((kpa <? ALARM_LOW_KPA)%num, (kpa >? ALARM_HIGH_KPA)%num)
          else (false, false)
      | None => (false, false)
      end
    else (false, false) in
  mkAlarms lowHr highHr lowSpo2 lowMap lowEtco2 highEtco2.


(** * Properties *)

(** ** Arithmetic of [num] *)

Lemma Qlt_bool_iff (a b : Q) : Qlt_bool a b = true <-> a < b.
Proof.
  unfold Qlt_bool. rewrite negb_true_iff.
  split; intro H.
  - apply Qnot_le_lt. intro Hle. apply Qle_bool_iff in Hle. congruence.
  - destruct (Qle_bool b a) eqn:E; [|reflexivity].
    apply Qle_bool_iff in E. lra.
Qed.

Lemma Qlt_bool_false_iff (a b : Q) : Qlt_bool a b = false <-> b <= a.
Proof.
  unfold Qlt_bool. rewrite negb_false_iff. apply Qle_bool_iff.
Qed.

Lemma Qle_bool_false_iff (a b : Q) : Qle_bool a b = false <-> b < a.
Proof.
  rewrite <- Qlt_bool_iff. unfold Qlt_bool.
  destruct (Qle_bool a b); simpl; intuition congruence.
Qed.

Lemma Qeq_bool_false_iff (a b : Q) : Qeq_bool a b = false <-> ~ a == b.
Proof.
  split; intro H.
  - apply Qeq_bool_neq; assumption.
  - destruct (Qeq_bool a b) eqn:E; [|reflexivity].
    apply Qeq_bool_iff in E. contradiction.
Qed.

(** Turns the boolean comparisons of the hypotheses and the goal into
    propositions on [Q]. *)
Ltac qbool :=
  repeat match goal with
  | H : Qle_bool _ _ = true |- _ => apply Qle_bool_iff in H
  | H : Qle_bool _ _ = false |- _ => apply Qle_bool_false_iff in H
  | H : Qlt_bool _ _ = true |- _ => apply Qlt_bool_iff in H
  | H : Qlt_bool _ _ = false |- _ => apply Qlt_bool_false_iff in H
  | H : Qeq_bool _ _ = true |- _ => apply Qeq_bool_iff in H
  | H : Qeq_bool _ _ = false |- _ => apply Qeq_bool_false_iff in H
  | |- Qle_bool _ _ = true => apply Qle_bool_iff
  | |- Qle_bool _ _ = false => apply Qle_bool_false_iff
  | |- Qlt_bool _ _ = true => apply Qlt_bool_iff
  | |- Qlt_bool _ _ = false => apply Qlt_bool_false_iff
  | |- Qeq_bool _ _ = true => apply Qeq_bool_iff
  | |- Qeq_bool _ _ = false => apply Qeq_bool_false_iff
  end.

Lemma ensureFinite_finite (v : num) (q : Q) :
  exists r, ensureFinite v (Fin q) = Fin r.
Proof. unfold ensureFinite. destruct v; simpl; eauto. Qed.

Lemma ensureFinite_Fin (q : Q) (d : num) : ensureFinite (Fin q) d = Fin q.
Proof. reflexivity. Qed.

(** The final clamp of the ABP shape function: whatever [value] is, the
    result is a finite number between [0] and [hi]. *)
Lemma clamp_ensureFinite_bounds (hi d : Q) (value : num) :
  0 <= d -> d <= hi ->
  exists out,
    ensureFinite (Num.max (Fin 0) (Num.min (Fin hi) value)) (Fin d) = Fin out
    /\ 0 <= out /\ out <= hi.
Proof.
  intros Hd Hhi. unfold ensureFinite.
  destruct value as [v| | |]; simpl.
  - destruct (Qle_bool hi v) eqn:E1; simpl.
    + destruct (Qle_bool 0 hi) eqn:E2; simpl; eexists; split; try reflexivity; qbool; lra.
    + destruct (Qle_bool 0 v) eqn:E2; simpl; eexists; split; try reflexivity; qbool; lra.
  - destruct (Qle_bool 0 hi) eqn:E2; simpl; eexists; split; try reflexivity; qbool; lra.
  - exists 0. split; [reflexivity | lra].
  - exists d. split; [reflexivity | lra].
Qed.

(** ** The ABP shape function *)

Lemma abp_sys_finite (a : num) : exists q, abp_sys a = Fin q.
Proof. apply ensureFinite_finite. Qed.

Lemma abp_dia_finite (a : num) : exists q, abp_dia a = Fin q.
Proof. apply ensureFinite_finite. Qed.

Lemma Qmax_case_le (a b : Q) : a <= b -> Qmax a b == b.
Proof. intro H. apply Q.max_r. assumption. Qed.

Lemma Qmax_case_gt (a b : Q) : b < a -> Qmax a b == a.
Proof. intro H. apply Q.max_l. lra. Qed.

Lemma num_max_Fin (a b : Q) : Num.max (Fin a) (Fin b) =n= Fin (Qmax a b).
Proof.
  simpl. destruct (Qle_bool a b) eqn:E; simpl; qbool.
  - symmetry. apply Qmax_case_le. assumption.
  - symmetry. apply Qmax_case_gt. assumption.
Qed.



(** ** The capnogram shape function *)

Lemma Qtrunc_nonneg (q : Q) : 0 <= q -> Num.Qtrunc q = Qfloor q.
Proof.
  intro H. unfold Num.Qtrunc. destruct q as [n d]. simpl.
  apply Z.quot_div_nonneg; [|lia].
  unfold Qle in H. simpl in H. lia.
Qed.

Lemma Qfloor_unique (q : Q) (n : Z) :
  inject_Z n <= q -> q < inject_Z (n + 1) -> Qfloor q = n.
Proof.
  intros Hlo Hhi.
  pose proof (Qfloor_le q) as H1.
  pose proof (Qlt_floor q) as H2.
  assert (A : (Qfloor q < n + 1)%Z).
  { rewrite Zlt_Qlt. eapply Qle_lt_trans; eassumption. }
  assert (B : (n < Qfloor q + 1)%Z).
  { rewrite Zlt_Qlt. eapply Qle_lt_trans; eassumption. }
  lia.
Qed.

Lemma Qtrunc_unique (q : Q) (n : Z) :
  0 <= q -> inject_Z n <= q -> q < inject_Z (n + 1) -> Num.Qtrunc q = n.
Proof.
  intros H0 Hlo Hhi. rewrite Qtrunc_nonneg by assumption.
  apply Qfloor_unique; assumption.
Qed.

(** Within the first period the remainder is the time itself. *)
Lemma rem_within_period (t b : Q) :
  0 <= t -> t < b -> exists r, (Fin t mod Fin b)%num = Fin r /\ r == t.
Proof.
  intros Ht Hb. simpl.
  assert (Hb0 : ~ b == 0) by lra.
  apply Qeq_bool_false_iff in Hb0. rewrite Hb0.
  eexists. split; [reflexivity|].
  assert (Hq : Num.Qtrunc (t / b) = 0%Z).
  { apply Qtrunc_unique.
    - apply Qle_shift_div_l; lra.
    - apply Qle_shift_div_l; [lra|]. change (inject_Z 0) with 0. lra.
    - apply Qlt_shift_div_r; [lra|]. change (inject_Z (0 + 1)) with 1. lra. }
  rewrite Hq. change (inject_Z 0) with 0. ring.
Qed.

(** One period later the remainder is the same. *)
Lemma rem_second_period (t r b : Q) :
  0 <= t -> t < b -> r == t ->
  exists r', (Fin (r + b) mod Fin b)%num = Fin r' /\ r' == t.
Proof.
  intros Ht Hb Hr. simpl.
  assert (Hb0 : ~ b == 0) by lra.
  apply Qeq_bool_false_iff in Hb0. rewrite Hb0.
  eexists. split; [reflexivity|].
  assert (Hq : Num.Qtrunc ((r + b) / b) = 1%Z).
  { apply Qtrunc_unique.
    - apply Qle_shift_div_l; lra.
    - apply Qle_shift_div_l; [lra|]. change (inject_Z 1) with 1. lra.
    - apply Qlt_shift_div_r; [lra|]. change (inject_Z (1 + 1)) with 2. lra. }
  rewrite Hq. change (inject_Z 1) with 1. rewrite Hr. ring.
Qed.

Lemma etco2_t_rel_within_breath (performance_now : num) (t b : Q) :
  0 <= t -> t < b ->
  exists r, etco2_t_rel performance_now (Fin t) (Fin b) = Fin r /\ r == t.
Proof.
  intros Ht Hb. unfold etco2_t_rel, effectiveTimeOf, validTime.
  assert (Hv : (Num.isFinite (Fin t) && (Fin t >=? Fin 0)%num) = true).
  { simpl. qbool. assumption. }
  rewrite Hv.
  destruct (rem_within_period t b Ht Hb) as (r & Hr & Er).
  rewrite Hr. simpl Num.add.
  apply rem_second_period; assumption.
Qed.

Lemma ETCO2_cap_value : ETCO2_MAX_ACTIVE_SHAPE_DURATION =n= Fin 3.
Proof. vm_compute. reflexivity. Qed.

Lemma etco2_zero_beyond_cap
    (Math_exp : num -> num) (performance_now t breathDuration etco2Value : num)
    (shapeType : string) :
  (ETCO2_MAX_ACTIVE_SHAPE_DURATION <=? etco2_t_rel performance_now t breathDuration)%num = true ->
  generateEtco2WaveformShape Math_exp performance_now t breathDuration etco2Value shapeType
  = Fin 0.
Proof.
  intro Hcap. unfold generateEtco2WaveformShape.
  destruct (etco2_flat breathDuration etco2Value shapeType) eqn:F; [reflexivity|].
  set (t_rel := etco2_t_rel performance_now t breathDuration) in *.
  assert (Hlt : (t_rel <? Num.min breathDuration ETCO2_MAX_ACTIVE_SHAPE_DURATION)%num = false).
  { change ETCO2_MAX_ACTIVE_SHAPE_DURATION with (Fin (60.0 / 20)) in *.
    destruct breathDuration as [b| | |]; destruct t_rel as [x| | |];
      simpl in *; try discriminate; try reflexivity.
    - destruct (Qle_bool b (60.0 / 20)) eqn:E; simpl; qbool; lra.
    - destruct (Qle_bool b (60.0 / 20)); reflexivity. }
  rewrite Hlt. reflexivity.
Qed.

(** [C9] The capnogram is active for at most
    [ETCO2_MAX_ACTIVE_SHAPE_DURATION] = 60/20 = 3 s of a breath, whatever the
    breath period: once the time folded into the breath, [t_rel], has
    reached the cap the function returns 0; in particular at every elapsed
    time [t] with [3 <= t < breathDuration]. *)
Theorem etco2_active_portion_capped
    (Math_exp : num -> num) (performance_now etco2Value : num) (shapeType : string) :
  ETCO2_MAX_ACTIVE_SHAPE_DURATION =n= Fin 3
  /\ (forall t breathDuration : num,
        (ETCO2_MAX_ACTIVE_SHAPE_DURATION
           <=? etco2_t_rel performance_now t breathDuration)%num = true ->
        generateEtco2WaveformShape Math_exp performance_now
          t breathDuration etco2Value shapeType = Fin 0)
  /\ (forall t breathDuration : Q,
        3 <= t -> t < breathDuration ->
        generateEtco2WaveformShape Math_exp performance_now
          (Fin t) (Fin breathDuration) etco2Value shapeType = Fin 0).
Proof.
  split; [exact ETCO2_cap_value|]. split.
  - intros t bd H. apply etco2_zero_beyond_cap. exact H.
  - intros t bd H3 Hlt.
    apply etco2_zero_beyond_cap.
    assert (H0 : 0 <= t). { lra. }
    destruct (etco2_t_rel_within_breath performance_now t bd H0 Hlt) as (r & Hr & Er).
    rewrite Hr. change ETCO2_MAX_ACTIVE_SHAPE_DURATION with (Fin (60.0 / 20)).
    simpl. qbool. rewrite Er.
    assert (E3 : 60.0 / 20 == 3) by reflexivity.
    rewrite E3. assumption.
Qed.

(** Respiratory rate 6/min: a 10 s breath, sampled 5 s after its start. *)
Lemma etco2_cap_at_rr_6 :
  3 <= 5 /\ 5 < 60 / 6
  /\ generateEtco2WaveformShape (fun _ => Fin 1) (Fin 0)
       (Fin 5) (Fin (60 / 6)) (Fin 5.3) "normal" = Fin 0.
Proof.
  assert (H3 : 3 <= 5) by lra.
  assert (H5 : 5 < 60 / 6) by (vm_compute; reflexivity).
  split; [exact H3|]. split; [exact H5|].
  exact (proj2 (proj2 (etco2_active_portion_capped (fun _ => Fin 1) (Fin 0) (Fin 5.3) "normal"))
           5 (60 / 6) H3 H5).
Defined.

(** ** Purity of the shape functions *)

(** As stated for the whole domain of the elapsed-time argument the claim
    fails: with a negative (or non-finite) [t] the capnogram function reads
    the wall clock, so two calls with the same arguments differ.  Here
    [t = -1], a 3 s breath at 5 kPa, and the clock at 0 ms and at 2000 ms:
    the first call is in the inspiration baseline (0), the second on the
    plateau. *)
Lemma etco2_shape_reads_clock_on_invalid_time :
  ~ (exists Math_exp : num -> num,
       forall (now1 now2 t breathDuration etco2Value : num) (shapeType : string),
         generateEtco2WaveformShape Math_exp now1 t breathDuration etco2Value shapeType
         =n= generateEtco2WaveformShape Math_exp now2 t breathDuration etco2Value shapeType).
Proof.
  intros [Math_exp H].
  specialize (H (Fin 0) (Fin 2000) (Fin (-1)) (Fin 3) (Fin 5) "normal"%string).
  vm_compute in H. discriminate.
Qed.

(** [C7] (amended) With a finite, non-negative elapsed time the pleth, ABP
    and capnogram shape functions do not depend on the wall clock: two calls
    with the same arguments return the same value whenever they are made.
    The cardiac-complex function [generatePQRST] reads no clock and no
    state at all (it has no environment argument), and none of the four
    draws a random number.  Outside that domain of [t] the first three fall
    back to [performance.now()]. *)
Theorem shape_functions_pure_on_valid_time
    (Math_sin Math_exp : num -> num) (Math_pow : num -> num -> num)
    (now1 now2 t duration a b : num) (shapeType : string) :
  validTime t = true ->
  generatePlethPulseShape Math_sin Math_exp Math_pow now1 t duration a shapeType
  = generatePlethPulseShape Math_sin Math_exp Math_pow now2 t duration a shapeType
  /\ generateAbpWaveformShape Math_sin Math_exp Math_pow now1 t duration a b shapeType
     = generateAbpWaveformShape Math_sin Math_exp Math_pow now2 t duration a b shapeType
  /\ generateEtco2WaveformShape Math_exp now1 t duration a shapeType
     = generateEtco2WaveformShape Math_exp now2 t duration a shapeType
  /\ (forall (t1 t2 : num) (p1 p2 : RhythmParams),
        t1 = t2 -> p1 = p2 ->
        generatePQRST Math_sin Math_exp Math_pow t1 p1
        = generatePQRST Math_sin Math_exp Math_pow t2 p2).
Proof.
  intro Hv.
  assert (E : effectiveTimeOf now1 t = effectiveTimeOf now2 t).
  { unfold effectiveTimeOf. rewrite Hv. reflexivity. }
  repeat split.
  - unfold generatePlethPulseShape. rewrite E. reflexivity.
  - unfold generateAbpWaveformShape, abp_rawValue. rewrite E. reflexivity.
  - unfold generateEtco2WaveformShape, etco2_t_rel. rewrite E. reflexivity.
  - intros t1 t2 p1 p2 -> ->. reflexivity.
Qed.

Lemma shape_functions_pure_example :
  validTime (Fin 0.3) = true
  /\ generateEtco2WaveformShape (fun _ => Fin 1) (Fin 0) (Fin 0.3) (Fin 4) (Fin 5.3) "normal"
     = generateEtco2WaveformShape (fun _ => Fin 1) (Fin 2000) (Fin 0.3) (Fin 4) (Fin 5.3) "normal".
Proof.
  assert (Hv : validTime (Fin 0.3) = true) by reflexivity.
  split; [exact Hv|].
  exact (proj1 (proj2 (proj2
           (shape_functions_pure_on_valid_time (fun _ => Fin 1) (fun _ => Fin 1)
              (fun _ _ => Fin 1) (Fin 0) (Fin 2000) (Fin 0.3) (Fin 4) (Fin 5.3) (Fin 0)
              "normal" Hv)))).
Defined.

(** ** The Wenckebach state machine of the AV-block generator *)

Lemma num_eq_Fin_inv (x : num) (q : Q) : x =n= Fin q -> exists r, x = Fin r /\ r == q.
Proof. destruct x; simpl; intro H; try contradiction. eauto. Qed.

Section Wenckebach.

Variables Math_sin Math_exp : num -> num.
Variable Math_pow : num -> num -> num.
Variable params : RhythmParams.
Variables start inc : Q.

Hypothesis Hmobitz1 : strIs (blockType params) "mobitz1" = true.
Hypothesis Hratio : orDefault (Fin 4) (wenckebachRatioBeats params) = Fin 4.
Hypothesis Hstart : orDefault (Fin 0.16) (prIntervalStart params) = Fin start.
Hypothesis Hinc : orDefault (Fin 0.06) (prIncrement params) = Fin inc.

Lemma not_mobitz2 : strIs (blockType params) "mobitz2" = false.
Proof.
  unfold strIs in *. destruct (blockType params) as [s|]; [|reflexivity].
  apply String.eqb_eq in Hmobitz1. subst s. reflexivity.
Qed.

Lemma not_avb3 : strIs (blockType params) "avb3" = false.
Proof.
  unfold strIs in *. destruct (blockType params) as [s|]; [|reflexivity].
  apply String.eqb_eq in Hmobitz1. subst s. reflexivity.
Qed.

Local Abbreviation wphase := (wphase start inc).
Local Abbreviation wphaseOpt := (wphaseOpt start inc).
Local Abbreviation eventOk := (eventOk start inc).

Lemma wphase_json (j : nat) (s : AVBlockState) :
  wphase j s -> wphase j (jsonAVBlockState s).
Proof.
  destruct j as [|j]; simpl.
  - intros [(Hc & Hp & Hd)|Hd]; [left|right; assumption].
    repeat split; try assumption.
    apply num_eq_Fin_inv in Hp. destruct Hp as (r & -> & Hr). simpl. assumption.
  - intros (Hc & Hp & Hd). repeat split; try assumption.
    apply num_eq_Fin_inv in Hp. destruct Hp as (r & -> & Hr). simpl. assumption.
Qed.

Lemma wphase_ext (j : nat) (s s' : AVBlockState) :
  wfields s' = wfields s -> wphase j s -> wphase j s'.
Proof.
  unfold wfields. intros E. injection E as E1 E2 E3.
  unfold wphase. rewrite E1, E2, E3. tauto.
Qed.

Lemma ventricularSchedule_wfields (t : num) (d : Draws) (s : AVBlockState) :
  wfields (fst (fst (fst (ventricularSchedule t params d s)))) = wfields s.
Proof.
  unfold ventricularSchedule.
  rewrite Hmobitz1, not_mobitz2, not_avb3. simpl.
  destruct ((t >=? nextQRSTime s)%num && (nextQRSTime s >? lastQRSTime s)%num);
    [destruct (nextQRSTime s >? lastPTime s)%num|]; reflexivity.
Qed.

(** One pass through the atrial schedule at position [j]: either no P wave
    is due and the position is kept, or the P wave decides as [eventOk j]
    requires and the position advances. *)
Lemma atrialSchedule_wphase (t : num) (d : Draws) (s : AVBlockState) (j : nat) :
  (j < 4)%nat -> wphase j s ->
  match atrialSchedule t params d s with
  | (s', None) => wphase j s'
  | (s', Some e) => eventOk j e /\ wphase (S j mod 4) s'
  end.
Proof.
  intros Hj Hph. unfold atrialSchedule.
  rewrite Hmobitz1, not_mobitz2, Hratio, Hstart, Hinc.
  destruct ((t >=? nextPTime s)%num
            && (intervalOfRate (orDefault (Fin 70) (atrialRate params)) <? PInf)%num);
    [|exact Hph].
  destruct s as [lp np lq nq cb pr pw cc ne dl le lc].
  destruct j as [|[|[|[|j]]]]; try lia; simpl in Hph.
  - (* position 0: the fresh state, or the state after a drop *)
    destruct Hph as [(Hc & Hp & Hd)|Hd].
    + apply num_eq_Fin_inv in Hp. destruct Hp as (r & Hp & Hr). subst.
      simpl. unfold eventOk. simpl. repeat split; try (intros _); rewrite Hr; ring.
    + subst. simpl. unfold eventOk. simpl. repeat split; try (intros _); ring.
  - destruct Hph as (Hc & Hp & Hd).
    apply num_eq_Fin_inv in Hp. destruct Hp as (r & Hp & Hr). subst.
    simpl. unfold eventOk. simpl. repeat split; try (intros _); rewrite Hr; ring.
  - destruct Hph as (Hc & Hp & Hd).
    apply num_eq_Fin_inv in Hp. destruct Hp as (r & Hp & Hr). subst.
    simpl. unfold eventOk. simpl. repeat split; try (intros _); rewrite Hr; ring.
  - (* position 3: the fourth P wave is dropped *)
    destruct Hph as (Hc & Hp & Hd). subst.
    simpl. unfold eventOk. simpl. split; [repeat split; intro H; discriminate|].
    right. reflexivity.
Qed.

(** One call of the generator, as [script.js] makes it. *)
Lemma generateAVBlock_event_wphase
    (t : num) (d : Draws) (st : option AVBlockState) (j : nat) :
  (j < 4)%nat -> wphaseOpt j st ->
  match generateAVBlock_event Math_sin Math_exp Math_pow t params d
          (option_map jsonAVBlockState st) with
  | (_, st', None) => wphase j st'
  | (_, st', Some e) => eventOk j e /\ wphase (S j mod 4) st'
  end.
Proof.
  intros Hj Hph. unfold generateAVBlock_event.
  set (s0 := match option_map jsonAVBlockState st with
             | Some s => s
             | None => initialAVBlockState t params d
             end).
  assert (H0 : wphase j s0).
  { subst s0. destruct st as [s|]; simpl in *.
    - apply wphase_json. assumption.
    - subst j. unfold initialAVBlockState.
      rewrite not_avb3, not_mobitz2, Hstart. simpl.
      left. repeat split. }
  pose proof (atrialSchedule_wphase t d s0 j Hj H0) as Ha.
  destruct (atrialSchedule t params d s0) as [s1 ev].
  pose proof (ventricularSchedule_wfields t d s1) as Hv.
  destruct (ventricularSchedule t params d s1) as [[[s2 g] esc] pr].
  simpl in Hv.
  set (s3 := if g then _ else s2).
  assert (H3 : wfields s3 = wfields s1).
  { subst s3. destruct g; [|assumption]. rewrite <- Hv. reflexivity. }
  destruct ev as [e|].
  - destruct Ha as [He Hp]. split; [assumption|].
    eapply wphase_ext; eassumption.
  - eapply wphase_ext; eassumption.
Qed.

(** Every atrial event of a run sits at its place in the cycle of four. *)
Lemma avBlockEvents_positions (calls : list (num * Draws)) :
  forall (st : option AVBlockState) (j : nat),
    (j < 4)%nat -> wphaseOpt j st ->
    forall (k : nat) (e : AtrialEvent),
      nth_error (avBlockEvents Math_sin Math_exp Math_pow params st calls) k = Some e ->
      eventOk ((j + k) mod 4) e.
Proof.
  induction calls as [|[t d] rest IH]; intros st j Hj Hph k e Hk.
  - destruct k; discriminate.
  - simpl in Hk.
    pose proof (generateAVBlock_event_wphase t d st j Hj Hph) as Hstep.
    destruct (generateAVBlock_event Math_sin Math_exp Math_pow t params d
                (option_map jsonAVBlockState st)) as [[v st'] [e0|]].
    + destruct Hstep as [He Hp].
      destruct k as [|k]; simpl in Hk.
      * injection Hk as <-. rewrite Nat.add_0_r, Nat.mod_small by assumption.
        assumption.
      * assert (Hlt : (S j mod 4 < 4)%nat) by (apply Nat.mod_upper_bound; lia).
        specialize (IH (Some st') (S j mod 4)%nat Hlt Hp k e Hk).
        rewrite Nat.Div0.add_mod_idemp_l in IH.
        replace (j + S k)%nat with (S j + k)%nat by lia. assumption.
    + apply (IH (Some st') j Hj Hstep k e Hk).
Qed.

End Wenckebach.

Lemma firstn4_skipn (A : Type) (l : list A) :
  forall k, (k + 4 <= length l)%nat ->
  exists a b c d,
    firstn 4 (skipn k l) = [a; b; c; d]
    /\ nth_error l k = Some a /\ nth_error l (S k) = Some b
    /\ nth_error l (S (S k)) = Some c /\ nth_error l (S (S (S k))) = Some d.
Proof.
  induction l as [|x l IH]; intros k Hk; simpl in Hk; [lia|].
  destruct k as [|k].
  - destruct l as [|b [|c [|d l]]]; simpl in Hk; try lia.
    exists x, b, c, d. repeat split.
  - destruct (IH k) as (a & b & c & d & H1 & H2); [lia|].
    exists a, b, c, d. simpl. split; assumption.
Qed.

Lemma S_mod4 (k : nat) : (S k mod 4 = S (k mod 4) mod 4)%nat.
Proof.
  change (S k) with (1 + k)%nat. change (S (k mod 4)) with (1 + k mod 4)%nat.
  rewrite Nat.Div0.add_mod_idemp_r. reflexivity.
Qed.

Lemma window_mod4 (k : nat) :
  exists m, (m < 4)%nat /\ (k mod 4 = m)%nat /\ (S k mod 4 = S m mod 4)%nat
            /\ (S (S k) mod 4 = S (S m) mod 4)%nat
            /\ (S (S (S k)) mod 4 = S (S (S m)) mod 4)%nat.
Proof.
  exists (k mod 4)%nat.
  split; [apply Nat.mod_upper_bound; lia|].
  split; [reflexivity|].
  split; [apply S_mod4|].
  split.
  - change (S (S k)) with (2 + k)%nat. change (S (S (k mod 4))) with (2 + k mod 4)%nat.
    rewrite Nat.Div0.add_mod_idemp_r. reflexivity.
  - change (S (S (S k))) with (3 + k)%nat.
    change (S (S (S (k mod 4)))) with (3 + k mod 4)%nat.
    rewrite Nat.Div0.add_mod_idemp_r. reflexivity.
Qed.



(** ** The beat scheduler *)

Lemma max_ensureFinite_nonneg (x : num) :
  exists r, Num.max (ensureFinite x (Fin 0)) (Fin 0) = Fin r /\ 0 <= r.
Proof.
  destruct (ensureFinite_finite x 0) as [q ->]. simpl.
  destruct (Qle_bool q 0) eqn:E.
  - exists 0. split; [reflexivity | lra].
  - exists q. split; [reflexivity | qbool; lra].
Qed.

(** The rate the scheduler divides by is always a finite, non-negative
    number. *)
Lemma beatRate_finite_nonneg (src : EcgChannel) :
  exists r, beatRate src = Fin r /\ 0 <= r.
Proof.
  unfold beatRate.
  destruct (strIs (generatorType (ecg_params src)) "pqrst").
  - destruct (truthy (isPEA (ecg_params src)) || String.eqb (rhythm src) "vt_pulseless");
      apply max_ensureFinite_nonneg.
  - destruct (strIs (generatorType (ecg_params src)) "avBlock"
              || strIs (generatorType (ecg_params src)) "paced").
    + apply max_ensureFinite_nonneg.
    + exists 0. split; [reflexivity | lra].
Qed.

(** For a channel whose heart rate drives the schedule, the rate is
    [max(hr, 0)]. *)
Lemma beatRate_from_hr (src : EcgChannel) (h : Q) :
  rateFromHr src = true -> hr src = Fin h -> 0 < h -> beatRate src = Fin h.
Proof.
  unfold rateFromHr, beatBased, beatRate. intros Hb Hh Hpos.
  apply andb_true_iff in Hb. destruct Hb as [Hb Hn].
  rewrite Hh.
  assert (E : Num.max (ensureFinite (Fin h) (Fin 0)) (Fin 0) = Fin h).
  { simpl. destruct (Qle_bool h 0) eqn:E; [qbool; lra | reflexivity]. }
  destruct (strIs (generatorType (ecg_params src)) "pqrst"); simpl in *.
  - apply negb_true_iff in Hn. rewrite Hn. exact E.
  - rewrite Hb. exact E.
Qed.

Lemma beatInterval_regular (r : Q) (params : RhythmParams) (draw : num) :
  0 < r -> regularRhythm params = true ->
  beatInterval (Fin r) params draw = Num.max (Fin 0.1) (Fin (60.0 / r)).
Proof.
  intros Hr Hreg. unfold beatInterval, regularRhythm in *.
  apply negb_true_iff in Hreg. rewrite Hreg.
  assert (H1 : (Fin r >? Fin 0)%num = true) by (simpl; qbool; assumption).
  rewrite H1.
  assert (H2 : Qeq_bool r 0 = false) by (qbool; lra).
  simpl. rewrite H2. reflexivity.
Qed.

Lemma beatInterval_zero (r : Q) (params : RhythmParams) (draw : num) :
  r <= 0 -> beatInterval (Fin r) params draw = PInf.
Proof.
  intro Hr. unfold beatInterval.
  assert (H1 : (Fin r >? Fin 0)%num = false) by (simpl; qbool; assumption).
  rewrite H1. reflexivity.
Qed.

(** Unfolds the engine's step functions and splits on every test. *)
Ltac split_tests :=
  repeat match goal with
  | |- context [if ?c then _ else _] => destruct c
  | |- context [match ?x with Some _ => _ | None => _ end] => destruct x
  end.

Lemma checkBreathTimer_beat_frame (m : Monitor) :
  nextBeatTime (checkBreathTimer m) = nextBeatTime m
  /\ rhythmTime (checkBreathTimer m) = rhythmTime m
  /\ lastBeatTime (checkBreathTimer m) = lastBeatTime m.
Proof.
  unfold checkBreathTimer, _resetBreathTiming. split_tests; repeat split.
Qed.

Lemma applyPending_beat_frame (m : Monitor) :
  nextBeatTime (applyPendingAbp (applyPendingSpo2 m)) = nextBeatTime m
  /\ rhythmTime (applyPendingAbp (applyPendingSpo2 m)) = rhythmTime m
  /\ lastBeatTime (applyPendingAbp (applyPendingSpo2 m)) = lastBeatTime m.
Proof.
  unfold applyPendingAbp, applyPendingSpo2.
  destruct (isSpo2UpdatePending m), (pendingSpo2Params m); simpl;
    destruct (isAbpUpdatePending m), (pendingAbpParams m); simpl; repeat split.
Qed.

Lemma resetCompression_next_beat (m : Monitor) :
  nextBeatTime (_resetCompressionTiming m) = nextBeatTime m
  /\ rhythmTime (_resetCompressionTiming m) = rhythmTime m.
Proof. unfold _resetCompressionTiming. split; reflexivity. Qed.

Lemma generateECG_next_beat
    (Math_sin Math_exp : num -> num) (Math_pow : num -> num -> num)
    (d : Draws) (m : Monitor) :
  nextBeatTime (_generateECGWaveformInternal Math_sin Math_exp Math_pow d m)
  = nextBeatTime m
  /\ rhythmTime (_generateECGWaveformInternal Math_sin Math_exp Math_pow d m)
     = rhythmTime m.
Proof.
  unfold _generateECGWaveformInternal. split_tests; split; reflexivity.
Qed.

(** A schedule with no next beat keeps it through a logical step. *)
Lemma updateWaveforms_keeps_no_beat
    (Math_sin Math_exp : num -> num) (Math_pow : num -> num -> num)
    (d : TickDraws) (m : Monitor) (t : Q) :
  rhythmTime m = Fin t -> nextBeatTime m = PInf ->
  let m' := updateWaveforms Math_sin Math_exp Math_pow simulationStep d m in
  (exists t', rhythmTime m' = Fin t') /\ nextBeatTime m' = PInf.
Proof.
  intros Ht Hn m'. subst m'. unfold updateWaveforms.
  set (m1 := set_respiratoryTime _ (set_rhythmTime _ m)).
  assert (H1 : rhythmTime m1 = Fin (t + 1.0 / 100) /\ nextBeatTime m1 = PInf).
  { subst m1. simpl. rewrite Ht, Hn. split; reflexivity. }
  destruct H1 as [R1 N1].
  destruct (generateECG_next_beat Math_sin Math_exp Math_pow (td_gen d)
              (_checkAndResetTimers (td_beat d) m1)) as [-> ->].
  unfold _checkAndResetTimers.
  destruct (checkBreathTimer_beat_frame m1) as (N2 & R2 & _).
  rewrite N1 in N2. rewrite R1 in R2.
  set (m2 := checkBreathTimer m1) in *.
  unfold checkBeatTimer. rewrite R2, N2.
  change ((Fin (t + 1.0 / 100) >=? PInf)%num) with false.
  destruct (strIs _ "pqrst" || strIs _ "avBlock" || strIs _ "paced").
  - split; [eauto | assumption].
  - destruct (strIs _ "artifact" && strIs _ "cpr"); [|split; [eauto | assumption]].
    destruct ((Fin (t + 1.0 / 100) >=? nextCompressionTime m2)%num);
      [|split; [eauto | assumption]].
    destruct (applyPending_beat_frame (_resetCompressionTiming m2)) as (-> & -> & _).
    destruct (resetCompression_next_beat m2) as [-> ->].
    split; [eauto | assumption].
Qed.

Lemma runTicks_keeps_no_beat
    (Math_sin Math_exp : num -> num) (Math_pow : num -> num -> num)
    (ds : list TickDraws) :
  forall (m : Monitor) (t : Q),
    rhythmTime m = Fin t -> nextBeatTime m = PInf ->
    nextBeatTime (runTicks Math_sin Math_exp Math_pow ds m) = PInf.
Proof.
  induction ds as [|d ds IH]; intros m t Ht Hn; simpl; [assumption|].
  destruct (updateWaveforms_keeps_no_beat Math_sin Math_exp Math_pow d m t Ht Hn)
    as [[t' Ht'] Hn'].
  unfold runTicks in IH. eapply IH; eassumption.
Qed.

Lemma Qmax_floor_small_rate (r : Q) : 0 < r -> r <= 600 -> Qmax 0.1 (60 / r) == 60 / r.
Proof.
  intros H0 H6. apply Qmax_case_le.
  apply Qle_shift_div_l; [assumption|]. lra.
Qed.

Lemma sixty_over (r : Q) : 60.0 / r == 60 / r.
Proof. assert (E : 60.0 == 60) by reflexivity. rewrite E. reflexivity. Qed.

Lemma calculateNextBeatTime_no_rate (draw : num) (m : Monitor) (r : Q) :
  beatRate (ecgSourceForRate m) = Fin r -> r <= 0 ->
  nextBeatTime (_calculateNextBeatTime draw m) = PInf.
Proof.
  intros Hr H0. unfold _calculateNextBeatTime.
  rewrite Hr, beatInterval_zero by assumption. reflexivity.
Qed.

(** Scheduling from a reset ([lastBeatTime = -Infinity]) at a positive
    rate: the next beat is one interval after the current time. *)
Lemma calculateNextBeatTime_from_reset (draw : num) (m : Monitor) (t h : Q) :
  lastBeatTime m = NInf -> rhythmTime m = Fin t ->
  rateFromHr (ecgSourceForRate m) = true ->
  hr (ecgSourceForRate m) = Fin h -> 0 < h ->
  regularRhythm (ecg_params (ecgSourceForRate m)) = true ->
  nextBeatTime (_calculateNextBeatTime draw m) =n= Fin (t + Qmax 0.1 (60 / h)).
Proof.
  intros Hl Ht Hsrc Hh Hpos Hreg. unfold _calculateNextBeatTime.
  rewrite (beatRate_from_hr _ h Hsrc Hh Hpos).
  rewrite beatInterval_regular by assumption.
  rewrite Hl, Ht.
  pose proof (num_max_Fin 0.1 (60.0 / h)) as Hmax.
  apply num_eq_Fin_inv in Hmax. destruct Hmax as (x & -> & Hx).
  assert (Hx1 : 0.1 <= x) by (rewrite Hx; apply Q.le_max_l).
  simpl.
  assert (E : Qle_bool (t + x) t = false) by (qbool; lra).
  rewrite E. simpl. rewrite Hx, sixty_over. reflexivity.
Qed.

(** As stated the claim fails above 600 beats/min: the interval is floored
    at 0.1 s.  At 1200/min the scheduler computes 0.1 s, not 60/1200 s. *)
Lemma beat_interval_floored_at_rate_1200 :
  beatRate (mkEcgChannel "normal" (Fin 1200) normalSinus true) = Fin 1200
  /\ beatInterval (Fin 1200) normalSinus (Fin 0.5) = Fin 0.1
  /\ ~ 0.1 == 60 / 1200.
Proof.
  split; [reflexivity|]. split; [reflexivity|].
  intro H. vm_compute in H. discriminate.
Qed.

(** [C1] (amended) The rate the scheduler divides by is always a finite,
    non-negative number (so no division by zero is ever evaluated), and for
    a beat-based family that is neither PEA nor pulseless VT it is the
    heart rate of the channel.  For a rate [r > 0], before any irregularity
    multiplier, the beat interval is [max(0.1, 60 / r)]: it is [60 / r] up
    to 600 beats/min and the floor 0.1 s above.  For a rate of zero the
    interval is infinite, [nextBeatTime] becomes [Infinity], and it stays
    [Infinity] through any number of logical steps; after a reset at a
    positive rate the next beat is one interval away. *)
Theorem beat_interval_rule
    (Math_sin Math_exp : num -> num) (Math_pow : num -> num -> num) :
  (forall src, exists r, beatRate src = Fin r /\ 0 <= r)
  /\ (forall src h, rateFromHr src = true -> hr src = Fin h -> 0 < h ->
        beatRate src = Fin h)
  /\ (forall r params draw, 0 < r -> regularRhythm params = true ->
        beatInterval (Fin r) params draw =n= Fin (Qmax 0.1 (60 / r))
        /\ (r <= 600 -> beatInterval (Fin r) params draw =n= Fin (60 / r)))
  /\ (forall r params draw, r <= 0 -> beatInterval (Fin r) params draw = PInf)
  /\ (forall draw m r, beatRate (ecgSourceForRate m) = Fin r -> r <= 0 ->
        nextBeatTime (_calculateNextBeatTime draw m) = PInf)
  /\ (forall ds m t, rhythmTime m = Fin t -> nextBeatTime m = PInf ->
        nextBeatTime (runTicks Math_sin Math_exp Math_pow ds m) = PInf)
  /\ (forall draw m t h,
        lastBeatTime m = NInf -> rhythmTime m = Fin t ->
        rateFromHr (ecgSourceForRate m) = true ->
        hr (ecgSourceForRate m) = Fin h -> 0 < h ->
        regularRhythm (ecg_params (ecgSourceForRate m)) = true ->
        nextBeatTime (_calculateNextBeatTime draw m) =n= Fin (t + Qmax 0.1 (60 / h))).
Proof.
  split; [exact beatRate_finite_nonneg|].
  split; [exact beatRate_from_hr|].
  split.
  { intros r params draw Hr Hreg.
    rewrite beatInterval_regular by assumption.
    pose proof (num_max_Fin 0.1 (60.0 / r)) as Hmax.
    apply num_eq_Fin_inv in Hmax. destruct Hmax as (x & -> & Hx).
    simpl. rewrite sixty_over in Hx. split; [assumption|].
    intro H6. rewrite Hx. apply Qmax_floor_small_rate; assumption. }
  split; [exact beatInterval_zero|].
  split; [exact calculateNextBeatTime_no_rate|].
  split; [exact (runTicks_keeps_no_beat Math_sin Math_exp Math_pow)|].
  exact calculateNextBeatTime_from_reset.
Qed.

(** Normal sinus rhythm at 75/min: an interval of 60/75 = 0.8 s. *)
Lemma beat_interval_at_75 :
  0 < 75 /\ 75 <= 600
  /\ beatInterval (Fin 75) normalSinus (Fin 0.5) =n= Fin (60 / 75).
Proof.
  assert (H0 : 0 < 75) by reflexivity.
  assert (H6 : 75 <= 600) by (vm_compute; discriminate).
  split; [exact H0|]. split; [exact H6|].
  exact (proj2 (proj1 (proj2 (proj2
           (beat_interval_rule (fun _ => Fin 0) (fun _ => Fin 0) (fun _ _ => Fin 0))))
           75 normalSinus (Fin 0.5) H0 eq_refl) H6).
Defined.

(** ** Beat spacing follows the target heart rate *)

Lemma calculateNextBeatTime_from_last_beat (draw : num) (m : Monitor) (t lb h : Q) :
  lastBeatTime m = Fin lb -> rhythmTime m = Fin t ->
  rateFromHr (ecgSourceForRate m) = true ->
  hr (ecgSourceForRate m) = Fin h -> 0 < h ->
  regularRhythm (ecg_params (ecgSourceForRate m)) = true ->
  t < lb + Qmax 0.1 (60 / h) ->
  nextBeatTime (_calculateNextBeatTime draw m) =n= Fin (lb + Qmax 0.1 (60 / h)).
Proof.
  intros Hl Ht Hsrc Hh Hpos Hreg Hfut. unfold _calculateNextBeatTime.
  rewrite (beatRate_from_hr _ h Hsrc Hh Hpos).
  rewrite beatInterval_regular by assumption.
  rewrite Hl, Ht.
  pose proof (num_max_Fin 0.1 (60.0 / h)) as Hmax.
  apply num_eq_Fin_inv in Hmax. destruct Hmax as (x & -> & Hx).
  rewrite sixty_over in Hx.
  simpl.
  assert (E : Qle_bool (lb + x) t = false) by (qbool; rewrite Hx; assumption).
  rewrite E. simpl. rewrite Hx. reflexivity.
Qed.

Lemma calculateNextBeatTime_frame (draw : num) (m : Monitor) :
  currentParams (_calculateNextBeatTime draw m) = currentParams m
  /\ interpolationTargetParams (_calculateNextBeatTime draw m)
     = interpolationTargetParams m
  /\ lastBeatTime (_calculateNextBeatTime draw m) = lastBeatTime m
  /\ rhythmTime (_calculateNextBeatTime draw m) = rhythmTime m.
Proof. unfold _calculateNextBeatTime. split_tests; repeat split. Qed.

(** The schedule does not read the interpolating heart rate: with an
    interpolation target present, changing [current.ecg.hr] changes nothing
    else in what [_calculateNextBeatTime] computes. *)
Lemma calculateNextBeatTime_ignores_current_hr
    (draw h : num) (m : Monitor) (tp : Params) :
  interpolationTargetParams m = Some tp ->
  _calculateNextBeatTime draw (withCurrentHr h m)
  = withCurrentHr h (_calculateNextBeatTime draw m).
Proof.
  intro Hi. unfold _calculateNextBeatTime, ecgSourceForRate, withCurrentHr.
  simpl. rewrite Hi. split_tests; reflexivity.
Qed.

Lemma checkBeatTimer_ignores_current_hr
    (draw h : num) (m : Monitor) (tp : Params) :
  interpolationTargetParams m = Some tp ->
  nextBeatTime (checkBeatTimer draw (withCurrentHr h m))
  = nextBeatTime (checkBeatTimer draw m).
Proof.
  intro Hi. unfold checkBeatTimer.
  change (ecg_params (ecg (currentParams (withCurrentHr h m))))
    with (ecg_params (ecg (currentParams m))).
  change (rhythmTime (withCurrentHr h m)) with (rhythmTime m).
  change (nextBeatTime (withCurrentHr h m)) with (nextBeatTime m).
  change (nextCompressionTime (withCurrentHr h m)) with (nextCompressionTime m).
  destruct (strIs _ "pqrst" || strIs _ "avBlock" || strIs _ "paced").
  - destruct (rhythmTime m >=? nextBeatTime m)%num; [|reflexivity].
    destruct (applyPending_beat_frame
                (_calculateNextBeatTime draw (set_lastBeatTime (nextBeatTime m) (withCurrentHr h m))))
      as (-> & _).
    destruct (applyPending_beat_frame
                (_calculateNextBeatTime draw (set_lastBeatTime (nextBeatTime m) m)))
      as (-> & _).
    change (set_lastBeatTime (nextBeatTime m) (withCurrentHr h m))
      with (withCurrentHr h (set_lastBeatTime (nextBeatTime m) m)).
    rewrite (calculateNextBeatTime_ignores_current_hr draw h _ tp) by exact Hi.
    reflexivity.
  - destruct (strIs _ "artifact" && strIs _ "cpr"); [|reflexivity].
    destruct (rhythmTime m >=? nextCompressionTime m)%num; [|reflexivity].
    destruct (applyPending_beat_frame (_resetCompressionTiming (withCurrentHr h m)))
      as (-> & _).
    destruct (applyPending_beat_frame (_resetCompressionTiming m)) as (-> & _).
    reflexivity.
Qed.

(** Crossing a beat boundary: the beat is recorded and the next one is
    scheduled one interval of the target heart rate later. *)
Lemma checkBeatTimer_at_boundary
    (draw : num) (m : Monitor) (tp : Params) (t nb h : Q) :
  interpolationTargetParams m = Some tp ->
  beatBased (ecg_params (ecg (currentParams m))) = true ->
  rhythmTime m = Fin t -> nextBeatTime m = Fin nb -> nb <= t ->
  rateFromHr (ecg tp) = true -> hr (ecg tp) = Fin h -> 0 < h ->
  regularRhythm (ecg_params (ecg tp)) = true ->
  t < nb + Qmax 0.1 (60 / h) ->
  lastBeatTime (checkBeatTimer draw m) = Fin nb
  /\ nextBeatTime (checkBeatTimer draw m) =n= Fin (nb + Qmax 0.1 (60 / h)).
Proof.
  intros Hi Hb Ht Hn Hle Hsrc Hh Hpos Hreg Hfut.
  unfold checkBeatTimer. unfold beatBased in Hb. rewrite Hb, Ht, Hn.
  assert (E : (Fin t >=? Fin nb)%num = true) by (simpl; qbool; assumption).
  rewrite E.
  set (m1 := set_lastBeatTime (Fin nb) m).
  destruct (applyPending_beat_frame (_calculateNextBeatTime draw m1)) as (-> & _ & ->).
  destruct (calculateNextBeatTime_frame draw m1) as (_ & _ & -> & _).
  split; [reflexivity|].
  apply calculateNextBeatTime_from_last_beat with (t := t);
    unfold ecgSourceForRate; subst m1; simpl; rewrite ?Hi;
    first [assumption | reflexivity].
Qed.

Lemma jsonNumEqb_refl (x : num) : jsonNumEqb x x = true.
Proof. destruct x; simpl; try reflexivity. apply Qeq_bool_iff. reflexivity. Qed.

Lemma spo2CoreEqb_refl (a : Spo2Channel) : spo2CoreEqb a a = true.
Proof. unfold spo2CoreEqb. rewrite jsonNumEqb_refl, String.eqb_refl. reflexivity. Qed.

Lemma abpCoreEqb_refl (a : AbpChannel) : abpCoreEqb a a = true.
Proof.
  unfold abpCoreEqb. rewrite !jsonNumEqb_refl, String.eqb_refl. reflexivity.
Qed.

Lemma ecgFrame_refl (m : Monitor) : ecgFrame m m.
Proof. unfold ecgFrame. repeat split. intros ip H. eauto. Qed.

Lemma ecgFrame_trans (m1 m2 m3 : Monitor) :
  ecgFrame m1 m2 -> ecgFrame m2 m3 -> ecgFrame m1 m3.
Proof.
  unfold ecgFrame.
  intros (A1 & A2 & A3 & A4 & A5 & A6) (B1 & B2 & B3 & B4 & B5 & B6).
  repeat split; try congruence.
  intros ip H. destruct (A6 ip H) as (ip' & H' & E').
  destruct (B6 ip' H') as (ip'' & H'' & E''). exists ip''. split; congruence.
Qed.

Ltac frame_cases :=
  unfold ecgFrame, set_interp, interp; cbv zeta;
  repeat match goal with
  | |- context [if ?c then _ else _] => destruct c
  end;
  simpl; repeat split;
  try (intros ip Hip; try rewrite Hip; simpl; eexists; split; reflexivity).

Lemma ipcEtco2_frame (old : num) (m : Monitor) : ecgFrame m (ipcEtco2 old m).
Proof. unfold ipcEtco2. frame_cases. Qed.

Lemma ipcSpo2_frame (old : string) (m : Monitor) : ecgFrame m (ipcSpo2 old m).
Proof. unfold ipcSpo2. frame_cases. Qed.

Lemma ipcAbp_frame (old : string) (m : Monitor) : ecgFrame m (ipcAbp old m).
Proof. unfold ipcAbp. frame_cases. Qed.

(** What that prefix leaves alone. *)
Lemma ipcPrefix_frame (m : Monitor) :
  rhythmTime (ipcPrefix m) = rhythmTime m
  /\ targetParams (ipcPrefix m) = targetParams m
  /\ (exists ip, interpolationTargetParams (ipcPrefix m) = Some ip
                 /\ ecg ip = ecg (targetParams m))
  /\ rhythm (ecg (currentParams (ipcPrefix m))) = rhythm (ecg (currentParams m))
  /\ hr (ecg (currentParams (ipcPrefix m))) = hr (ecg (currentParams m))
  /\ ecg_params (ecg (currentParams (ipcPrefix m))) = ecg_params (ecg (currentParams m)).
Proof.
  unfold ipcPrefix. cbv zeta.
  set (m1 := set_currentParams _ (set_interp (targetParams m) m)).
  assert (F : ecgFrame m1
                (ipcAbp (abp_shape (abp (currentParams m)))
                   (ipcSpo2 (spo2_shape (spo2 (currentParams m)))
                      (ipcEtco2 (rr (etco2 (currentParams m))) m1)))).
  { eapply ecgFrame_trans; [apply ipcEtco2_frame|].
    eapply ecgFrame_trans; [apply ipcSpo2_frame|]. apply ipcAbp_frame. }
  destruct F as (F1 & F2 & F3 & F4 & F5 & F6).
  destruct (F6 (targetParams m) eq_refl) as (ip & Hip & Eip).
  rewrite F1, F2, F3, F4, F5.
  repeat split. exists ip. split; assumption.
Qed.

Lemma hrHeldAtZero_false_not_pulseless (e : EcgChannel) :
  hrHeldAtZero e = false -> isPulselessOrCpr (rhythm e) (ecg_params e) = false.
Proof.
  unfold hrHeldAtZero, isPulselessOrCpr. intro H.
  repeat (apply orb_false_iff in H; destruct H as [H ?]).
  repeat match goal with E : _ = false |- _ => rewrite E; clear E end.
  reflexivity.
Qed.

(** A heart-rate change on an unchanged, perfusing rhythm: the schedule is
    reset and the next beat is one interval of the requested rate away,
    while [current.ecg.hr] is left where it was. *)
Lemma initiateParameterChange_hr_change
    (RHYTHM_PARAMS : string -> option RhythmParams) (draw : num) (m : Monitor)
    (t ht hc : Q) :
  rhythmTime m = Fin t ->
  rhythm (ecg (targetParams m)) = rhythm (ecg (currentParams m)) ->
  hr (ecg (targetParams m)) = Fin ht ->
  hr (ecg (currentParams m)) = Fin hc ->
  ~ ht == hc -> 0 < ht ->
  rateFromHr (ecg (targetParams m)) = true ->
  regularRhythm (ecg_params (ecg (targetParams m))) = true ->
  hrHeldAtZero (ecg (currentParams m)) = false ->
  let m' := initiateParameterChange RHYTHM_PARAMS draw m in
  nextBeatTime m' =n= Fin (t + Qmax 0.1 (60 / ht))
  /\ hr (ecg (currentParams m')) = Fin hc
  /\ (exists ip, interpolationTargetParams m' = Some ip /\ hr (ecg ip) = Fin ht)
  /\ rhythm (ecg (currentParams m')) = rhythm (ecg (currentParams m))
  /\ ecg_params (ecg (currentParams m')) = ecg_params (ecg (currentParams m)).
Proof.
  intros Ht Hrh Hth Hch Hne Hpos Hsrc Hreg Hheld m'. subst m'.
  unfold initiateParameterChange.
  destruct (ipcPrefix_frame m) as (Fr & Ft & (ip & Fi & Fe) & Fk & Fh & Fp).
  remember (ipcPrefix m) as pre eqn:Epre. clear Epre.
  assert (Hecg : ipcEcg RHYTHM_PARAMS (rhythm (ecg (currentParams m)))
                   (hr (ecg (currentParams m))) pre = (pre, true)).
  { unfold ipcEcg. rewrite Ft, Hrh, String.eqb_refl, andb_false_r.
    rewrite Hth, Hch.
    assert (E : (Fin ht =? Fin hc)%num = false) by (simpl; qbool; assumption).
    rewrite E. simpl negb. cbv iota.
    assert (P : isPulselessOrCpr (rhythm (ecg (currentParams pre)))
                  (ecg_params (ecg (currentParams pre))) = false).
    { rewrite Fk, Fp. apply hrHeldAtZero_false_not_pulseless. assumption. }
    rewrite P. reflexivity. }
  rewrite Hecg. unfold ipcTimingReset. cbv iota beta zeta.
  set (m5 := set_nextBeatTime (rhythmTime (set_lastBeatTime NInf pre))
               (set_lastBeatTime NInf pre)).
  assert (Hn : nextBeatTime (_calculateNextBeatTime draw m5)
               =n= Fin (t + Qmax 0.1 (60 / ht))).
  { apply calculateNextBeatTime_from_reset;
      unfold ecgSourceForRate; subst m5; simpl; rewrite ?Fi, ?Fe, ?Fr;
      first [assumption | reflexivity]. }
  destruct (calculateNextBeatTime_frame draw m5) as (Cc & Ci & _ & _).
  set (m6 := _calculateNextBeatTime draw m5) in *.
  assert (Hcur : currentParams m6 = currentParams pre) by (rewrite Cc; reflexivity).
  assert (Hint : interpolationTargetParams m6 = Some ip) by (rewrite Ci; exact Fi).
  destruct (strIs _ "cpr"); simpl; rewrite ?Hcur, ?Hint, ?Fk, ?Fh, ?Fp;
    (split; [exact Hn|]); (split; [assumption|]);
    (split; [exists ip; split; [reflexivity | rewrite Fe; assumption]|]);
    split; reflexivity.
Qed.

(** ** Continuous interpolation of the numeric fields *)

Lemma Qabs_nonzero_pos (x : Q) : ~ x == 0 -> 0 < Qabs x.
Proof.
  intro H. apply Qabs_case; intro Hx.
  - destruct (Qeq_dec x 0); [contradiction | lra].
  - destruct (Qeq_dec x 0); [contradiction | lra].
Qed.

Lemma nudge_Fin (k dt t c : Q) :
  nudge (Fin k) (Fin dt) (Fin t) (Fin c)
  = if Qlt_bool 0.1 (Qabs (t + - c)) then Fin (c + (t + - c) * k * dt)
    else if negb (Qeq_bool c t) then Fin t else Fin c.
Proof. reflexivity. Qed.

(** One callback on one field, with [0 < rate * dt <= 1]: the new value
    lies between the old one and the target, it is the target once the gap
    is within the snap threshold, and otherwise the gap shrinks by the
    factor [1 - rate * dt]. *)
Lemma nudge_toward_target (k dt t c : Q) :
  0 < k * dt -> k * dt <= 1 ->
  exists x,
    nudge (Fin k) (Fin dt) (Fin t) (Fin c) = Fin x
    /\ (c <= t -> c <= x /\ x <= t)
    /\ (t <= c -> t <= x /\ x <= c)
    /\ (Qabs (t - c) <= 0.1 -> x == t)
    /\ (0.1 < Qabs (t - c) -> x == c + (t - c) * k * dt)
    /\ (~ c == t -> Qabs (t - x) < Qabs (t - c)).
Proof.
  intros Hk0 Hk1. rewrite nudge_Fin.
  assert (Eabs : Qabs (t + - c) == Qabs (t - c)) by reflexivity.
  set (kd := k * dt) in *.
  assert (Ex : forall y, y == c + (t - c) * k * dt -> y == c + (t - c) * kd).
  { intros y Hy. rewrite Hy. subst kd. ring. }
  destruct (Qlt_bool 0.1 (Qabs (t + - c))) eqn:E; qbool.
  - (* nudged *)
    exists (c + (t + - c) * k * dt).
    assert (Hy : c + (t + - c) * k * dt == c + (t - c) * kd) by (apply Ex; ring).
    split; [reflexivity|].
    split; [intro Hle; rewrite Hy; split; nra|].
    split; [intro Hle; rewrite Hy; split; nra|].
    split; [intro Hs; rewrite Eabs in E; lra|].
    split; [intros _; ring|].
    intro Hne.
    assert (Hgap : t - (c + (t + - c) * k * dt) == (t - c) * (1 - kd))
      by (rewrite Hy; ring).
    rewrite Hgap, Qabs_Qmult.
    assert (H1 : 0 <= 1 - kd) by lra.
    rewrite (Qabs_pos (1 - kd)) by assumption.
    assert (Hpos : 0 < Qabs (t - c)) by (rewrite <- Eabs; lra).
    nra.
  - (* snapped *)
    rewrite Eabs in E.
    destruct (Qeq_bool c t) eqn:Ec; simpl negb; cbv iota; qbool.
    + exists c. split; [reflexivity|].
      split; [intros; split; lra|].
      split; [intros; split; lra|].
      split; [intros; assumption|].
      split.
      { intros Hs. exfalso. apply (Qlt_irrefl (Qabs (t - c))).
        eapply Qle_lt_trans; eassumption. }
      intros Hne. contradiction.
    + exists t. split; [reflexivity|].
      split; [intros; split; lra|].
      split; [intros; split; lra|].
      split; [intros; reflexivity|].
      split.
      { intros Hs. exfalso. apply (Qlt_irrefl (Qabs (t - c))).
        eapply Qle_lt_trans; eassumption. }
      intros _.
      assert (Hn : ~ t - c == 0) by (intro H; apply Ec; lra).
      apply Qabs_nonzero_pos in Hn.
      setoid_replace (t - t) with 0 by ring.
      exact Hn.
Qed.

Lemma interpolateHr_is_nudge (dt : num) (target cur : EcgChannel) :
  hrHeldAtZero cur = false ->
  hr (interpolateHr dt target cur)
  = nudge VITAL_INTERPOLATION_RATE dt (hr target) (hr cur).
Proof.
  intro H. unfold interpolateHr, nudge. rewrite H. simpl negb.
  split_tests; reflexivity.
Qed.

Lemma interpolateSpo2_is_nudge (dt : num) (pending : bool) (target cur : Spo2Channel) :
  spo2_value (interpolateSpo2 dt pending target cur)
  = nudge VITAL_INTERPOLATION_RATE dt (spo2_value target) (spo2_value cur).
Proof. unfold interpolateSpo2. split_tests; reflexivity. Qed.

Lemma interpolateTemp_is_nudge (dt : num) (target cur : TempChannel) :
  valueC (interpolateTemp dt target cur)
  = nudge (VITAL_INTERPOLATION_RATE / Fin 2)%num dt (valueC target) (valueC cur).
Proof. unfold interpolateTemp. split_tests; reflexivity. Qed.

Lemma interpolateParams_hr (dt : Q) (m : Monitor) (ip : Params) :
  interpolationTargetParams m = Some ip -> 0 < dt ->
  hr (ecg (currentParams (interpolateParams (Fin dt) m)))
  = hr (interpolateHr (Fin dt) (ecg ip) (ecg (currentParams m))).
Proof.
  intros Hi Hdt. unfold interpolateParams. rewrite Hi.
  assert (E : (Fin dt >? Fin 0)%num = true) by (simpl; qbool; assumption).
  rewrite E. reflexivity.
Qed.

(** [C2] The beat schedule follows the interpolation target, not the
    interpolating heart rate.  With an interpolation target present, what a
    beat boundary schedules does not depend on [current.ecg.hr]; for a
    channel whose heart rate drives the schedule the next beat is
    [max(0.1, 60 / hr)] seconds of the target's [hr] after the recorded
    beat.  In the scenario 75 -> 120 beats/min on an unchanged, regular,
    perfusing rhythm, [initiateParameterChange] schedules the next beat
    60/120 = 0.5 s ahead and leaves [current.ecg.hr] at 75; one callback of
    [dt] seconds ([0 < dt] and [0.3 * dt < 1]) later the numeric heart rate is
    [75 + 45 * 0.3 * dt], strictly between 75 and 120. *)
Theorem beat_interval_follows_target_hr
    (RHYTHM_PARAMS : string -> option RhythmParams) :
  (forall (draw h : num) (m : Monitor) (tp : Params),
     interpolationTargetParams m = Some tp ->
     nextBeatTime (checkBeatTimer draw (withCurrentHr h m))
     = nextBeatTime (checkBeatTimer draw m))
  /\ (forall (draw : num) (m : Monitor) (tp : Params) (t nb h : Q),
        interpolationTargetParams m = Some tp ->
        beatBased (ecg_params (ecg (currentParams m))) = true ->
        rhythmTime m = Fin t -> nextBeatTime m = Fin nb -> nb <= t ->
        rateFromHr (ecg tp) = true -> hr (ecg tp) = Fin h -> 0 < h ->
        regularRhythm (ecg_params (ecg tp)) = true ->
        t < nb + Qmax 0.1 (60 / h) ->
        lastBeatTime (checkBeatTimer draw m) = Fin nb
        /\ nextBeatTime (checkBeatTimer draw m) =n= Fin (nb + Qmax 0.1 (60 / h)))
  /\ (forall (draw : num) (m : Monitor) (t dt : Q),
        rhythmTime m = Fin t ->
        rhythm (ecg (targetParams m)) = rhythm (ecg (currentParams m)) ->
        hr (ecg (targetParams m)) = Fin 120 ->
        hr (ecg (currentParams m)) = Fin 75 ->
        rateFromHr (ecg (targetParams m)) = true ->
        regularRhythm (ecg_params (ecg (targetParams m))) = true ->
        hrHeldAtZero (ecg (currentParams m)) = false ->
        0 < dt -> 0.3 * dt < 1 ->
        nextBeatTime (initiateParameterChange RHYTHM_PARAMS draw m) =n= Fin (t + 0.5)
        /\ hr (ecg (currentParams (initiateParameterChange RHYTHM_PARAMS draw m))) = Fin 75
        /\ exists x,
             hr (ecg (currentParams
                       (interpolateParams (Fin dt)
                          (initiateParameterChange RHYTHM_PARAMS draw m)))) = Fin x
             /\ x == 75 + 45 * 0.3 * dt /\ 75 < x /\ x < 120).
Proof.
  split; [exact checkBeatTimer_ignores_current_hr|].
  split; [exact checkBeatTimer_at_boundary|].
  intros draw m t dt Ht Hrh Hth Hch Hsrc Hreg Hheld Hdt0 Hdt1.
  assert (Hne : ~ 120 == 75) by (intro H; vm_compute in H; discriminate).
  assert (Hpos : 0 < 120) by reflexivity.
  destruct (initiateParameterChange_hr_change RHYTHM_PARAMS draw m t 120 75
              Ht Hrh Hth Hch Hne Hpos Hsrc Hreg Hheld)
    as (Hn & Hc & (ip & Hi & Hih) & Hk & Hp).
  remember (initiateParameterChange RHYTHM_PARAMS draw m) as m' eqn:Em. clear Em.
  split.
  { apply num_eq_Fin_inv in Hn. destruct Hn as (x & -> & Hx). simpl.
    rewrite Hx.
    assert (E : Qmax 0.1 (60 / 120) == 0.5).
    { rewrite Qmax_floor_small_rate; [reflexivity | reflexivity | vm_compute; discriminate]. }
    rewrite E. reflexivity. }
  split; [exact Hc|].
  rewrite (interpolateParams_hr dt m' ip Hi Hdt0).
  assert (Hheld' : hrHeldAtZero (ecg (currentParams m')) = false).
  { unfold hrHeldAtZero in *. rewrite Hk, Hp. exact Hheld. }
  rewrite interpolateHr_is_nudge by exact Hheld'.
  rewrite Hih, Hc.
  assert (K0 : 0 < 0.3 * dt) by lra.
  assert (K1 : 0.3 * dt <= 1) by lra.
  destruct (nudge_toward_target 0.3 dt 120 75 K0 K1)
    as (x & Hx & _ & _ & _ & Hval & _).
  exists x. split; [exact Hx|].
  assert (Habs : 0.1 < Qabs (120 - 75)) by (vm_compute; reflexivity).
  specialize (Hval Habs).
  assert (Hx' : x == 75 + 45 * 0.3 * dt) by (rewrite Hval; ring).
  split; [exact Hx'|]. rewrite Hx'. split; lra.
Qed.

(** The scenario on the sample monitor, a 16 ms callback later. *)
Lemma hr_75_to_120_on_sample :
  (0 < 0.016 /\ 0.3 * 0.016 < 1)
  /\ nextBeatTime (initiateParameterChange sampleCatalog (Fin 0.5) sampleHrRequest)
     =n= Fin (0 + 0.5)
  /\ hr (ecg (currentParams
               (initiateParameterChange sampleCatalog (Fin 0.5) sampleHrRequest))) = Fin 75.
Proof.
  assert (H0 : 0 < 0.016) by reflexivity.
  assert (H1 : 0.3 * 0.016 < 1) by reflexivity.
  split; [split; assumption|].
  destruct (proj2 (proj2 (beat_interval_follows_target_hr sampleCatalog))
              (Fin 0.5) sampleHrRequest 0 0.016
              eq_refl eq_refl eq_refl eq_refl eq_refl eq_refl eq_refl H0 H1)
    as (A & B & _).
  split; [exact A | exact B].
Defined.

(** ** Deferred shape changes *)

Lemma ipcEtco2_shape_frame (old : num) (m : Monitor) :
  targetParams (ipcEtco2 old m) = targetParams m
  /\ spo2 (interp (ipcEtco2 old m)) = spo2 (interp m)
  /\ abp (interp (ipcEtco2 old m)) = abp (interp m)
  /\ spo2 (currentParams (ipcEtco2 old m)) = spo2 (currentParams m)
  /\ abp (currentParams (ipcEtco2 old m)) = abp (currentParams m)
  /\ isSpo2UpdatePending (ipcEtco2 old m) = isSpo2UpdatePending m
  /\ pendingSpo2Params (ipcEtco2 old m) = pendingSpo2Params m
  /\ isAbpUpdatePending (ipcEtco2 old m) = isAbpUpdatePending m
  /\ pendingAbpParams (ipcEtco2 old m) = pendingAbpParams m.
Proof.
  unfold ipcEtco2, set_interp, interp. cbv zeta.
  repeat match goal with
  | |- context [if ?c then _ else _] => destruct c
  end; simpl; repeat split.
Qed.

(** The SpO2 block compares the target with the interpolation target; when
    these agree it does nothing. *)
Lemma ipcSpo2_noop (old : string) (m : Monitor) :
  spo2 (interp m) = spo2 (targetParams m) -> ipcSpo2 old m = m.
Proof.
  intro H. unfold ipcSpo2. rewrite H, spo2CoreEqb_refl. reflexivity.
Qed.

Lemma ipcAbp_noop (old : string) (m : Monitor) :
  abp (interp m) = abp (targetParams m) -> ipcAbp old m = m.
Proof.
  intro H. unfold ipcAbp. rewrite H, abpCoreEqb_refl. reflexivity.
Qed.

(** Since [initiateParameterChange] first overwrites the interpolation
    target with the target, its SpO2 and ABP blocks never run: the pending
    flags and snapshots of the two shapes, and the shapes in [current], come
    out of the prefix as they went in. *)
Lemma ipcPrefix_never_defers_shapes (m : Monitor) :
  isSpo2UpdatePending (ipcPrefix m) = isSpo2UpdatePending m
  /\ pendingSpo2Params (ipcPrefix m) = pendingSpo2Params m
  /\ isAbpUpdatePending (ipcPrefix m) = isAbpUpdatePending m
  /\ pendingAbpParams (ipcPrefix m) = pendingAbpParams m
  /\ spo2_shape (spo2 (currentParams (ipcPrefix m))) = spo2_shape (spo2 (currentParams m))
  /\ abp_shape (abp (currentParams (ipcPrefix m))) = abp_shape (abp (currentParams m)).
Proof.
  unfold ipcPrefix. cbv zeta.
  set (m1 := set_currentParams _ (set_interp (targetParams m) m)).
  destruct (ipcEtco2_shape_frame (rr (etco2 (currentParams m))) m1)
    as (Ft & Fs & Fa & Cs & Ca & P1 & P2 & P3 & P4).
  remember (ipcEtco2 (rr (etco2 (currentParams m))) m1) as m2 eqn:E2. clear E2.
  rewrite ipcSpo2_noop by (rewrite Fs, Ft; reflexivity).
  rewrite ipcAbp_noop by (rewrite Fa, Ft; reflexivity).
  rewrite P1, P2, P3, P4, Cs, Ca. subst m1. simpl. repeat split.
Qed.

(** [C4] The deferral of the SpO2 shape does not happen.  On the sample
    monitor, 0.3 s into a beat whose successor is due at 0.8 s, the pleth
    shape [low_perfusion] is requested.  [initiateParameterChange] leaves
    [current] at [normal] and raises no pending flag; the next rendering
    callback, 16 ms later, runs one logical step and then copies the shape
    into [current], although no beat boundary has been crossed: the last
    recorded beat is unchanged and the next beat is still ahead. *)
Theorem spo2_shape_applied_before_next_beat :
  exists m1 m2 : Monitor,
    m1 = initiateParameterChange sampleCatalog (Fin 0.5) sampleShapeRequest
    /\ spo2_shape (spo2 (currentParams m1)) = "normal"%string
    /\ isSpo2UpdatePending m1 = false
    /\ sampleCallback 10 (Fin 1016) m1 = Some (m2, 1%nat)
    /\ spo2_shape (spo2 (currentParams m2)) = "low_perfusion"%string
    /\ lastBeatTime m2 = lastBeatTime m1
    /\ (rhythmTime m2 <? nextBeatTime m2)%num = true
    /\ nextBeatTime m2 =n= Fin 0.8.
Proof.
  eexists. eexists.
  split; [reflexivity|].
  split; [vm_compute; reflexivity|].
  split; [vm_compute; reflexivity|].
  split; [vm_compute; reflexivity|].
  split; [vm_compute; reflexivity|].
  split; [vm_compute; reflexivity|].
  split; vm_compute; reflexivity.
Qed.

(** ** Convergence of the interpolated fields *)

Lemma nudgeTrajectory_approaches (k t : Q) (dts : list Q) :
  Forall (fun dt => 0 < k * dt /\ k * dt <= 1) dts ->
  forall c, approaches t c (nudgeTrajectory (Fin k) dts (Fin t) (Fin c)).
Proof.
  induction 1 as [|dt dts [H0 H1] _ IH]; intro c; simpl; [exact I|].
  destruct (nudge_toward_target k dt t c H0 H1) as (x & Hx & Hup & Hdown & _).
  rewrite Hx. exists x. split; [reflexivity|]. split; [split; assumption|].
  apply IH.
Qed.

(** Uses every implication whose premise is at hand, and splits the
    conjunctions this yields. *)
Ltac fire :=
  repeat match goal with
  | H : ?P -> _, H' : ?P |- _ => specialize (H H')
  end;
  repeat match goal with
  | H : _ /\ _ |- _ => destruct H
  end.

(** One callback on the ABP channel, the target and the current pressures
    well formed. *)
Lemma interpolateAbp_toward_target
    (dt ts td s d : Q) (pending : bool) (target cur : AbpChannel) :
  sys target = Fin ts -> dia target = Fin td -> sys cur = Fin s -> dia cur = Fin d ->
  0 <= td -> td + 1 <= ts -> d + 1 <= s ->
  0 < 0.3 * dt -> 0.3 * dt <= 1 ->
  exists s' d',
    sys (interpolateAbp (Fin dt) pending target cur) = Fin s'
    /\ dia (interpolateAbp (Fin dt) pending target cur) = Fin d'
    /\ between d d' td /\ between s s' ts
    /\ d' + 1 <= s'
    /\ (Qabs (td - d) <= 0.1 -> d' == td)
    /\ (Qabs (ts - s) <= 0.1 -> d <= td -> s' == ts).
Proof.
  intros Hts Htd Hs Hd Htd0 Hgap Hwf K0 K1.
  destruct (nudge_toward_target 0.3 dt ts s K0 K1) as (s1 & Es & Sup & Sdn & Ssnap & _).
  destruct (nudge_toward_target 0.3 dt td d K0 K1) as (d1 & Ed & Dup & Ddn & Dsnap & _).
  (* the coerced diastolic and systolic values *)
  pose (d2 := if Qle_bool 0 d1 then d1 else 0).
  pose (s2 := if Qle_bool (d2 + 1) s1 then s1 else d2 + 1).
  assert (Hd2 : Num.max (Fin 0) (Fin d1) = Fin d2).
  { simpl. subst d2. destruct (Qle_bool 0 d1); reflexivity. }
  assert (Hs2 : Num.max (Fin d2 + Fin 1)%num (Fin s1) = Fin s2).
  { simpl. subst s2. destruct (Qle_bool (d2 + 1) s1); reflexivity. }
  assert (Bd : (d <= td -> d <= d2 /\ d2 <= td) /\ (td <= d -> td <= d2 /\ d2 <= d)
               /\ 0 <= d2 /\ (d1 == td -> d2 == td)).
  { subst d2. destruct (Qle_bool 0 d1) eqn:E; qbool;
      repeat split; intros; fire; lra. }
  destruct Bd as (Bd1 & Bd2 & Bd3 & Bd4).
  assert (Bs : (s <= ts -> s <= s2 /\ s2 <= ts) /\ (ts <= s -> ts <= s2 /\ s2 <= s)
               /\ d2 + 1 <= s2).
  { subst s2. destruct (Qle_bool (d2 + 1) s1) eqn:E; qbool;
      destruct (Qlt_le_dec td d) as [Hgt|Hle];
      try (pose proof (Qlt_le_weak _ _ Hgt) as Hge);
      repeat split; intros; fire; lra. }
  destruct Bs as (Bs1 & Bs2 & Bs3).
  assert (Hz : (Fin ts =? Fin 0)%num = false) by (simpl; qbool; lra).
  exists s2, d2.
  assert (Hres : sys (interpolateAbp (Fin dt) pending target cur) = Fin s2
                 /\ dia (interpolateAbp (Fin dt) pending target cur) = Fin d2).
  { unfold interpolateAbp. rewrite Hts, Htd, Hs, Hd.
    change VITAL_INTERPOLATION_RATE with (Fin 0.3).
    rewrite Es, Ed, Hd2, Hs2, Hz. cbv beta iota zeta. simpl andb.
    cbv iota.
    destruct (negb (String.eqb _ _) && negb pending); split; reflexivity. }
  destruct Hres as [-> ->].
  split; [reflexivity|]. split; [reflexivity|].
  split; [split; assumption|]. split; [split; assumption|].
  split; [assumption|].
  split.
  - intro Hsnap. apply Bd4. apply Dsnap. assumption.
  - intros Hsnap Hle.
    assert (E1 : s1 == ts) by (apply Ssnap; assumption).
    destruct (Bd1 Hle) as [_ B2].
    subst s2. destruct (Qle_bool (d2 + 1) s1) eqn:E; qbool; lra.
Qed.




(** ** The catch-up loop *)

Lemma checkBreathTimer_loopFields (m : Monitor) :
  loopFields (checkBreathTimer m) = loopFields m.
Proof. unfold checkBreathTimer, _resetBreathTiming. split_tests; reflexivity. Qed.

Lemma applyPending_loopFields (m : Monitor) :
  loopFields (applyPendingAbp (applyPendingSpo2 m)) = loopFields m.
Proof.
  unfold applyPendingAbp, applyPendingSpo2.
  destruct (isSpo2UpdatePending m), (pendingSpo2Params m); simpl;
    destruct (isAbpUpdatePending m), (pendingAbpParams m); reflexivity.
Qed.

Lemma calculateNextBeatTime_loopFields (draw : num) (m : Monitor) :
  loopFields (_calculateNextBeatTime draw m) = loopFields m.
Proof. unfold _calculateNextBeatTime. split_tests; reflexivity. Qed.

Lemma checkBeatTimer_loopFields (draw : num) (m : Monitor) :
  loopFields (checkBeatTimer draw m) = loopFields m.
Proof.
  unfold checkBeatTimer.
  destruct (strIs _ "pqrst" || strIs _ "avBlock" || strIs _ "paced").
  - destruct (rhythmTime m >=? nextBeatTime m)%num; [|reflexivity].
    rewrite applyPending_loopFields, calculateNextBeatTime_loopFields. reflexivity.
  - destruct (strIs _ "artifact" && strIs _ "cpr"); [|reflexivity].
    destruct (rhythmTime m >=? nextCompressionTime m)%num; [|reflexivity].
    rewrite applyPending_loopFields. reflexivity.
Qed.

Lemma generateECG_loopFields
    (Math_sin Math_exp : num -> num) (Math_pow : num -> num -> num)
    (d : Draws) (m : Monitor) :
  loopFields (_generateECGWaveformInternal Math_sin Math_exp Math_pow d m) = loopFields m.
Proof. unfold _generateECGWaveformInternal. split_tests; reflexivity. Qed.

(** A logical step writes none of the loop's own fields. *)
Lemma updateWaveforms_loopFields
    (Math_sin Math_exp : num -> num) (Math_pow : num -> num -> num)
    (step : num) (d : TickDraws) (m : Monitor) :
  loopFields (updateWaveforms Math_sin Math_exp Math_pow step d m) = loopFields m.
Proof.
  unfold updateWaveforms, _checkAndResetTimers.
  rewrite generateECG_loopFields, checkBeatTimer_loopFields, checkBreathTimer_loopFields.
  reflexivity.
Qed.

Lemma simulationStep_value : simulationStep = Fin (1.0 / 100).
Proof. reflexivity. Qed.

Lemma step_hundredth : 1.0 / 100 == 1 # 100.
Proof. reflexivity. Qed.

Lemma catchUp_eq
    (Math_sin Math_exp : num -> num) (Math_pow : num -> num -> num)
    (fuel : nat) (draws : nat -> TickDraws) (i : nat) (m : Monitor) :
  catchUp Math_sin Math_exp Math_pow fuel draws i m =
  if (simulationTimeAccumulator m >=? simulationStep)%num && animationRunning m then
    match fuel with
    | O => None
    | S fuel' =>
        catchUp Math_sin Math_exp Math_pow fuel' draws (S i)
          (set_simulationTimeAccumulator
             (simulationTimeAccumulator
                (updateWaveforms Math_sin Math_exp Math_pow simulationStep (draws i) m)
              - simulationStep)%num
             (updateWaveforms Math_sin Math_exp Math_pow simulationStep (draws i) m))
    end
  else Some (m, i).
Proof. destruct fuel; reflexivity. Qed.

(** The loop runs exactly [n] steps when the accumulator holds at least
    [n] and less than [n + 1] steps, and leaves the remainder. *)
Lemma catchUp_runs
    (Math_sin Math_exp : num -> num) (Math_pow : num -> num -> num)
    (draws : nat -> TickDraws) (n : nat) :
  forall (fuel i : nat) (m : Monitor) (a : Q),
    simulationTimeAccumulator m = Fin a -> animationRunning m = true ->
    inject_Z (Z.of_nat n) * (1 # 100) <= a ->
    a < inject_Z (Z.of_nat n + 1) * (1 # 100) ->
    (n <= fuel)%nat ->
    exists m' r,
      catchUp Math_sin Math_exp Math_pow fuel draws i m = Some (m', (i + n)%nat)
      /\ simulationTimeAccumulator m' = Fin r
      /\ r == a - inject_Z (Z.of_nat n) * (1 # 100)
      /\ animationRunning m' = true.
Proof.
  induction n as [|n IH]; intros fuel i m a Ha Hrun Hlo Hhi Hfuel.
  - exists m, a.
    assert (E : (simulationTimeAccumulator m >=? simulationStep)%num = false).
    { rewrite Ha, simulationStep_value. simpl. qbool. rewrite step_hundredth.
      change (inject_Z (Z.of_nat 0 + 1)) with 1 in Hhi. lra. }
    rewrite catchUp_eq, E. simpl andb. cbv iota.
    split; [rewrite Nat.add_0_r; reflexivity|].
    split; [assumption|]. split; [|assumption].
    change (inject_Z (Z.of_nat 0)) with 0. ring.
  - destruct fuel as [|fuel]; [lia|].
    assert (Hn : inject_Z (Z.of_nat (S n)) == inject_Z (Z.of_nat n) + 1).
    { rewrite Nat2Z.inj_succ. unfold Z.succ. rewrite inject_Z_plus. reflexivity. }
    assert (Hn1 : inject_Z (Z.of_nat (S n) + 1) == inject_Z (Z.of_nat n + 1) + 1).
    { rewrite Nat2Z.inj_succ. unfold Z.succ. rewrite !inject_Z_plus. reflexivity. }
    assert (Hnn : 0 <= inject_Z (Z.of_nat n)).
    { change 0 with (inject_Z 0). rewrite <- Zle_Qle. lia. }
    assert (E : (simulationTimeAccumulator m >=? simulationStep)%num = true).
    { rewrite Ha, simulationStep_value. simpl. qbool. rewrite step_hundredth.
      rewrite Hn in Hlo. lra. }
    rewrite catchUp_eq, E, Hrun. simpl andb. cbv iota.
    set (m1 := updateWaveforms Math_sin Math_exp Math_pow simulationStep (draws i) m).
    pose proof (updateWaveforms_loopFields Math_sin Math_exp Math_pow simulationStep
                  (draws i) m) as F.
    fold m1 in F. unfold loopFields in F. injection F as F1 F2 F3 F4.
    rewrite F1, Ha. rewrite simulationStep_value.
    set (m2 := set_simulationTimeAccumulator _ m1).
    destruct (IH fuel (S i) m2 (a + - (1.0 / 100))) as (m' & r & Hc & Hr & Er & Hrun');
      try (subst m2; simpl; first [reflexivity | rewrite F2; assumption]).
    + rewrite step_hundredth. rewrite Hn in Hlo. lra.
    + rewrite step_hundredth. rewrite Hn1 in Hhi. lra.
    + lia.
    + exists m', r. split.
      * rewrite Hc. f_equal. f_equal. lia.
      * split; [assumption|]. split; [|assumption].
        rewrite Er, step_hundredth, Hn. ring.
Qed.

Lemma wholeSteps_bounds (a : Q) :
  0 <= a ->
  inject_Z (Z.of_nat (wholeSteps a)) * (1 # 100) <= a
  /\ a < inject_Z (Z.of_nat (wholeSteps a) + 1) * (1 # 100).
Proof.
  intro Ha. unfold wholeSteps.
  assert (H0 : (0 <= Qfloor (a * 100))%Z).
  { change 0%Z with (Qfloor 0). apply Qfloor_resp_le. lra. }
  rewrite Z2Nat.id by assumption.
  pose proof (Qfloor_le (a * 100)) as H1.
  pose proof (Qlt_floor (a * 100)) as H2.
  split; lra.
Qed.

Lemma interpolateParams_loopFields (dt : num) (m : Monitor) :
  loopFields (interpolateParams dt m) = loopFields m.
Proof. unfold interpolateParams. split_tests; reflexivity. Qed.

(** One callback of the rendering loop: the accumulator receives the elapsed
    seconds and the loop then runs every whole step it holds. *)
Lemma animationLoop_runs_whole_steps
    (Math_sin Math_exp : num -> num) (Math_pow : num -> num -> num)
    (RHYTHM_PARAMS : string -> option RhythmParams)
    (draws : nat -> TickDraws) (shockDraw : num) (env : ShockEnv)
    (fuel : nat) (m : Monitor) (l ts a0 : Q) :
  animationRunning m = true -> shockRequested m = false ->
  lastTimestamp m = Fin l -> ~ l == 0 ->
  simulationTimeAccumulator m = Fin a0 ->
  0 <= a0 + (ts - l) / 1000 ->
  (wholeSteps (a0 + (ts - l) / 1000) <= fuel)%nat ->
  exists m' r,
    _animationLoop Math_sin Math_exp Math_pow RHYTHM_PARAMS fuel draws shockDraw env
      (Fin ts) m = Some (m', wholeSteps (a0 + (ts - l) / 1000))
    /\ simulationTimeAccumulator m' = Fin r /\ 0 <= r /\ r < 1 # 100.
Proof.
  intros Hrun Hshock Hl Hl0 Ha Hnn Hfuel.
  unfold _animationLoop. rewrite Hrun, Hshock. simpl negb. cbv iota.
  rewrite Hl.
  assert (E0 : (Fin l =? Fin 0)%num = false) by (simpl; qbool; assumption).
  rewrite E0.
  assert (Ed : ((Fin ts - Fin l) / Fin 1000.0)%num = Fin ((ts + - l) / 1000.0))
    by reflexivity.
  rewrite Ed.
  set (m0 := set_simulationTimeAccumulator _ (set_lastTimestamp (Fin ts) m)).
  assert (Hacc : simulationTimeAccumulator m0 = Fin (a0 + (ts + - l) / 1000.0)).
  { subst m0. simpl. rewrite Ha. reflexivity. }
  assert (Hrun0 : animationRunning m0 = true) by (subst m0; simpl; assumption).
  assert (Eq : a0 + (ts + - l) / 1000.0 == a0 + (ts - l) / 1000).
  { assert (E : 1000.0 == 1000) by reflexivity. rewrite E. reflexivity. }
  assert (Ew : wholeSteps (a0 + (ts + - l) / 1000.0) = wholeSteps (a0 + (ts - l) / 1000)).
  { unfold wholeSteps. rewrite Eq. reflexivity. }
  destruct (wholeSteps_bounds (a0 + (ts + - l) / 1000.0)) as [B1 B2];
    [rewrite Eq; assumption|].
  destruct (catchUp_runs Math_sin Math_exp Math_pow draws
              (wholeSteps (a0 + (ts + - l) / 1000.0)) fuel 0%nat m0 _
              Hacc Hrun0 B1 B2) as (m' & r & Hc & Hr & Er & _);
    [rewrite Ew; assumption|].
  rewrite Hc. simpl Nat.add.
  exists (interpolateParams (Fin ((ts + - l) / 1000.0)) m'), r.
  split; [rewrite Ew; reflexivity|].
  pose proof (interpolateParams_loopFields (Fin ((ts + - l) / 1000.0)) m') as F.
  unfold loopFields in F. injection F as F1 _ _ _.
  rewrite F1. split; [assumption|].
  rewrite inject_Z_plus in B2. change (inject_Z 1) with 1 in B2.
  split; rewrite Er; lra.
Qed.




(** ** Unknown rhythm identifiers *)

Lemma ipcTimingReset_frame (draw : num) (m : Monitor) :
  currentParams (ipcTimingReset draw m) = currentParams m
  /\ ecgState (ipcTimingReset draw m) = ecgState m
  /\ targetParams (ipcTimingReset draw m) = targetParams m.
Proof.
  unfold ipcTimingReset, _resetCompressionTiming, _calculateNextBeatTime.
  split_tests; repeat split.
Qed.

(** The ECG block of [initiateParameterChange] on a rhythm key that is new
    and absent from the catalog: the key and an empty parameter object are
    written into [current] and the generator state is discarded. *)
Lemma ipcEcg_unknown_rhythm
    (RHYTHM_PARAMS : string -> option RhythmParams)
    (old key : string) (oldHR : num) (m : Monitor) :
  rhythm (ecg (targetParams m)) = key -> key <> ""%string -> key <> old ->
  RHYTHM_PARAMS key = None ->
  rhythm (ecg (currentParams (fst (ipcEcg RHYTHM_PARAMS old oldHR m)))) = key
  /\ ecg_params (ecg (currentParams (fst (ipcEcg RHYTHM_PARAMS old oldHR m)))) = emptyParams
  /\ ecgState (fst (ipcEcg RHYTHM_PARAMS old oldHR m)) = None
  /\ snd (ipcEcg RHYTHM_PARAMS old oldHR m) = true.
Proof.
  intros Hk Hne Hold Hcat. unfold ipcEcg. rewrite Hk, Hcat.
  apply String.eqb_neq in Hne, Hold. rewrite Hne, Hold. simpl negb. simpl andb.
  cbv iota. cbv zeta. simpl orDefault.
  destruct (isPulselessOrCpr key emptyParams).
  - simpl. repeat split.
  - destruct (negb (String.eqb old "") && _); simpl; repeat split.
Qed.

(** A relayed update whose rhythm key is not in the catalog is not
    refused: with the simulation running, [current] takes the unknown key
    with an empty parameter object, for which no generator is registered. *)
Lemma handleRemoteParamUpdate_unknown_rhythm
    (RHYTHM_PARAMS : string -> option RhythmParams)
    (draw : num) (received : ReceivedParams) (e : EcgChannel) (m : Monitor) :
  r_ecg received = Some e -> rhythm e <> ""%string ->
  rhythm e <> rhythm (ecg (currentParams m)) ->
  RHYTHM_PARAMS (rhythm e) = None ->
  animationRunning m = true ->
  let m' := handleRemoteParamUpdate RHYTHM_PARAMS draw received m in
  rhythm (ecg (currentParams m')) = rhythm e
  /\ ecg_params (ecg (currentParams m')) = emptyParams
  /\ registeredGenerator (generatorType (ecg_params (ecg (currentParams m')))) = false
  /\ ecgState m' = None.
Proof.
  intros He Hne Hold Hcat Hrun m'. subst m'.
  pose (t := set_ecg (set_ecg_params emptyParams
                        (ecg (mergeReceived received (targetParams m))))
               (mergeReceived received (targetParams m))).
  assert (Et : rhythm (ecg t) = rhythm e).
  { subst t. unfold mergeReceived. rewrite He. reflexivity. }
  assert (E : handleRemoteParamUpdate RHYTHM_PARAMS draw received m
              = initiateParameterChange RHYTHM_PARAMS draw (set_targetParams t m)).
  { unfold handleRemoteParamUpdate.
    assert (Ek : rhythm (ecg (mergeReceived received (targetParams m))) = rhythm e).
    { unfold mergeReceived. rewrite He. reflexivity. }
    cbv zeta. rewrite Ek.
    apply String.eqb_neq in Hne. rewrite Hne, Hcat.
    change (animationRunning (set_targetParams _ m)) with (animationRunning m).
    rewrite Hrun. simpl negb. cbv iota. reflexivity. }
  rewrite E. clearbody t.
  unfold initiateParameterChange.
  destruct (ipcPrefix_frame (set_targetParams t m)) as (_ & Ft & _ & Fk & _ & _).
  change (currentParams (set_targetParams t m)) with (currentParams m) in *.
  change (targetParams (set_targetParams t m)) with t in Ft.
  remember (ipcPrefix (set_targetParams t m)) as pre eqn:Epre. clear Epre.
  destruct (ipcEcg_unknown_rhythm RHYTHM_PARAMS (rhythm (ecg (currentParams m)))
              (rhythm e) (hr (ecg (currentParams m))) pre)
    as (A & B & C & D); try assumption.
  { rewrite Ft. exact Et. }
  destruct (ipcEcg RHYTHM_PARAMS _ _ pre) as [m1 reset]. simpl in A, B, C, D.
  subst reset. cbv beta iota zeta.
  destruct (ipcTimingReset_frame draw m1) as (-> & -> & _).
  rewrite A, B. repeat split. assumption.
Qed.

(** The shock handler does refuse: a post-shock rhythm that is not in the
    catalog leaves all three parameter snapshots as they were. *)
Lemma executeShock_unknown_rhythm_keeps_params
    (RHYTHM_PARAMS : string -> option RhythmParams)
    (draw : num) (env : ShockEnv) (remote : option string) (m : Monitor) :
  RHYTHM_PARAMS (shockRhythmKey env remote) = None ->
  currentParams (_executeShock RHYTHM_PARAMS draw env remote m) = currentParams m
  /\ targetParams (_executeShock RHYTHM_PARAMS draw env remote m) = targetParams m
  /\ interpolationTargetParams (_executeShock RHYTHM_PARAMS draw env remote m)
     = interpolationTargetParams m.
Proof.
  intro H. unfold _executeShock. rewrite H.
  unfold _calculateNextBeatTime. split_tests; repeat split.
Qed.

(** [C8] The remote-update path does not refuse an unknown rhythm.  The
    sample monitor is running normal sinus rhythm (PQRST family); a relayed
    update names the rhythm "bogus", which the catalog does not have.  After
    [handleRemoteParamUpdate] the rendering parameters carry the key "bogus"
    and an empty parameter object with no registered generator.  The shock
    handler, given the same key, leaves the rendering parameters alone. *)
Theorem unknown_rhythm_replaces_current_ecg :
  sampleCatalog "bogus" = None
  /\ animationRunning (sampleMonitorAfter 30) = true
  /\ rhythm (ecg (currentParams (sampleMonitorAfter 30))) = "normal"%string
  /\ generatorType (ecg_params (ecg (currentParams (sampleMonitorAfter 30))))
     = Some "pqrst"%string
  /\ rhythm (ecg (currentParams
       (handleRemoteParamUpdate sampleCatalog (Fin 0.5) unknownRhythmUpdate
          (sampleMonitorAfter 30)))) = "bogus"%string
  /\ ecg_params (ecg (currentParams
       (handleRemoteParamUpdate sampleCatalog (Fin 0.5) unknownRhythmUpdate
          (sampleMonitorAfter 30)))) = emptyParams
  /\ registeredGenerator (generatorType (ecg_params (ecg (currentParams
       (handleRemoteParamUpdate sampleCatalog (Fin 0.5) unknownRhythmUpdate
          (sampleMonitorAfter 30)))))) = false
  /\ currentParams
       (_executeShock sampleCatalog (Fin 0.5) (mkShockEnv "monitor" None)
          (Some "bogus"%string) (sampleMonitorAfter 30))
     = currentParams (sampleMonitorAfter 30).
Proof.
  assert (Hcat : sampleCatalog "bogus" = None) by reflexivity.
  assert (Hrun : animationRunning (sampleMonitorAfter 30) = true)
    by (vm_compute; reflexivity).
  assert (Hk : rhythm (ecg (currentParams (sampleMonitorAfter 30))) = "normal"%string)
    by (vm_compute; reflexivity).
  split; [exact Hcat|]. split; [exact Hrun|]. split; [exact Hk|].
  split; [vm_compute; reflexivity|].
  destruct (handleRemoteParamUpdate_unknown_rhythm sampleCatalog (Fin 0.5)
              unknownRhythmUpdate (mkEcgChannel "bogus" (Fin 75) emptyParams true)
              (sampleMonitorAfter 30) eq_refl)
    as (A & B & C & _); try assumption.
  { discriminate. }
  { rewrite Hk. discriminate. }
  split; [exact A|]. split; [exact B|]. split; [exact C|].
  exact (proj1 (executeShock_unknown_rhythm_keeps_params sampleCatalog (Fin 0.5)
                  (mkShockEnv "monitor" None) (Some "bogus"%string)
                  (sampleMonitorAfter 30) eq_refl)).
Qed.


(** * Further properties of the engine *)

(** ** The breath schedule *)

Lemma applyPending_breathFields (m : Monitor) :
  breathFields (applyPendingAbp (applyPendingSpo2 m)) = breathFields m.
Proof.
  unfold applyPendingAbp, applyPendingSpo2.
  destruct (isSpo2UpdatePending m), (pendingSpo2Params m); simpl;
    destruct (isAbpUpdatePending m), (pendingAbpParams m); reflexivity.
Qed.

Lemma calculateNextBeatTime_breathFields (draw : num) (m : Monitor) :
  breathFields (_calculateNextBeatTime draw m) = breathFields m.
Proof. unfold _calculateNextBeatTime. split_tests; reflexivity. Qed.

Lemma checkBeatTimer_breathFields (draw : num) (m : Monitor) :
  breathFields (checkBeatTimer draw m) = breathFields m.
Proof.
  unfold checkBeatTimer.
  destruct (strIs _ "pqrst" || strIs _ "avBlock" || strIs _ "paced").
  - destruct (rhythmTime m >=? nextBeatTime m)%num; [|reflexivity].
    rewrite applyPending_breathFields, calculateNextBeatTime_breathFields. reflexivity.
  - destruct (strIs _ "artifact" && strIs _ "cpr"); [|reflexivity].
    destruct (rhythmTime m >=? nextCompressionTime m)%num; [|reflexivity].
    rewrite applyPending_breathFields. reflexivity.
Qed.

Lemma generateECG_breathFields
    (Math_sin Math_exp : num -> num) (Math_pow : num -> num -> num)
    (d : Draws) (m : Monitor) :
  breathFields (_generateECGWaveformInternal Math_sin Math_exp Math_pow d m)
  = breathFields m.
Proof. unfold _generateECGWaveformInternal. split_tests; reflexivity. Qed.

Lemma breathIntervalFloored_pos (r : Q) :
  0 < r -> breathIntervalFloored (Fin r) =n= Fin (Qmax 0.5 (60 / r)).
Proof.
  intro Hr. unfold breathIntervalFloored.
  assert (H1 : (Fin r >? Fin 0)%num = true) by (simpl; qbool; assumption).
  rewrite H1.
  assert (H2 : Qeq_bool r 0 = false) by (qbool; lra).
  assert (E : (Fin 60.0 / Fin r)%num = Fin (60.0 / r)) by (simpl; rewrite H2; reflexivity).
  rewrite E.
  destruct (num_eq_Fin_inv _ _ (num_max_Fin 0.5 (60.0 / r))) as (x & -> & Hx).
  simpl. rewrite Hx, sixty_over. reflexivity.
Qed.

(** [X1] With no ETCO2 update pending, the breath half of the timer check
    does nothing before the breath boundary; at the boundary, with a
    respiratory rate [r > 0], it starts a breath now and schedules the next
    one [max(0.5, 60/r)] seconds ahead (so breaths are never closer than half
    a second, whatever the rate); with a rate that is zero, negative or not
    a finite number it schedules nothing and leaves the state as it is. *)
Theorem breath_interval_rule (m : Monitor) (t nb : Q) :
  isEtco2UpdatePending m = false ->
  respiratoryTime m = Fin t -> nextBreathTime m = Fin nb ->
  (t < nb -> checkBreathTimer m = m)
  /\ (nb <= t ->
      (forall r, rr (etco2 (currentParams m)) = Fin r -> 0 < r ->
         lastBreathTime (checkBreathTimer m) = Fin t
         /\ nextBreathTime (checkBreathTimer m) =n= Fin (t + Qmax 0.5 (60 / r))
         /\ currentParams (checkBreathTimer m) = currentParams m)
      /\ ((ensureFinite (rr (etco2 (currentParams m))) (Fin 0) >? Fin 0)%num = false ->
          checkBreathTimer m = m)).
Proof.
  intros Hp Ht Hnb. unfold checkBreathTimer. rewrite Hp, Ht, Hnb.
  split; [|split].
  - intro Hlt.
    assert (E : (Fin t >=? Fin nb)%num = false) by (simpl; qbool; assumption).
    rewrite E. reflexivity.
  - intros r Hr Hpos.
    assert (E : (Fin t >=? Fin nb)%num = true) by (simpl; qbool; assumption).
    rewrite E, Hr. rewrite ensureFinite_Fin.
    destruct (num_eq_Fin_inv _ _ (breathIntervalFloored_pos r Hpos)) as (x & Ex & Hx).
    rewrite Ex. simpl. unfold _resetBreathTiming. rewrite Ht. simpl.
    repeat split. rewrite Hx. reflexivity.
  - intro Hz.
    assert (E : (Fin t >=? Fin nb)%num = true) by (simpl; qbool; assumption).
    rewrite E. unfold breathIntervalFloored. rewrite Hz. reflexivity.
Qed.

(** At 15 breaths a minute the next breath is four seconds ahead. *)
Lemma breath_interval_examples :
  nextBreathTime
    (checkBreathTimer (set_respiratoryTime (Fin 4) (set_nextBreathTime (Fin 4) sampleMonitor)))
  =n= Fin (4 + Qmax 0.5 (60 / 15)).
Proof.
  exact (proj1 (proj2 (proj1 (proj2 (breath_interval_rule
           (set_respiratoryTime (Fin 4) (set_nextBreathTime (Fin 4) sampleMonitor))
           4 4 eq_refl eq_refl eq_refl) (Qle_refl 4)) 15 eq_refl eq_refl))).
Defined.

(** [X2] A pending ETCO2 update waits for the breath boundary: a logical
    step that ends before the next breath is due leaves the current ETCO2
    channel and the pending update as they are; the step that reaches the
    boundary copies the pending channel into the current parameters, clears
    the pending flag, starts a breath at the new time and schedules the next
    one from the new respiratory rate (floored at half a second). *)
Theorem etco2_update_applies_at_breath_boundary
    (Math_sin Math_exp : num -> num) (Math_pow : num -> num -> num)
    (d : TickDraws) (m : Monitor) (p : Etco2Channel) (t s nb : Q) :
  isEtco2UpdatePending m = true -> pendingEtco2Params m = Some p ->
  respiratoryTime m = Fin t -> nextBreathTime m = Fin nb ->
  (t + s < nb ->
     breathFields (updateWaveforms Math_sin Math_exp Math_pow (Fin s) d m)
     = (etco2 (currentParams m), true, Some p, lastBreathTime m, Fin nb, Fin (t + s)))
  /\ (nb <= t + s ->
     breathFields (updateWaveforms Math_sin Math_exp Math_pow (Fin s) d m)
     = (p, false, None, Fin (t + s),
        (Fin (t + s) + breathIntervalFloored (rr p))%num, Fin (t + s))).
Proof.
  intros Hf Hp Ht Hnb.
  unfold updateWaveforms, _checkAndResetTimers.
  rewrite generateECG_breathFields, checkBeatTimer_breathFields.
  set (m1 := set_respiratoryTime _ _).
  assert (F1 : isEtco2UpdatePending m1 = true) by exact Hf.
  assert (F2 : pendingEtco2Params m1 = Some p) by exact Hp.
  assert (F3 : respiratoryTime m1 = Fin (t + s)).
  { subst m1. simpl respiratoryTime. rewrite Ht. reflexivity. }
  assert (F4 : nextBreathTime m1 = Fin nb) by exact Hnb.
  assert (F5 : etco2 (currentParams m1) = etco2 (currentParams m)) by reflexivity.
  assert (F6 : lastBreathTime m1 = lastBreathTime m) by reflexivity.
  clearbody m1.
  unfold checkBreathTimer. rewrite F1, F2, F3, F4.
  split; intro H.
  - assert (E : (Fin (t + s) >=? Fin nb)%num = false) by (simpl; qbool; assumption).
    rewrite E. unfold breathFields. rewrite F1, F2, F3, F4, F5, F6. reflexivity.
  - assert (E : (Fin (t + s) >=? Fin nb)%num = true) by (simpl; qbool; assumption).
    rewrite E. unfold breathFields. simpl. rewrite F3. reflexivity.
Qed.

(** A change of the ETCO2 channel requested 0.3 s into the run is still
    pending after the next step: the next breath is due at 4 s. *)
Lemma etco2_update_pending_example :
  breathFields
    (updateWaveforms (fun _ => Fin 0) (fun _ => Fin 0) (fun _ _ => Fin 0) (Fin 0.01)
       sampleTickDraws samplePendingEtco2)
  = (etco2 (currentParams samplePendingEtco2), true, Some sampleEtco2Request,
     lastBreathTime samplePendingEtco2, Fin 4, Fin (0.3 + 0.01)).
Proof.
  exact (proj1 (etco2_update_applies_at_breath_boundary
           (fun _ => Fin 0) (fun _ => Fin 0) (fun _ _ => Fin 0) sampleTickDraws
           samplePendingEtco2 sampleEtco2Request 0.3 0.01 4
           eq_refl eq_refl eq_refl eq_refl) eq_refl).
Defined.

(** ** The beat schedule *)

(** [X3] An irregular rhythm ([irregular] in (0, 1]): for a rate [r > 0] and
    a draw of [Math.random()] in [0, 1] the beat interval is
    [max(0.1, 60/r * (1 + (draw - 0.5) * 2 * irregular))]; it is never below
    the floor of 0.1 s nor below [60/r * (1 - irregular)], and never above
    [max(0.1, 60/r * (1 + irregular))]. *)
Theorem irregular_beat_interval_bounds (r i d : Q) (params : RhythmParams) :
  0 < r -> irregular params = Some (Fin i) -> 0 < i -> i <= 1 -> 0 <= d -> d <= 1 ->
  exists x, beatInterval (Fin r) params (Fin d) = Fin x
    /\ x == Qmax 0.1 (60 / r * (1 + (d - 0.5) * 2 * i))
    /\ 0.1 <= x /\ 60 / r * (1 - i) <= x /\ x <= Qmax 0.1 (60 / r * (1 + i)).
Proof.
  intros Hr Hirr Hi0 Hi1 Hd0 Hd1. unfold beatInterval. rewrite Hirr.
  assert (H1 : (Fin r >? Fin 0)%num = true) by (simpl; qbool; assumption).
  rewrite H1. simpl orDefault.
  assert (H2 : ((Fin i >? Fin 0) && (Fin i <=? Fin 1))%num = true).
  { apply andb_true_iff. split; simpl; qbool; assumption. }
  rewrite H2.
  assert (H3 : Qeq_bool r 0 = false) by (qbool; lra).
  assert (E : ((Fin 60.0 / Fin r) * (Fin 1.0 + (Fin d - Fin 0.5) * Fin 2 * Fin i))%num
              = Fin (60.0 / r * (1.0 + (d + - 0.5) * 2 * i))).
  { simpl. rewrite H3. reflexivity. }
  rewrite E.
  destruct (num_eq_Fin_inv _ _ (num_max_Fin 0.1 (60.0 / r * (1.0 + (d + - 0.5) * 2 * i))))
    as (x & -> & Hx).
  exists x. split; [reflexivity|].
  assert (Eq : 60.0 / r * (1.0 + (d + - 0.5) * 2 * i) == 60 / r * (1 + (d - 0.5) * 2 * i)).
  { rewrite sixty_over. assert (E1 : 1.0 == 1) by reflexivity. rewrite E1. reflexivity. }
  rewrite Eq in Hx.
  assert (Hq : 0 < 60 / r).
  { apply Qlt_shift_div_l; [assumption | lra]. }
  set (q := 60 / r) in *.
  split; [assumption|].
  assert (P1 : 0 <= q * (d * i)).
  { apply Qmult_le_0_compat; [lra | apply Qmult_le_0_compat; lra]. }
  assert (P2 : 0 <= q * ((1 - d) * i)).
  { apply Qmult_le_0_compat; [lra | apply Qmult_le_0_compat; lra]. }
  assert (Hlo : q * (1 - i) <= q * (1 + (d - 0.5) * 2 * i)).
  { setoid_replace (q * (1 + (d - 0.5) * 2 * i))
      with (q * (1 - i) + 2 * (q * (d * i))) by ring. lra. }
  assert (Hhi : q * (1 + (d - 0.5) * 2 * i) <= q * (1 + i)).
  { setoid_replace (q * (1 + i))
      with (q * (1 + (d - 0.5) * 2 * i) + 2 * (q * ((1 - d) * i))) by ring. lra. }
  pose proof (Q.le_max_l 0.1 (q * (1 + (d - 0.5) * 2 * i))) as M1.
  pose proof (Q.le_max_r 0.1 (q * (1 + (d - 0.5) * 2 * i))) as M2.
  rewrite Hx. repeat split.
  - exact M1.
  - lra.
  - apply Q.max_lub.
    + apply Q.le_max_l.
    + eapply Qle_trans; [exact Hhi | apply Q.le_max_r].
Qed.

(** Rate 60/min, irregularity 0.2, draw 1/4: 0.9 s. *)
Lemma irregular_beat_interval_example :
  exists x,
    beatInterval (Fin 60)
      (mkRhythmParams (Some "pqrst"%string) None None None None None None None
         (Some (Fin 0.2)) None
         None None None None None None None None None None None None None
         None None None None None None None None None
         None None None None None None None None None None None) (Fin 0.25) = Fin x
    /\ x == Qmax 0.1 (60 / 60 * (1 + (0.25 - 0.5) * 2 * 0.2))
    /\ 0.1 <= x /\ 60 / 60 * (1 - 0.2) <= x /\ x <= Qmax 0.1 (60 / 60 * (1 + 0.2)).
Proof.
  apply (irregular_beat_interval_bounds 60 0.2 0.25); try reflexivity;
    vm_compute; discriminate.
Defined.

Lemma max_floor_num (v : num) (a : Q) :
  v = Fin a -> exists x, Num.max (Fin 0.1) v = Fin x /\ 0.1 <= x.
Proof.
  intros ->. destruct (num_eq_Fin_inv _ _ (num_max_Fin 0.1 a)) as (x & -> & Hx).
  exists x. split; [reflexivity|]. rewrite Hx. apply Q.le_max_l.
Qed.

(** The interval is a finite number of at least 0.1 s or infinite, for any
    finite draw. *)
Lemma beatInterval_finite_or_inf (r d : Q) (params : RhythmParams) :
  0 <= r ->
  beatInterval (Fin r) params (Fin d) = PInf
  \/ exists x, beatInterval (Fin r) params (Fin d) = Fin x /\ 0.1 <= x.
Proof.
  intro Hr. unfold beatInterval.
  destruct (Fin r >? Fin 0)%num eqn:E1; [|left; reflexivity].
  right. simpl in E1. qbool.
  assert (H3 : Qeq_bool r 0 = false) by (qbool; lra).
  assert (E : (Fin 60.0 / Fin r)%num = Fin (60.0 / r)) by (simpl; rewrite H3; reflexivity).
  rewrite E.
  destruct (orDefault (Fin 0) (irregular params)) as [i| | |].
  - destruct (((Fin i >? Fin 0) && (Fin i <=? Fin 1))%num);
      eapply max_floor_num; reflexivity.
  - change ((PInf >? Fin 0) && (PInf <=? Fin 1))%num with false.
    eapply max_floor_num; reflexivity.
  - change ((NInf >? Fin 0) && (NInf <=? Fin 1))%num with false.
    eapply max_floor_num; reflexivity.
  - change ((NaN >? Fin 0) && (NaN <=? Fin 1))%num with false.
    eapply max_floor_num; reflexivity.
Qed.

(** Whatever the rhythm and the state of the schedule, the beat time
    [_calculateNextBeatTime] writes is strictly after the simulated time. *)
Lemma calculateNextBeatTime_ahead (draw t : Q) (m : Monitor) :
  rhythmTime m = Fin t -> finiteOrNInf (lastBeatTime m) = true ->
  (nextBeatTime (_calculateNextBeatTime (Fin draw) m) >? Fin t)%num = true.
Proof.
  intros Ht Hl. unfold _calculateNextBeatTime.
  destruct (beatRate_finite_nonneg (ecgSourceForRate m)) as (r & -> & Hr).
  destruct (beatInterval_finite_or_inf r draw (ecg_params (ecgSourceForRate m)) Hr)
    as [-> | (x & -> & Hx)].
  - reflexivity.
  - change (Fin x =? PInf)%num with false. cbv iota. rewrite Ht.
    destruct (lastBeatTime m) as [b| | |]; try discriminate.
    + change (Fin b =? NInf)%num with false. cbv iota.
      change (Fin b + Fin x)%num with (Fin (b + x)).
      destruct (Fin (b + x) <=? Fin t)%num eqn:E.
      * simpl. qbool. rewrite step_hundredth. lra.
      * simpl in *. qbool. assumption.
    + change (NInf =? NInf)%num with true. cbv iota.
      change (Fin t + Fin x)%num with (Fin (t + x)).
      assert (E : (Fin (t + x) <=? Fin t)%num = false) by (simpl; qbool; lra).
      rewrite E. simpl. qbool. lra.
Qed.

(** [X4] The beat check of a logical step, for a beat-based rhythm
    (PQRST, AV block, paced): a beat that is due is stamped with the time it
    was scheduled for, not with the time of the step that noticed it, and
    in every case the next beat ends up strictly after the simulated time,
    so the check fires at most once per step and never schedules into the
    past. *)
Theorem beat_check_leaves_next_beat_ahead (draw t nb : Q) (m : Monitor) :
  beatBased (ecg_params (ecg (currentParams m))) = true ->
  rhythmTime m = Fin t -> nextBeatTime m = Fin nb ->
  (nextBeatTime (checkBeatTimer (Fin draw) m) >? Fin t)%num = true
  /\ (nb <= t -> lastBeatTime (checkBeatTimer (Fin draw) m) = Fin nb)
  /\ (t < nb -> checkBeatTimer (Fin draw) m = m).
Proof.
  intros Hb Ht Hn. unfold checkBeatTimer. unfold beatBased in Hb. rewrite Hb, Ht, Hn.
  destruct (Fin t >=? Fin nb)%num eqn:E; simpl in E; qbool.
  - set (m1 := set_lastBeatTime (Fin nb) m).
    destruct (applyPending_beat_frame (_calculateNextBeatTime (Fin draw) m1))
      as (-> & _ & ->).
    destruct (calculateNextBeatTime_frame (Fin draw) m1) as (_ & _ & -> & _).
    split; [|split].
    + apply calculateNextBeatTime_ahead; subst m1; [exact Ht | reflexivity].
    + reflexivity.
    + intro. lra.
  - split; [|split].
    + rewrite Hn. simpl. qbool. assumption.
    + intro. lra.
    + reflexivity.
Qed.

(** The sample monitor at the moment a beat scheduled for 0.8 s is due. *)
Lemma beat_check_example :
  (nextBeatTime (checkBeatTimer (Fin 0.5)
                   (set_nextBeatTime (Fin 0.8) (set_rhythmTime (Fin 0.8) sampleMonitor)))
   >? Fin 0.8)%num = true.
Proof.
  exact (proj1 (beat_check_leaves_next_beat_ahead 0.5 0.8 0.8
                  (set_nextBeatTime (Fin 0.8) (set_rhythmTime (Fin 0.8) sampleMonitor))
                  eq_refl eq_refl eq_refl)).
Defined.

(** ** The simulated clocks *)

Lemma checkBreathTimer_clockFields (m : Monitor) :
  clockFields (checkBreathTimer m) = clockFields m.
Proof. unfold checkBreathTimer, _resetBreathTiming. split_tests; reflexivity. Qed.

Lemma applyPending_clockFields (m : Monitor) :
  clockFields (applyPendingAbp (applyPendingSpo2 m)) = clockFields m.
Proof.
  unfold applyPendingAbp, applyPendingSpo2.
  destruct (isSpo2UpdatePending m), (pendingSpo2Params m); simpl;
    destruct (isAbpUpdatePending m), (pendingAbpParams m); reflexivity.
Qed.

Lemma calculateNextBeatTime_clockFields (draw : num) (m : Monitor) :
  clockFields (_calculateNextBeatTime draw m) = clockFields m.
Proof. unfold _calculateNextBeatTime. split_tests; reflexivity. Qed.

Lemma checkBeatTimer_clockFields (draw : num) (m : Monitor) :
  clockFields (checkBeatTimer draw m) = clockFields m.
Proof.
  unfold checkBeatTimer.
  destruct (strIs _ "pqrst" || strIs _ "avBlock" || strIs _ "paced").
  - destruct (rhythmTime m >=? nextBeatTime m)%num; [|reflexivity].
    rewrite applyPending_clockFields, calculateNextBeatTime_clockFields. reflexivity.
  - destruct (strIs _ "artifact" && strIs _ "cpr"); [|reflexivity].
    destruct (rhythmTime m >=? nextCompressionTime m)%num; [|reflexivity].
    rewrite applyPending_clockFields. reflexivity.
Qed.

Lemma generateECG_clockFields
    (Math_sin Math_exp : num -> num) (Math_pow : num -> num -> num)
    (d : Draws) (m : Monitor) :
  clockFields (_generateECGWaveformInternal Math_sin Math_exp Math_pow d m)
  = clockFields m.
Proof. unfold _generateECGWaveformInternal. split_tests; reflexivity. Qed.

Lemma updateWaveforms_clockFields
    (Math_sin Math_exp : num -> num) (Math_pow : num -> num -> num)
    (step : num) (d : TickDraws) (m : Monitor) :
  clockFields (updateWaveforms Math_sin Math_exp Math_pow step d m)
  = ((rhythmTime m + step)%num, (respiratoryTime m + step)%num).
Proof.
  unfold updateWaveforms, _checkAndResetTimers.
  rewrite generateECG_clockFields, checkBeatTimer_clockFields,
    checkBreathTimer_clockFields.
  reflexivity.
Qed.

(** [X5] Simulated time is the number of logical steps: whatever the
    rhythm, the timers and the pending updates do, a run of [n] steps
    advances both the rhythm clock and the respiratory clock by exactly
    [n / SAMPLE_RATE] seconds. *)
Theorem clocks_advance_one_step_per_tick
    (Math_sin Math_exp : num -> num) (Math_pow : num -> num -> num)
    (ds : list TickDraws) :
  forall (m : Monitor) (t u : Q),
    rhythmTime m = Fin t -> respiratoryTime m = Fin u ->
    rhythmTime (runTicks Math_sin Math_exp Math_pow ds m)
    =n= Fin (t + inject_Z (Z.of_nat (length ds)) / 100)
    /\ respiratoryTime (runTicks Math_sin Math_exp Math_pow ds m)
       =n= Fin (u + inject_Z (Z.of_nat (length ds)) / 100).
Proof.
  unfold runTicks.
  induction ds as [|d ds IH]; intros m t u Ht Hu.
  - simpl fold_left. rewrite Ht, Hu. simpl. split; field.
  - simpl fold_left.
    pose proof (updateWaveforms_clockFields Math_sin Math_exp Math_pow simulationStep d m)
      as F.
    unfold clockFields in F. injection F as F1 F2.
    rewrite Ht, simulationStep_value in F1. rewrite Hu, simulationStep_value in F2.
    destruct (IH _ _ _ F1 F2) as [A B].
    set (m' := fold_left _ ds _) in *.
    destruct (rhythmTime m') as [a| | |]; try contradiction.
    destruct (respiratoryTime m') as [b| | |]; try contradiction.
    simpl in A, B. simpl Num.eq.
    assert (E : inject_Z (Z.of_nat (length (d :: ds)))
                == inject_Z (Z.of_nat (length ds)) + 1).
    { simpl length. rewrite Nat2Z.inj_succ. unfold Z.succ. rewrite inject_Z_plus.
      reflexivity. }
    rewrite E, A, B, step_hundredth. split; field.
Qed.

(** Three hundred steps from the start: three seconds. *)
Lemma clocks_after_300_steps :
  rhythmTime (runTicks (fun _ => Fin 0) (fun _ => Fin 0) (fun _ _ => Fin 0)
                (repeat sampleTickDraws 300) sampleMonitor)
  =n= Fin (0 + inject_Z (Z.of_nat (length (repeat sampleTickDraws 300))) / 100).
Proof.
  exact (proj1 (clocks_advance_one_step_per_tick
                  (fun _ => Fin 0) (fun _ => Fin 0) (fun _ _ => Fin 0)
                  (repeat sampleTickDraws 300) sampleMonitor 0 0 eq_refl eq_refl)).
Defined.

(** ** The interpolation of the arterial pressures *)

Lemma nudge_finite (k dt t c : Q) :
  exists x, nudge (Fin k) (Fin dt) (Fin t) (Fin c) = Fin x.
Proof. rewrite nudge_Fin. split_tests; eauto. Qed.

(** [X6] One callback on the ABP channel, for any finite pressures and any
    time delta: the clamps leave the diastolic pressure non-negative and the
    systolic pressure at least 1 above it.  The branch that would snap both
    to 0 when the target is 0/0 therefore never fires (it needs
    [|sys| < 0.2]): a channel at 0/0 with the target 0/0 is turned into 1/0. *)
Theorem abp_interpolation_keeps_pulse_pressure
    (dt ts td s d : Q) (pending : bool) (target cur : AbpChannel) :
  sys target = Fin ts -> dia target = Fin td -> sys cur = Fin s -> dia cur = Fin d ->
  exists s' d',
    sys (interpolateAbp (Fin dt) pending target cur) = Fin s'
    /\ dia (interpolateAbp (Fin dt) pending target cur) = Fin d'
    /\ 0 <= d' /\ d' + 1 <= s'
    /\ (ts == 0 -> td == 0 -> s == 0 -> d == 0 -> s' == 1 /\ d' == 0).
Proof.
  intros Hts Htd Hs Hd. unfold interpolateAbp. rewrite Hts, Htd, Hs, Hd.
  unfold VITAL_INTERPOLATION_RATE.
  assert (Zs : ts == 0 -> s == 0 -> nudge (Fin 0.3) (Fin dt) (Fin ts) (Fin s) = Fin s).
  { intros A B. rewrite nudge_Fin.
    assert (E1 : Qlt_bool 0.1 (Qabs (ts + - s)) = false).
    { qbool. setoid_replace (ts + - s) with 0 by (rewrite A, B; ring).
      vm_compute. discriminate. }
    assert (E2 : Qeq_bool s ts = true) by (qbool; rewrite A, B; reflexivity).
    rewrite E1, E2. reflexivity. }
  assert (Zd : td == 0 -> d == 0 -> nudge (Fin 0.3) (Fin dt) (Fin td) (Fin d) = Fin d).
  { intros A B. rewrite nudge_Fin.
    assert (E1 : Qlt_bool 0.1 (Qabs (td + - d)) = false).
    { qbool. setoid_replace (td + - d) with 0 by (rewrite A, B; ring).
      vm_compute. discriminate. }
    assert (E2 : Qeq_bool d td = true) by (qbool; rewrite A, B; reflexivity).
    rewrite E1, E2. reflexivity. }
  destruct (nudge_finite 0.3 dt ts s) as [sn Esn].
  destruct (nudge_finite 0.3 dt td d) as [dn Edn].
  rewrite Esn, Edn in *.
  destruct (num_eq_Fin_inv _ _ (num_max_Fin 0 dn)) as (d1 & Ed1 & Hd1).
  rewrite Ed1.
  change (Fin d1 + Fin 1)%num with (Fin (d1 + 1)).
  destruct (num_eq_Fin_inv _ _ (num_max_Fin (d1 + 1) sn)) as (s1 & Es1 & Hs1).
  rewrite Es1.
  assert (B0 : 0 <= d1) by (rewrite Hd1; apply Q.le_max_l).
  assert (B1 : d1 + 1 <= s1) by (rewrite Hs1; apply Q.le_max_l).
  assert (Ez : (Num.abs (Fin s1) <? INTERPOLATION_SNAP_THRESHOLD * Fin 2)%num = false).
  { simpl. qbool. rewrite Qabs_pos by lra.
    assert (E : 0.1 * 2 == 0.2) by reflexivity. rewrite E. lra. }
  rewrite Ez. rewrite andb_false_r, andb_false_l.
  exists s1, d1.
  assert (Fs : forall c : AbpChannel,
             sys (if negb (String.eqb (abp_shape c) (abp_shape target)) && negb pending
                  then set_abp_shape (abp_shape target) c else c) = sys c
             /\ dia (if negb (String.eqb (abp_shape c) (abp_shape target)) && negb pending
                     then set_abp_shape (abp_shape target) c else c) = dia c).
  { intro c. destruct (negb _ && negb pending); split; reflexivity. }
  destruct (Fs (set_dia (Fin d1) (set_sys (Fin s1) cur))) as [-> ->].
  split; [reflexivity|]. split; [reflexivity|].
  split; [assumption|]. split; [assumption|].
  intros A B C D.
  injection (Zs A C) as ->. injection (Zd B D) as ->.
  assert (Hd0 : d1 == 0).
  { rewrite Hd1, D. reflexivity. }
  split; [|assumption].
  rewrite Hs1, Hd0, C. reflexivity.
Qed.

(** A flat 0/0 channel with the target 0/0, 16 ms after the last callback. *)
Lemma abp_flat_becomes_one_over_zero :
  exists s' d',
    sys (interpolateAbp (Fin 0.016) false (mkAbpChannel (Fin 0) (Fin 0) "damped" true)
           (mkAbpChannel (Fin 0) (Fin 0) "damped" true)) = Fin s'
    /\ dia (interpolateAbp (Fin 0.016) false (mkAbpChannel (Fin 0) (Fin 0) "damped" true)
              (mkAbpChannel (Fin 0) (Fin 0) "damped" true)) = Fin d'
    /\ 0 <= d' /\ d' + 1 <= s'
    /\ (0 == 0 -> 0 == 0 -> 0 == 0 -> 0 == 0 -> s' == 1 /\ d' == 0).
Proof.
  exact (abp_interpolation_keeps_pulse_pressure 0.016 0 0 0 0 false
           (mkAbpChannel (Fin 0) (Fin 0) "damped" true)
           (mkAbpChannel (Fin 0) (Fin 0) "damped" true)
           eq_refl eq_refl eq_refl eq_refl).
Defined.

(** ** Settled parameters *)

Lemma nudge_same (k dt c : Q) : nudge (Fin k) (Fin dt) (Fin c) (Fin c) = Fin c.
Proof.
  rewrite nudge_Fin.
  assert (E1 : Qlt_bool 0.1 (Qabs (c + - c)) = false).
  { qbool. setoid_replace (c + - c) with 0 by ring. vm_compute. discriminate. }
  assert (E2 : Qeq_bool c c = true) by (qbool; reflexivity).
  rewrite E1, E2. reflexivity.
Qed.

(** [X7] Once the current parameters equal the interpolation target, with
    finite values and a well-formed arterial pressure (diastolic at least
    0, systolic at least 1 above it), a callback changes nothing: no
    drift, for any time delta and any rhythm. *)
Theorem settled_parameters_are_a_fixed_point
    (dt h v c : Q) (m : Monitor) (target : Params) :
  interpolationTargetParams m = Some target -> currentParams m = target ->
  hr (ecg target) = Fin h -> spo2_value (spo2 target) = Fin v ->
  valueC (temp target) = Fin c -> abpWellFormed (abp target) ->
  interpolateParams (Fin dt) m = m.
Proof.
  intros Hi Hc Hh Hv Ht (s & d & Hs & Hd & Hd0 & Hsd).
  unfold interpolateParams. rewrite Hi.
  destruct (Fin dt >? Fin 0)%num; [|reflexivity].
  rewrite Hc.
  assert (E1 : interpolateHr (Fin dt) (ecg target) (ecg target) = ecg target).
  { unfold interpolateHr. rewrite Hh.
    assert (A : (Num.abs (Fin h - Fin h) >? INTERPOLATION_SNAP_THRESHOLD)%num = false).
    { change ((Num.abs (Fin h - Fin h) >? INTERPOLATION_SNAP_THRESHOLD)%num)
        with (Qlt_bool 0.1 (Qabs (h + - h))).
      qbool. setoid_replace (h + - h) with 0 by ring. vm_compute. discriminate. }
    assert (B : (Fin h =? Fin h)%num = true).
    { change (Fin h =? Fin h)%num with (Qeq_bool h h). qbool. reflexivity. }
    rewrite A, B. reflexivity. }
  assert (E2 : forall p, interpolateSpo2 (Fin dt) p (spo2 target) (spo2 target) = spo2 target).
  { intro p. unfold interpolateSpo2, VITAL_INTERPOLATION_RATE.
    rewrite Hv, nudge_same. simpl spo2_shape. rewrite String.eqb_refl. simpl.
    revert Hv. destruct (spo2 target). simpl. intros ->. reflexivity. }
  assert (E3 : forall p, interpolateAbp (Fin dt) p (abp target) (abp target) = abp target).
  { intro p. unfold interpolateAbp, VITAL_INTERPOLATION_RATE.
    rewrite Hs, Hd, !nudge_same.
    assert (A : Num.max (Fin 0) (Fin d) = Fin d).
    { change (Num.max (Fin 0) (Fin d)) with (if Qle_bool 0 d then Fin d else Fin 0).
      assert (E : Qle_bool 0 d = true) by (qbool; assumption). rewrite E. reflexivity. }
    rewrite A.
    assert (B : Num.max (Fin d + Fin 1) (Fin s) = Fin s).
    { change (Num.max (Fin d + Fin 1) (Fin s))
        with (if Qle_bool (d + 1) s then Fin s else Fin (d + 1)).
      assert (E : Qle_bool (d + 1) s = true) by (qbool; assumption).
      rewrite E. reflexivity. }
    rewrite B.
    assert (C : (Num.abs (Fin s) <? INTERPOLATION_SNAP_THRESHOLD * Fin 2)%num = false).
    { change ((Num.abs (Fin s) <? INTERPOLATION_SNAP_THRESHOLD * Fin 2)%num)
        with (Qlt_bool (Qabs s) (0.1 * 2)).
      qbool. rewrite Qabs_pos by lra.
      assert (E : 0.1 * 2 == 0.2) by reflexivity. rewrite E. lra. }
    rewrite C, andb_false_r, andb_false_l.
    simpl abp_shape. rewrite String.eqb_refl. simpl.
    revert Hs Hd. destruct (abp target). simpl. intros -> ->. reflexivity. }
  assert (E4 : interpolateEtco2 (etco2 target) (etco2 target) = etco2 target).
  { unfold interpolateEtco2. rewrite String.eqb_refl. reflexivity. }
  assert (E5 : interpolateTemp (Fin dt) (temp target) (temp target) = temp target).
  { unfold interpolateTemp, VITAL_INTERPOLATION_RATE.
    change (Fin 0.3 / Fin 2)%num with (Fin (0.3 / 2)).
    rewrite Ht, nudge_same. simpl temp_unitPref. rewrite String.eqb_refl. simpl.
    revert Ht. destruct (temp target). simpl. intros ->. reflexivity. }
  rewrite E1, E2, E3, E4, E5.
  destruct target. simpl. rewrite <- Hc. destruct m; reflexivity.
Qed.

(** The sample monitor right after its start has reached its target. *)
Lemma settled_sample_monitor :
  interpolateParams (Fin 0.016) sampleMonitor = sampleMonitor.
Proof.
  apply (settled_parameters_are_a_fixed_point 0.016 75 98 37.0 sampleMonitor sampleTarget);
    try reflexivity.
  exists 120, 80. repeat split; vm_compute; discriminate.
Defined.

(** ** Starting, stopping and the first callback *)

Lemma resetBreathTiming_loopFields (i : num) (m : Monitor) :
  loopFields (_resetBreathTiming i m) = loopFields m.
Proof. reflexivity. Qed.

Lemma resetCompressionTiming_loopFields (m : Monitor) :
  loopFields (_resetCompressionTiming m) = loopFields m.
Proof. reflexivity. Qed.

(** What [startAnimation] leaves in the loop's own fields. *)
Lemma startAnimation_loopFields
    (RHYTHM_PARAMS : string -> option RhythmParams) (draw : num) (m : Monitor) :
  animationRunning m = false ->
  loopFields (startAnimation RHYTHM_PARAMS draw m) = (Fin 0, true, Fin 0, false).
Proof.
  intro H. unfold startAnimation. rewrite H.
  match goal with
  | |- loopFields (set_animationRunning true (set_shockRequested false ?x)) = _ =>
      remember x as y eqn:Ey;
      assert (F : loopFields y = (Fin 0, false, Fin 0, shockRequested m))
  end.
  { subst y.
    match goal with
    | |- loopFields (if ?c then _ else _) = _ => destruct c
    end;
    rewrite ?resetCompressionTiming_loopFields, resetBreathTiming_loopFields,
      calculateNextBeatTime_loopFields;
    unfold loopFields; simpl; rewrite H; reflexivity. }
  clear Ey. destruct y. unfold loopFields in *. simpl in *.
  injection F as F1 _ F3 _. rewrite F1, F3. reflexivity.
Qed.

(** [X8] The first rendering callback after [startAnimation] executes no
    logical step and no interpolation, whatever its timestamp: it only
    records the timestamp, so simulated time starts to run with the second
    callback. *)
Theorem first_callback_only_records_timestamp
    (Math_sin Math_exp : num -> num) (Math_pow : num -> num -> num)
    (RHYTHM_PARAMS : string -> option RhythmParams)
    (fuel : nat) (draws : nat -> TickDraws) (draw shockDraw timestamp : num)
    (env : ShockEnv) (m : Monitor) :
  animationRunning m = false ->
  _animationLoop Math_sin Math_exp Math_pow RHYTHM_PARAMS fuel draws shockDraw env
    timestamp (startAnimation RHYTHM_PARAMS draw m)
  = Some (set_lastTimestamp timestamp (startAnimation RHYTHM_PARAMS draw m), O).
Proof.
  intro H.
  pose proof (startAnimation_loopFields RHYTHM_PARAMS draw m H) as F.
  unfold loopFields in F. injection F as F1 F2 F3 F4.
  unfold _animationLoop. rewrite F2, F4. simpl negb. cbv iota. rewrite F3.
  reflexivity.
Qed.

(** The sample monitor's first callback, at 123456 ms. *)
Lemma first_callback_example :
  sampleCallback 0 (Fin 123456) sampleMonitor
  = Some (set_lastTimestamp (Fin 123456) sampleMonitor, O).
Proof.
  exact (first_callback_only_records_timestamp
           (fun _ => Fin 0) (fun _ => Fin 0) (fun _ _ => Fin 0) sampleCatalog
           0 (fun _ => sampleTickDraws) (Fin 0.5) (Fin 0.5) (Fin 123456) sampleEnv
           (newMonitor sampleTarget) eq_refl).
Defined.

Lemma stopAnimation_not_running (m : Monitor) :
  animationRunning (stopAnimation m) = false.
Proof.
  unfold stopAnimation. destruct (animationRunning m) eqn:E; simpl; [reflexivity | exact E].
Qed.

Lemma stopAnimation_target (m : Monitor) :
  targetParams (stopAnimation m) = targetParams m.
Proof. unfold stopAnimation. destruct (animationRunning m); reflexivity. Qed.

Lemma calculateNextBeatTime_loop_flags (draw : num) (a b : bool) (m : Monitor) :
  _calculateNextBeatTime draw (set_shockRequested b (set_animationRunning a m))
  = set_shockRequested b (set_animationRunning a (_calculateNextBeatTime draw m)).
Proof.
  unfold _calculateNextBeatTime.
  change (ecgSourceForRate (set_shockRequested b (set_animationRunning a m)))
    with (ecgSourceForRate m).
  change (lastBeatTime (set_shockRequested b (set_animationRunning a m)))
    with (lastBeatTime m).
  change (rhythmTime (set_shockRequested b (set_animationRunning a m)))
    with (rhythmTime m).
  split_tests; reflexivity.
Qed.

Lemma resetBreathTiming_loop_flags (i : num) (a b : bool) (m : Monitor) :
  _resetBreathTiming i (set_shockRequested b (set_animationRunning a m))
  = set_shockRequested b (set_animationRunning a (_resetBreathTiming i m)).
Proof. reflexivity. Qed.

Lemma resetCompressionTiming_loop_flags (a b : bool) (m : Monitor) :
  _resetCompressionTiming (set_shockRequested b (set_animationRunning a m))
  = set_shockRequested b (set_animationRunning a (_resetCompressionTiming m)).
Proof. reflexivity. Qed.

Lemma loop_flags_twice (a b a' b' : bool) (m : Monitor) :
  set_animationRunning a' (set_shockRequested b' (set_shockRequested b (set_animationRunning a m)))
  = set_animationRunning a' (set_shockRequested b' m).
Proof. reflexivity. Qed.

(** [startAnimation] on a stopped monitor reads nothing but the target
    parameters. *)
Lemma startAnimation_reads_target_only
    (RHYTHM_PARAMS : string -> option RhythmParams) (draw : num) (m1 m2 : Monitor) :
  animationRunning m1 = false -> animationRunning m2 = false ->
  targetParams m1 = targetParams m2 ->
  startAnimation RHYTHM_PARAMS draw m1 = startAnimation RHYTHM_PARAMS draw m2.
Proof.
  intros H1 H2 Ht. unfold startAnimation. rewrite H1, H2, Ht. cbv zeta.
  set (r1 := set_nextCompressionTime (Fin 0) (set_lastCompressionTime NInf
               (set_nextBreathTime (Fin 0) (set_lastBreathTime NInf
                 (set_nextBeatTime (Fin 0) (set_lastBeatTime (Fin 0)
                   (set_pendingAbpParams None (set_isAbpUpdatePending false
                     (set_pendingSpo2Params None (set_isSpo2UpdatePending false
                       (set_pendingEtco2Params None (set_isEtco2UpdatePending false
                         (set_ecgState None (set_simulationTimeAccumulator (Fin 0)
                           (set_lastTimestamp (Fin 0) (set_respiratoryTime (Fin 0)
                             (set_rhythmTime (Fin 0)
                               (set_interp _ (set_currentParams _ m1))))))))))))))))))).
  set (r2 := set_nextCompressionTime (Fin 0) (set_lastCompressionTime NInf
               (set_nextBreathTime (Fin 0) (set_lastBreathTime NInf
                 (set_nextBeatTime (Fin 0) (set_lastBeatTime (Fin 0)
                   (set_pendingAbpParams None (set_isAbpUpdatePending false
                     (set_pendingSpo2Params None (set_isSpo2UpdatePending false
                       (set_pendingEtco2Params None (set_isEtco2UpdatePending false
                         (set_ecgState None (set_simulationTimeAccumulator (Fin 0)
                           (set_lastTimestamp (Fin 0) (set_respiratoryTime (Fin 0)
                             (set_rhythmTime (Fin 0)
                               (set_interp _ (set_currentParams _ m2))))))))))))))))))).
  assert (F : set_shockRequested false (set_animationRunning false r1)
              = set_shockRequested false (set_animationRunning false r2)).
  { subst r1 r2. destruct m1, m2. simpl in Ht. subst. reflexivity. }
  clearbody r1 r2.
  assert (G : forall r,
    set_animationRunning true (set_shockRequested false
      (if strIs (artifactType (ecg_params (ecg (currentParams
             (_resetBreathTiming
                (breathIntervalOf (rr (etco2 (currentParams (_calculateNextBeatTime draw r)))))
                (_calculateNextBeatTime draw r)))))) "cpr"
       then _resetCompressionTiming
              (_resetBreathTiming
                (breathIntervalOf (rr (etco2 (currentParams (_calculateNextBeatTime draw r)))))
                (_calculateNextBeatTime draw r))
       else _resetBreathTiming
                (breathIntervalOf (rr (etco2 (currentParams (_calculateNextBeatTime draw r)))))
                (_calculateNextBeatTime draw r)))
    = set_animationRunning true (set_shockRequested false
      (if strIs (artifactType (ecg_params (ecg (currentParams
             (_resetBreathTiming
                (breathIntervalOf (rr (etco2 (currentParams (_calculateNextBeatTime draw
                    (set_shockRequested false (set_animationRunning false r)))))))
                (_calculateNextBeatTime draw (set_shockRequested false (set_animationRunning false r)))))))) "cpr"
       then _resetCompressionTiming
              (_resetBreathTiming
                (breathIntervalOf (rr (etco2 (currentParams (_calculateNextBeatTime draw (set_shockRequested false (set_animationRunning false r)))))))
                (_calculateNextBeatTime draw (set_shockRequested false (set_animationRunning false r))))
       else _resetBreathTiming
                (breathIntervalOf (rr (etco2 (currentParams (_calculateNextBeatTime draw (set_shockRequested false (set_animationRunning false r)))))))
                (_calculateNextBeatTime draw (set_shockRequested false (set_animationRunning false r)))))).
  { intro r. rewrite calculateNextBeatTime_loop_flags.
    set (x := _calculateNextBeatTime draw r).
    change (currentParams (set_shockRequested false (set_animationRunning false x)))
      with (currentParams x).
    rewrite resetBreathTiming_loop_flags.
    set (y := _resetBreathTiming _ x).
    change (currentParams (set_shockRequested false (set_animationRunning false y)))
      with (currentParams y).
    destruct (strIs _ "cpr").
    - rewrite resetCompressionTiming_loop_flags, loop_flags_twice. reflexivity.
    - rewrite loop_flags_twice. reflexivity. }
  rewrite (G r1), (G r2), F. reflexivity.
Qed.


Lemma loopFields_pending_setters (x : Monitor) :
  loopFields (set_pendingAbpParams None (set_isAbpUpdatePending false
           (set_pendingSpo2Params None (set_isSpo2UpdatePending false x)))) = loopFields x.
Proof. reflexivity. Qed.

Lemma loopFields_shock_setters (a b : num) (x : Monitor) :
  loopFields (set_nextBeatTime a (set_lastBeatTime b (set_ecgState None x))) = loopFields x.
Proof. reflexivity. Qed.

Lemma loopFields_breath_setters (a b : num) (x : Monitor) :
  loopFields (set_nextBreathTime a (set_lastBreathTime b
     (set_pendingEtco2Params None (set_isEtco2UpdatePending false x)))) = loopFields x.
Proof. reflexivity. Qed.

Lemma loopFields_param_setters (a b c : Params) (x : Monitor) :
  loopFields (set_interp a (set_targetParams b (set_currentParams c x))) = loopFields x.
Proof. reflexivity. Qed.

Lemma executeShock_loopFields
    (RHYTHM_PARAMS : string -> option RhythmParams)
    (draw : num) (env : ShockEnv) (k : option string) (m : Monitor) :
  loopFields (_executeShock RHYTHM_PARAMS draw env k m) = loopFields m.
Proof.
  unfold _executeShock.
  destruct (RHYTHM_PARAMS _) as [p|].
  - rewrite loopFields_pending_setters.
    rewrite calculateNextBeatTime_loopFields.
    rewrite loopFields_shock_setters.
    rewrite resetBreathTiming_loopFields.
    rewrite loopFields_breath_setters.
    rewrite loopFields_param_setters.
    reflexivity.
  - rewrite calculateNextBeatTime_loopFields. reflexivity.
Qed.



(** ** The shock handler *)

Lemma paramFields_pending_setters (x : Monitor) :
  paramFields (set_pendingAbpParams None (set_isAbpUpdatePending false
           (set_pendingSpo2Params None (set_isSpo2UpdatePending false x)))) = paramFields x.
Proof. reflexivity. Qed.

Lemma paramFields_shock_setters (a b : num) (x : Monitor) :
  paramFields (set_nextBeatTime a (set_lastBeatTime b (set_ecgState None x))) = paramFields x.
Proof. reflexivity. Qed.

Lemma paramFields_breath_setters (a b : num) (x : Monitor) :
  paramFields (set_nextBreathTime a (set_lastBreathTime b
     (set_pendingEtco2Params None (set_isEtco2UpdatePending false x)))) = paramFields x.
Proof. reflexivity. Qed.

Lemma paramFields_param_setters (a b c : Params) (x : Monitor) :
  paramFields (set_interp a (set_targetParams b (set_currentParams c x))) = (c, b, Some a).
Proof. reflexivity. Qed.

Lemma calculateNextBeatTime_paramFields (draw : num) (m : Monitor) :
  paramFields (_calculateNextBeatTime draw m) = paramFields m.
Proof. unfold _calculateNextBeatTime. split_tests; reflexivity. Qed.

Lemma resetBreathTiming_paramFields (i : num) (m : Monitor) :
  paramFields (_resetBreathTiming i m) = paramFields m.
Proof. reflexivity. Qed.

(** The pressures the shock handler gives a perfusing rhythm. *)
Lemma shock_abp_clamp (s0 d0 : Q) :
  exists s d,
    Num.max (Fin 0) (Num.min (Fin d0) (Fin s0 - Fin 1)) = Fin d
    /\ Num.max (Num.max (Fin 0) (Num.min (Fin d0) (Fin s0 - Fin 1)) + Fin 1) (Fin s0) = Fin s
    /\ 0 <= d /\ d + 1 <= s /\ s0 <= s.
Proof.
  change (Fin s0 - Fin 1)%num with (Fin (s0 + - 1)).
  assert (M : exists x, Num.min (Fin d0) (Fin (s0 + - 1)) = Fin x).
  { simpl. destruct (Qle_bool d0 (s0 + -1)); eauto. }
  destruct M as [x ->].
  destruct (num_eq_Fin_inv _ _ (num_max_Fin 0 x)) as (d & -> & Hd).
  change (Fin d + Fin 1)%num with (Fin (d + 1)).
  destruct (num_eq_Fin_inv _ _ (num_max_Fin (d + 1) s0)) as (s & -> & Hs).
  exists s, d. split; [reflexivity|]. split; [reflexivity|].
  split; [rewrite Hd; apply Q.le_max_l|].
  split; rewrite Hs; [apply Q.le_max_l | apply Q.le_max_r].
Qed.

(** [X11] A shock that converts to a perfusing rhythm of the catalog, whose
    pressures are finite or left to the defaults 120/80: the new rhythm and
    its initial heart rate are in force at once, while the arterial pressure
    is only re-targeted (the current pressures are left to the
    interpolation), and the new target is always well formed: diastolic at
    least 0 and systolic at least 1 above it, whatever the catalog says. *)
Theorem shock_to_perfusing_rhythm
    (RHYTHM_PARAMS : string -> option RhythmParams)
    (draw : num) (env : ShockEnv) (remoteRhythmKey : option string) (m : Monitor)
    (p : RhythmParams) (s0 d0 : Q) :
  RHYTHM_PARAMS (shockRhythmKey env remoteRhythmKey) = Some p ->
  perfusingAfterShock (shockRhythmKey env remoteRhythmKey) p = true ->
  orDefault (Fin 120) (abpSys p) = Fin s0 -> orDefault (Fin 80) (abpDia p) = Fin d0 ->
  let m' := _executeShock RHYTHM_PARAMS draw env remoteRhythmKey m in
  ecg (currentParams m')
  = mkEcgChannel (shockRhythmKey env remoteRhythmKey) (_calculateInitialHR p (baseHR p)) p
      (ecg_visible (ecg (currentParams m)))
  /\ abp (currentParams m') = abp (currentParams m)
  /\ spo2 (currentParams m') = spo2 (currentParams m)
  /\ abpWellFormed (abp (targetParams m'))
  /\ (exists ip, interpolationTargetParams m' = Some ip /\ abp ip = abp (targetParams m')).
Proof.
  intros Hp Hperf Hs Hd m'.
  assert (F : paramFields m' =
              (currentParams m', targetParams m', interpolationTargetParams m'))
    by reflexivity.
  subst m'. unfold _executeShock in F at 1. rewrite Hp in F.
  unfold perfusingAfterShock in Hperf. apply negb_true_iff in Hperf.
  rewrite paramFields_pending_setters, calculateNextBeatTime_paramFields,
    paramFields_shock_setters, resetBreathTiming_paramFields,
    paramFields_breath_setters, paramFields_param_setters in F.
  rewrite Hperf, Hs, Hd in F.
  destruct (shock_abp_clamp s0 d0) as (s & d & Ed & Es & B0 & B1 & _).
  rewrite Es, Ed in F.
  injection F as F1 F2 F3. rewrite <- F1, <- F2, <- F3.
  split; [destruct (ecg (currentParams m)); reflexivity|].
  split; [reflexivity|]. split; [reflexivity|].
  split.
  - exists s, d. repeat split; assumption.
  - eexists. split; reflexivity.
Qed.

(** A shock on the sample monitor, the rhythm selector at [normal]. *)
Lemma shock_to_normal_sinus_example :
  abpWellFormed
    (abp (targetParams (_executeShock sampleCatalog (Fin 0.5) sampleEnv None sampleMonitor))).
Proof.
  exact (proj1 (proj2 (proj2 (proj2
           (shock_to_perfusing_rhythm sampleCatalog (Fin 0.5) sampleEnv None sampleMonitor
              normalSinus 120 80 eq_refl eq_refl eq_refl eq_refl))))).
Defined.

Lemma pendingFlags_pending_setters (x : Monitor) :
  pendingFlags (set_pendingAbpParams None (set_isAbpUpdatePending false
           (set_pendingSpo2Params None (set_isSpo2UpdatePending false x))))
  = (isEtco2UpdatePending x, false, false).
Proof. reflexivity. Qed.

Lemma calculateNextBeatTime_etco2_flag (draw : num) (m : Monitor) :
  isEtco2UpdatePending (_calculateNextBeatTime draw m) = isEtco2UpdatePending m.
Proof. unfold _calculateNextBeatTime. split_tests; reflexivity. Qed.

(** The snapshots left by a shock that converts to a pulseless rhythm. *)
Lemma executeShock_pulseless_snapshot
    (RHYTHM_PARAMS : string -> option RhythmParams)
    (draw : num) (env : ShockEnv) (remoteRhythmKey : option string) (m : Monitor)
    (p : RhythmParams) :
  RHYTHM_PARAMS (shockRhythmKey env remoteRhythmKey) = Some p ->
  pulselessAfterShock (shockRhythmKey env remoteRhythmKey) p = true ->
  let m' := _executeShock RHYTHM_PARAMS draw env remoteRhythmKey m in
  ecg (currentParams m')
  = mkEcgChannel (shockRhythmKey env remoteRhythmKey) (Fin 0) p
      (ecg_visible (ecg (currentParams m)))
  /\ spo2 (currentParams m')
     = mkSpo2Channel (Fin 0) "no_signal" (spo2_visible (spo2 (currentParams m)))
  /\ abp (currentParams m')
     = mkAbpChannel (Fin 0) (Fin 0) "damped" (abp_visible (abp (currentParams m)))
  /\ etco2 (currentParams m')
     = mkEtco2Channel (Fin 0) (Fin 0) (strOr (etco2_unitPref (etco2 (targetParams m))) "kPa")
         "disconnect" (etco2_visible (etco2 (targetParams m)))
  /\ spo2 (targetParams m')
     = mkSpo2Channel (Fin 0) "no_signal" (spo2_visible (spo2 (targetParams m)))
  /\ abp (targetParams m')
     = mkAbpChannel (Fin 0) (Fin 0) "damped" (abp_visible (abp (targetParams m)))
  /\ pendingFlags m' = (false, false, false).
Proof.
  intros Hp Hpl m'.
  assert (F : paramFields m' =
              (currentParams m', targetParams m', interpolationTargetParams m'))
    by reflexivity.
  assert (G : pendingFlags m' = (false, false, false)).
  { subst m'. unfold _executeShock. rewrite Hp.
    rewrite pendingFlags_pending_setters, calculateNextBeatTime_etco2_flag.
    reflexivity. }
  subst m'. unfold _executeShock in F at 1. rewrite Hp in F.
  unfold pulselessAfterShock in Hpl. apply andb_true_iff in Hpl.
  destruct Hpl as [H1 H2]. apply negb_true_iff in H2.
  rewrite paramFields_pending_setters, calculateNextBeatTime_paramFields,
    paramFields_shock_setters, resetBreathTiming_paramFields,
    paramFields_breath_setters, paramFields_param_setters in F.
  rewrite H1, H2 in F. simpl orb in F. cbv iota in F.
  injection F as F1 F2 F3. rewrite <- F1, <- F2.
  split; [destruct (ecg (currentParams m)); reflexivity|].
  split; [destruct (spo2 (currentParams m)); reflexivity|].
  split; [destruct (abp (currentParams m)); reflexivity|].
  split; [reflexivity|]. split; [reflexivity|]. split; [reflexivity|].
  exact G.
Qed.

(** [X12] A shock that converts to a pulseless rhythm of the catalog (PEA,
    chaotic, flat or pulseless VT, not CPR) collapses the vital signs at
    once, with no interpolation: the current heart rate is 0, the current
    SpO2 is 0 with no signal, the current arterial pressure is 0/0 and
    damped, the current capnogram is disconnected at rate 0; the target has
    the same values, and nothing is left pending. *)
Theorem shock_to_pulseless_rhythm
    (RHYTHM_PARAMS : string -> option RhythmParams)
    (draw : num) (env : ShockEnv) (remoteRhythmKey : option string) (m : Monitor)
    (p : RhythmParams) :
  RHYTHM_PARAMS (shockRhythmKey env remoteRhythmKey) = Some p ->
  pulselessAfterShock (shockRhythmKey env remoteRhythmKey) p = true ->
  let m' := _executeShock RHYTHM_PARAMS draw env remoteRhythmKey m in
  ecg (currentParams m')
  = mkEcgChannel (shockRhythmKey env remoteRhythmKey) (Fin 0) p
      (ecg_visible (ecg (currentParams m)))
  /\ spo2 (currentParams m')
     = mkSpo2Channel (Fin 0) "no_signal" (spo2_visible (spo2 (currentParams m)))
  /\ abp (currentParams m')
     = mkAbpChannel (Fin 0) (Fin 0) "damped" (abp_visible (abp (currentParams m)))
  /\ etco2 (currentParams m')
     = mkEtco2Channel (Fin 0) (Fin 0) (strOr (etco2_unitPref (etco2 (targetParams m))) "kPa")
         "disconnect" (etco2_visible (etco2 (targetParams m)))
  /\ spo2 (targetParams m')
     = mkSpo2Channel (Fin 0) "no_signal" (spo2_visible (spo2 (targetParams m)))
  /\ abp (targetParams m')
     = mkAbpChannel (Fin 0) (Fin 0) "damped" (abp_visible (abp (targetParams m)))
  /\ pendingFlags m' = (false, false, false).
Proof.
  intros Hp Hpl.
  exact (executeShock_pulseless_snapshot RHYTHM_PARAMS draw env remoteRhythmKey m p Hp Hpl).
Qed.

(** A shock on the sample monitor that converts to ventricular
    fibrillation. *)
Lemma shock_to_vfib_example :
  spo2 (currentParams
          (_executeShock sampleCatalog2 (Fin 0.5)
             (mkShockEnv "standalone" (Some "vfib"%string)) None sampleMonitor))
  = mkSpo2Channel (Fin 0) "no_signal" (spo2_visible (spo2 (currentParams sampleMonitor))).
Proof.
  exact (proj1 (proj2
           (shock_to_pulseless_rhythm sampleCatalog2 (Fin 0.5)
              (mkShockEnv "standalone" (Some "vfib"%string)) None sampleMonitor
              vfib eq_refl eq_refl))).
Defined.

(** ** Requests for the ETCO2 channel *)

(** The ETCO2 block of [initiateParameterChange]: the drawn values stay,
    and a difference from the target is recorded as pending. *)
Lemma ipcEtco2_defers (old : num) (m : Monitor) :
  etco2Core (etco2 (currentParams (ipcEtco2 old m))) = etco2Core (etco2 (currentParams m))
  /\ (etco2CoreEqb (etco2 (targetParams m)) (etco2 (currentParams m)) = false ->
      isEtco2UpdatePending (ipcEtco2 old m) = true
      /\ pendingEtco2Params (ipcEtco2 old m) = Some (etco2 (targetParams m))).
Proof.
  unfold ipcEtco2, set_interp, interp. cbv zeta.
  split.
  - repeat match goal with
    | |- context [if ?c then _ else _] => destruct c
    end; reflexivity.
  - intro H. rewrite H. simpl negb. simpl orb. cbv iota.
    repeat match goal with
    | |- context [if ?c then _ else _] => destruct c
    end; split; reflexivity.
Qed.

Lemma ipcPrefix_defers_etco2 (m : Monitor) :
  etco2Core (etco2 (currentParams (ipcPrefix m))) = etco2Core (etco2 (currentParams m))
  /\ (etco2CoreEqb (etco2 (targetParams m)) (etco2 (currentParams m)) = false ->
      isEtco2UpdatePending (ipcPrefix m) = true
      /\ pendingEtco2Params (ipcPrefix m) = Some (etco2 (targetParams m))).
Proof.
  unfold ipcPrefix. cbv zeta.
  set (m1 := set_currentParams _ (set_interp (targetParams m) m)).
  destruct (ipcEtco2_shape_frame (rr (etco2 (currentParams m))) m1)
    as (Ft & Fs & Fa & _).
  destruct (ipcEtco2_defers (rr (etco2 (currentParams m))) m1) as (D1 & D2).
  remember (ipcEtco2 (rr (etco2 (currentParams m))) m1) as m2 eqn:E2. clear E2.
  rewrite ipcSpo2_noop by (rewrite Fs, Ft; reflexivity).
  rewrite ipcAbp_noop by (rewrite Fa, Ft; reflexivity).
  split.
  - rewrite D1. reflexivity.
  - intro H. apply D2. exact H.
Qed.

Lemma ipcEcg_same_rhythm
    (RHYTHM_PARAMS : string -> option RhythmParams) (old : string) (oldHR : num)
    (m : Monitor) :
  rhythm (ecg (targetParams m)) = old ->
  breathFields (fst (ipcEcg RHYTHM_PARAMS old oldHR m)) = breathFields m.
Proof.
  intro H. unfold ipcEcg. rewrite H, String.eqb_refl, andb_false_r.
  repeat match goal with
  | |- context [if ?c then _ else _] => destruct c
  end; reflexivity.
Qed.

Lemma ipcTimingReset_breathFields (draw : num) (m : Monitor) :
  breathFields (ipcTimingReset draw m) = breathFields m.
Proof.
  unfold ipcTimingReset. cbv zeta.
  match goal with
  | |- context [if ?c then _ else _] => destruct c
  end.
  - change (breathFields (_resetCompressionTiming ?x)) with (breathFields x).
    change (breathFields (set_nextCompressionTime ?a (set_lastCompressionTime ?b ?x)))
      with (breathFields x).
    rewrite calculateNextBeatTime_breathFields. reflexivity.
  - change (breathFields (set_nextCompressionTime ?a (set_lastCompressionTime ?b ?x)))
      with (breathFields x).
    rewrite calculateNextBeatTime_breathFields. reflexivity.
Qed.

(** [X13] A requested change of the ETCO2 value, respiratory rate or
    capnogram shape, on a rhythm that stays the same, is never applied by
    [initiateParameterChange] itself: the values the capnogram is drawn from
    are left as they are and the request is recorded as pending (to be
    applied by the timer check at the next breath boundary). *)
Theorem etco2_change_is_deferred
    (RHYTHM_PARAMS : string -> option RhythmParams) (draw : num) (m : Monitor) :
  rhythm (ecg (targetParams m)) = rhythm (ecg (currentParams m)) ->
  etco2CoreEqb (etco2 (targetParams m)) (etco2 (currentParams m)) = false ->
  etco2Core (etco2 (currentParams (initiateParameterChange RHYTHM_PARAMS draw m)))
  = etco2Core (etco2 (currentParams m))
  /\ isEtco2UpdatePending (initiateParameterChange RHYTHM_PARAMS draw m) = true
  /\ pendingEtco2Params (initiateParameterChange RHYTHM_PARAMS draw m)
     = Some (etco2 (targetParams m)).
Proof.
  intros Hr Hd. unfold initiateParameterChange.
  destruct (ipcPrefix_frame m) as (_ & Ft & _).
  destruct (ipcPrefix_defers_etco2 m) as (D1 & D2).
  destruct (D2 Hd) as (P1 & P2). clear D2.
  remember (ipcPrefix m) as pre eqn:Epre. clear Epre.
  pose proof (ipcEcg_same_rhythm RHYTHM_PARAMS (rhythm (ecg (currentParams m)))
                (hr (ecg (currentParams m))) pre) as B.
  rewrite Ft in B. specialize (B Hr).
  destruct (ipcEcg _ _ _ pre) as [m2 reset]. simpl fst in B.
  assert (B' : breathFields (if reset then ipcTimingReset draw m2 else m2)
               = breathFields pre).
  { destruct reset; [rewrite ipcTimingReset_breathFields|]; exact B. }
  unfold breathFields in B'. injection B' as B1 B2 B3 _ _ _.
  rewrite B1, B2, B3, D1, P1, P2. repeat split.
Qed.

(** A new ETCO2 value and rate requested on the sample monitor. *)
Lemma etco2_change_example :
  etco2Core (etco2 (currentParams (initiateParameterChange sampleCatalog (Fin 0.5)
                                     sampleEtco2Change)))
  = etco2Core (etco2 (currentParams sampleEtco2Change))
  /\ isEtco2UpdatePending (initiateParameterChange sampleCatalog (Fin 0.5) sampleEtco2Change)
     = true
  /\ pendingEtco2Params (initiateParameterChange sampleCatalog (Fin 0.5) sampleEtco2Change)
     = Some (etco2 (targetParams sampleEtco2Change)).
Proof.
  exact (etco2_change_is_deferred sampleCatalog (Fin 0.5) sampleEtco2Change
           eq_refl eq_refl).
Defined.

(** * Further properties of the AV-block generator *)

(** What every event of a run satisfies, given what every single atrial
    event satisfies. *)
Lemma avBlockEvents_Forall
    (Math_sin Math_exp : num -> num) (Math_pow : num -> num -> num)
    (params : RhythmParams) (P : AtrialEvent -> Prop) :
  (forall t d s e, snd (atrialSchedule t params d s) = Some e -> P e) ->
  forall calls st,
    Forall P (avBlockEvents Math_sin Math_exp Math_pow params st calls).
Proof.
  intros HP calls. induction calls as [|[t d] rest IH]; intro st.
  - constructor.
  - simpl avBlockEvents. unfold generateAVBlock_event.
    set (s0 := match option_map jsonAVBlockState st with
               | Some s => s
               | None => initialAVBlockState t params d
               end).
    pose proof (HP t d s0) as H0.
    destruct (atrialSchedule t params d s0) as [s1 ev].
    destruct (ventricularSchedule t params d s1) as [[[s2 g] esc] pr].
    simpl in H0.
    destruct ev as [e|].
    + constructor; [apply H0; reflexivity | apply IH].
    + apply IH.
Qed.

(** [X14] Complete (third-degree) block: over any run of calls, from any
    state, no atrial event ever conducts; and every QRS complex the
    ventricular schedule produces is an escape beat, produced exactly when
    the time has reached the scheduled escape time, and stamped with that
    scheduled time. *)
Theorem complete_block_never_conducts
    (Math_sin Math_exp : num -> num) (Math_pow : num -> num -> num)
    (params : RhythmParams) :
  blockType params = Some "avb3"%string ->
  (forall st calls,
     Forall (fun e => conducted e = false)
       (avBlockEvents Math_sin Math_exp Math_pow params st calls))
  /\ (forall t d s,
        match ventricularSchedule t params d s with
        | (s', generateQRSNow, qrsIsEscape, prForThisQRS) =>
            generateQRSNow = (t >=? nextQRSTime s)%num
            /\ (generateQRSNow = true ->
                qrsIsEscape = true /\ prForThisQRS = Fin 0
                /\ lastQRSTime s' = nextQRSTime s)
        end).
Proof.
  intro Hb. split.
  - intros st calls. apply avBlockEvents_Forall.
    intros t d s e. unfold atrialSchedule. rewrite Hb. simpl strIs. cbv iota.
    destruct (_ && _); simpl; [|discriminate].
    intro E. injection E as <-. reflexivity.
  - intros t d s. unfold ventricularSchedule. rewrite Hb. simpl strIs. simpl orb.
    simpl andb. cbv iota.
    destruct (t >=? nextQRSTime s)%num; simpl; split; try reflexivity;
      try discriminate.
    intros _. repeat split.
Qed.

(** Complete block on the sample call times: the first four seconds. *)
Lemma complete_block_example :
  Forall (fun e => conducted e = false)
    (avBlockEvents (fun _ => Fin 0) (fun _ => Fin 0) (fun _ _ => Fin 0)
       sampleAvb3 None (sampleCalls 400 0)).
Proof.
  exact (proj1 (complete_block_never_conducts
                  (fun _ => Fin 0) (fun _ => Fin 0) (fun _ _ => Fin 0) sampleAvb3 eq_refl)
           None (sampleCalls 400 0)).
Defined.

(** [X15] Mobitz II: over any run of calls, from any state, every conducted
    beat uses the same fixed PR interval ([prIntervalFixed], 0.18 s by
    default), there is no progressive prolongation, and whether a P wave
    conducts is decided by one draw of [Math.random()] against
    [conductionProbability] (0.5 by default). *)
Theorem mobitz2_fixed_pr
    (Math_sin Math_exp : num -> num) (Math_pow : num -> num -> num)
    (params : RhythmParams) :
  blockType params = Some "mobitz2"%string ->
  (forall st calls,
     Forall (fun e => conducted e = true ->
                      prUsed e = orDefault (Fin 0.18) (prIntervalFixed params))
       (avBlockEvents Math_sin Math_exp Math_pow params st calls))
  /\ (forall t d s e,
        snd (atrialSchedule t params d s) = Some e ->
        conducted e
        = (d_conduct d <? orDefault (Fin 0.5) (conductionProbability params))%num).
Proof.
  intro Hb.
  assert (H : forall t d s e,
             snd (atrialSchedule t params d s) = Some e ->
             conducted e
             = (d_conduct d <? orDefault (Fin 0.5) (conductionProbability params))%num
             /\ (conducted e = true ->
                 prUsed e = orDefault (Fin 0.18) (prIntervalFixed params))).
  { intros t d s e. unfold atrialSchedule. rewrite Hb. simpl strIs. cbv iota.
    destruct (_ && _); simpl; [|discriminate].
    destruct (d_conduct d <? _)%num; simpl; intro E; injection E as <-; simpl;
      split; try reflexivity; discriminate. }
  split.
  - intros st calls. apply avBlockEvents_Forall.
    intros t d s e He. apply (H t d s e He).
  - intros t d s e He. apply (H t d s e He).
Qed.

(** Mobitz II with a fixed PR interval of 0.2 s, the first four seconds. *)
Lemma mobitz2_example :
  Forall (fun e => conducted e = true ->
                   prUsed e = orDefault (Fin 0.18) (prIntervalFixed sampleMobitz2))
    (avBlockEvents (fun _ => Fin 0) (fun _ => Fin 0) (fun _ _ => Fin 0)
       sampleMobitz2 None (sampleCalls 400 0)).
Proof.
  exact (proj1 (mobitz2_fixed_pr
                  (fun _ => Fin 0) (fun _ => Fin 0) (fun _ _ => Fin 0) sampleMobitz2 eq_refl)
           None (sampleCalls 400 0)).
Defined.

Lemma ventricularSchedule_p_times (t : num) (params : RhythmParams) (d : Draws)
    (s : AVBlockState) :
  lastPTime (fst (fst (fst (ventricularSchedule t params d s)))) = lastPTime s
  /\ nextPTime (fst (fst (fst (ventricularSchedule t params d s)))) = nextPTime s.
Proof.
  unfold ventricularSchedule.
  repeat match goal with
  | |- context [if ?c then _ else _] => destruct c
  end; split; reflexivity.
Qed.

(** The atrial half of a call, the P wave due or not. *)
Lemma atrialSchedule_p_times
    (params : RhythmParams) (d : Draws) (s : AVBlockState) (t np r : Q) :
  nextPTime s = Fin np -> orDefault (Fin 70) (atrialRate params) = Fin r -> 0 < r ->
  (np <= t -> snd (atrialSchedule (Fin t) params d s) <> None
              /\ lastPTime (fst (atrialSchedule (Fin t) params d s)) = Fin np
              /\ nextPTime (fst (atrialSchedule (Fin t) params d s)) = Fin (np + 60.0 / r))
  /\ (t < np -> atrialSchedule (Fin t) params d s = (s, None)).
Proof.
  intros Hn Hr Hpos. unfold atrialSchedule. rewrite Hr, Hn.
  assert (I : intervalOfRate (Fin r) = Fin (60.0 / r)).
  { unfold intervalOfRate.
    assert (H1 : (Fin r >? Fin 0)%num = true) by (simpl; qbool; assumption).
    assert (H2 : Qeq_bool r 0 = false) by (qbool; lra).
    rewrite H1. simpl. rewrite H2. reflexivity. }
  rewrite I. change (Fin (60.0 / r) <? PInf)%num with true. rewrite andb_true_r.
  destruct (Fin t >=? Fin np)%num eqn:E; simpl in E; qbool.
  - split; [|intro; lra]. intros _.
    repeat match goal with
    | |- context [if ?c then _ else _] => destruct c
    end; simpl; repeat split;
      first [discriminate | reflexivity | rewrite Hn; reflexivity | exact Hn].
  - split; [intro; lra|]. intros _. reflexivity.
Qed.

(** [X16] The atrial schedule is drift-free and independent of conduction:
    for every block type, a call at or after the time the next P wave is
    due emits an atrial event, stamps the P wave with the time it was due
    (not the time of the call) and schedules the next one exactly
    [60 / atrialRate] seconds after that (70/min by default); a call before
    that time emits no event and leaves the schedule as it is. *)
Theorem p_waves_evenly_spaced
    (Math_sin Math_exp : num -> num) (Math_pow : num -> num -> num)
    (params : RhythmParams) (d : Draws) (s : AVBlockState) (t np r : Q) :
  nextPTime s = Fin np -> orDefault (Fin 70) (atrialRate params) = Fin r -> 0 < r ->
  match generateAVBlock_event Math_sin Math_exp Math_pow (Fin t) params d (Some s) with
  | (_, s', ev) =>
      (np <= t -> ev <> None /\ lastPTime s' = Fin np
                  /\ nextPTime s' =n= Fin (np + 60 / r))
      /\ (t < np -> ev = None /\ lastPTime s' = lastPTime s /\ nextPTime s' = Fin np)
  end.
Proof.
  intros Hn Hr Hpos. unfold generateAVBlock_event.
  destruct (atrialSchedule_p_times params d s t np r Hn Hr Hpos) as [A1 A2].
  destruct (atrialSchedule (Fin t) params d s) as [s1 ev].
  destruct (ventricularSchedule_p_times (Fin t) params d s1) as [V1 V2].
  destruct (ventricularSchedule (Fin t) params d s1) as [[[s2 g] esc] pr].
  simpl in V1, V2, A1, A2.
  assert (F : lastPTime (if g then set_lastConductedPR (Some (if esc then Fin 0 else pr))
                                    (set_lastQRSwasEscape esc s2) else s2) = lastPTime s1
              /\ nextPTime (if g then set_lastConductedPR (Some (if esc then Fin 0 else pr))
                                    (set_lastQRSwasEscape esc s2) else s2) = nextPTime s1).
  { destruct g; simpl; split; assumption. }
  destruct F as [-> ->].
  split.
  - intro H. destruct (A1 H) as (E1 & E2 & E3).
    split; [assumption|]. split; [assumption|].
    rewrite E3. simpl. rewrite sixty_over. reflexivity.
  - intro H. specialize (A2 H). injection A2 as -> ->. repeat split. assumption.
Qed.

(** A call 5 ms after a P wave was due at 1 s, atrial rate 70/min. *)
Lemma p_wave_example :
  match generateAVBlock_event (fun _ => Fin 0) (fun _ => Fin 0) (fun _ _ => Fin 0)
          (Fin 1.005) sampleMobitz1 sampleDraws (Some (avStateDueAt (Fin 1))) with
  | (_, s', ev) =>
      (1 <= 1.005 -> ev <> None /\ lastPTime s' = Fin 1
                     /\ nextPTime s' =n= Fin (1 + 60 / 70))
      /\ (1.005 < 1 -> ev = None /\ lastPTime s' = lastPTime (avStateDueAt (Fin 1))
                       /\ nextPTime s' = Fin 1)
  end.
Proof.
  exact (p_waves_evenly_spaced (fun _ => Fin 0) (fun _ => Fin 0) (fun _ _ => Fin 0)
           sampleMobitz1 sampleDraws (avStateDueAt (Fin 1)) 1.005 1 70
           eq_refl eq_refl eq_refl).
Defined.

(** * Further properties of the shape functions *)

Lemma max0_ensureFinite (v : num) (d : Q) :
  0 <= d -> exists x, ensureFinite (Num.max (Fin 0) v) (Fin d) = Fin x /\ 0 <= x.
Proof.
  intro Hd. unfold ensureFinite. destruct v as [q| | |]; simpl.
  - destruct (Qle_bool 0 q) eqn:E; simpl; eexists; split; try reflexivity; qbool; lra.
  - exists d. split; [reflexivity | assumption].
  - exists 0. split; [reflexivity | lra].
  - exists d. split; [reflexivity | assumption].
Qed.

Lemma pleth_finite_nonneg
    (Math_sin Math_exp : num -> num) (Math_pow : num -> num -> num)
    (performance_now t beatDuration spo2Value : num) (shapeType : string) :
  exists x,
    generatePlethPulseShape Math_sin Math_exp Math_pow performance_now
      t beatDuration spo2Value shapeType = Fin x /\ 0 <= x.
Proof.
  unfold generatePlethPulseShape.
  destruct (String.eqb shapeType "no_signal").
  - exists 0.1. split; [reflexivity | lra].
  - destruct (ensureFinite spo2Value (Fin 0) <? Fin 1)%num.
    + exists 0.1. split; [reflexivity | lra].
    + apply max0_ensureFinite. lra.
Qed.

Lemma capnogram_finite_nonneg
    (Math_exp : num -> num)
    (performance_now t breathDuration etco2Value : num) (shapeType : string) :
  exists x,
    generateEtco2WaveformShape Math_exp performance_now t breathDuration etco2Value
      shapeType = Fin x /\ 0 <= x.
Proof.
  unfold generateEtco2WaveformShape.
  destruct (etco2_flat _ _ _).
  - exists 0. split; [reflexivity | lra].
  - apply max0_ensureFinite. lra.
Qed.

(** [X17] The pleth sample is always a finite, non-negative number,
    whatever the arguments, the clock and [Math.sin], [Math.exp] and
    [Math.pow] return; with the shape [no_signal], or an SpO2 value below 1
    or not a finite number, it is the flat base level 0.1. *)
Theorem pleth_sample_finite_nonnegative
    (Math_sin Math_exp : num -> num) (Math_pow : num -> num -> num)
    (performance_now t beatDuration spo2Value : num) (shapeType : string) :
  (exists x,
     generatePlethPulseShape Math_sin Math_exp Math_pow performance_now
       t beatDuration spo2Value shapeType = Fin x /\ 0 <= x)
  /\ (shapeType = "no_signal"%string \/ (ensureFinite spo2Value (Fin 0) <? Fin 1)%num = true ->
      generatePlethPulseShape Math_sin Math_exp Math_pow performance_now
        t beatDuration spo2Value shapeType = Fin 0.1).
Proof.
  split.
  - apply pleth_finite_nonneg.
  - unfold generatePlethPulseShape. intros [-> | H].
    + reflexivity.
    + rewrite H. destruct (String.eqb shapeType "no_signal"); reflexivity.
Qed.

(** The inspiration phase ends at 0.4 of the active window for every
    capnogram shape. *)
Lemma inspirationEndFactor_all (shapeType : string) :
  inspirationEndFactor (etco2Factors shapeType) = Fin 0.40.
Proof. unfold etco2Factors. split_tests; reflexivity. Qed.

(** [X18] The capnogram sample is always a finite, non-negative number,
    whatever the arguments, the clock and [Math.exp] return; it is 0 for a
    breath duration that is not a positive finite number, for an ETCO2 value
    below 0.01 or not finite, and for the shape [disconnect]; and it is 0
    throughout inspiration, the first 40 % of the active window
    [min(breathDuration, 3 s)] of a breath. *)
Theorem capnogram_sample_finite_nonnegative
    (Math_exp : num -> num)
    (performance_now t breathDuration etco2Value : num) (shapeType : string) :
  (exists x,
     generateEtco2WaveformShape Math_exp performance_now t breathDuration etco2Value
       shapeType = Fin x /\ 0 <= x)
  /\ (etco2_flat breathDuration etco2Value shapeType = true ->
      generateEtco2WaveformShape Math_exp performance_now t breathDuration etco2Value
        shapeType = Fin 0)
  /\ (forall tq b : Q,
        t = Fin tq -> breathDuration = Fin b ->
        0 <= tq -> tq < b -> tq < Qmin b 3 * 0.4 ->
        generateEtco2WaveformShape Math_exp performance_now t breathDuration etco2Value
          shapeType = Fin 0).
Proof.
  split; [apply capnogram_finite_nonneg|].
  unfold generateEtco2WaveformShape. split.
  - intros ->. reflexivity.
  - intros tq b -> -> H0 Hb Hi.
    destruct (etco2_flat _ _ _); [reflexivity|].
    destruct (etco2_t_rel_within_breath performance_now tq b H0 Hb) as (r & -> & Er).
    rewrite inspirationEndFactor_all.
    change ETCO2_MAX_ACTIVE_SHAPE_DURATION with (Fin (60.0 / 20)).
    assert (M : exists w, Num.min (Fin b) (Fin (60.0 / 20)) = Fin w /\ w == Qmin b 3).
    { destruct (Qle_bool b (60.0 / 20)) eqn:E.
      - exists b. split; [simpl; rewrite E; reflexivity|].
        qbool. symmetry. apply Q.min_l.
        assert (E' : 60.0 / 20 == 3) by reflexivity. lra.
      - exists (60.0 / 20). split; [simpl; rewrite E; reflexivity|].
        qbool. assert (E' : 60.0 / 20 == 3) by reflexivity.
        rewrite E'. symmetry. apply Q.min_r. lra. }
    destruct M as (w & -> & Ew).
    assert (T1 : (Fin r <? Fin w)%num = true).
    { simpl. qbool. rewrite Er, Ew.
      destruct (Q.min_spec b 3) as [[_ M] | [_ M]]; rewrite M in *; lra. }
    assert (T2 : (Fin r <? Fin w * Fin 0.40)%num = true).
    { simpl. qbool. rewrite Er, Ew.
      assert (E' : 0.40 == 0.4) by reflexivity. rewrite E'. exact Hi. }
    rewrite T1, T2. reflexivity.
Qed.

(** The safe standard deviation of [gaussian] is a positive finite number
    for every finite argument. *)
Lemma gaussian_safeStdDev (sd : Q) :
  exists s, Num.max (Num.abs (Fin sd)) (Fin 1e-9) = Fin s /\ 0 < s.
Proof.
  simpl Num.abs.
  destruct (num_eq_Fin_inv _ _ (num_max_Fin (Qabs sd) 1e-9)) as (s & -> & Hs).
  exists s. split; [reflexivity|].
  rewrite Hs. eapply Qlt_le_trans; [|apply Q.le_max_r]. reflexivity.
Qed.

(** [X19] The bell curve [gaussian]: an amplitude that is zero or not a
    finite number gives 0; a zero standard deviation is replaced by 1e-9, so
    nothing is divided by zero; and as long as [Math.pow(x, 2)] of a finite
    number is non-negative and [Math.exp] of a non-positive number lies in
    [0, 1], the
    result is a finite number whose magnitude never exceeds the magnitude of
    the amplitude. *)
Theorem gaussian_bounded_by_amplitude
    (Math_exp : num -> num) (Math_pow : num -> num -> num)
    (t mean : num) (sd a : Q) :
  (forall q, exists p, Math_pow (Fin q) (Fin 2) = Fin p /\ 0 <= p) ->
  (forall q, q <= 0 -> exists e, Math_exp (Fin q) = Fin e /\ 0 <= e /\ e <= 1) ->
  (exists g, gaussian Math_exp Math_pow t mean (Fin sd) (Fin a) = Fin g
             /\ Qabs g <= Qabs a)
  /\ gaussian Math_exp Math_pow t mean (Fin sd) (Fin 0) = Fin 0
  /\ gaussian Math_exp Math_pow t mean (Fin sd) NaN = Fin 0
  /\ gaussian Math_exp Math_pow t mean (Fin sd) PInf = Fin 0.
Proof.
  intros Hpow Hexp. split; [|repeat split].
  unfold gaussian. rewrite ensureFinite_Fin.
  destruct (Fin a =? Fin 0)%num.
  { exists 0. split; [reflexivity|]. apply Qabs_nonneg. }
  destruct (gaussian_safeStdDev sd) as (s & -> & Hs).
  destruct (ensureFinite_finite t 0) as [tq ->].
  destruct (ensureFinite_finite mean 0) as [mq ->].
  change (Fin tq - Fin mq)%num with (Fin (tq + - mq)).
  destruct (Hpow (tq + - mq)) as (p & -> & Hp).
  assert (Hden : 0 < 2 * s * s) by nra.
  assert (E : (Num.opp (Fin p) / (Fin 2 * Fin s * Fin s))%num = Fin (- p / (2 * s * s))).
  { simpl. assert (Z : Qeq_bool (2 * s * s) 0 = false) by (qbool; lra).
    rewrite Z. reflexivity. }
  rewrite E.
  destruct (Fin (- p / (2 * s * s)) <? Fin (-700))%num.
  { exists 0. split; [reflexivity|]. apply Qabs_nonneg. }
  assert (Hneg : - p / (2 * s * s) <= 0).
  { apply Qle_shift_div_r; [assumption | lra]. }
  destruct (Hexp _ Hneg) as (e & -> & He0 & He1).
  exists (a * e). split; [reflexivity|].
  rewrite Qabs_Qmult, (Qabs_pos e) by assumption.
  pose proof (Qabs_nonneg a). nra.
Qed.

(** With a flat [Math.exp] and [Math.pow], amplitude 1.5. *)
Lemma gaussian_example :
  exists g, gaussian (fun _ => Fin 1) (fun _ _ => Fin 0) (Fin 0.3) (Fin 0.2) (Fin 0) (Fin 1.5)
            = Fin g /\ Qabs g <= Qabs 1.5.
Proof.
  refine (proj1 (gaussian_bounded_by_amplitude (fun _ => Fin 1) (fun _ _ => Fin 0)
                   (Fin 0.3) (Fin 0.2) 0 1.5 _ _)).
  - intro q. exists 0. split; [reflexivity | lra].
  - intros q _. exists 1. repeat split; lra.
Defined.

(** * The samples of the pleth, ABP and ETCO2 channels *)

(** The remainder of a non-negative time by a positive period is a
    non-negative number. *)
Lemma rem_nonneg (t b : Q) :
  0 <= t -> 0 < b -> exists r, (Fin t mod Fin b)%num = Fin r /\ 0 <= r.
Proof.
  intros Ht Hb. simpl.
  assert (Hb0 : ~ b == 0) by lra.
  apply Qeq_bool_false_iff in Hb0. rewrite Hb0.
  eexists. split; [reflexivity|].
  assert (Hq : 0 <= t / b) by (apply Qle_shift_div_l; lra).
  rewrite Qtrunc_nonneg by assumption.
  pose proof (Qfloor_le (t / b)) as F.
  assert (M : b * inject_Z (Qfloor (t / b)) <= b * (t / b)).
  { apply Qmult_le_l; assumption. }
  assert (E : b * (t / b) == t) by (field; lra).
  lra.
Qed.

(** The time and the duration handed to the pleth and ABP shape functions:
    the duration is always a positive finite number, and with valid clocks
    the time is a non-negative finite number. *)
Lemma pulseTiming_valid (m : Monitor) :
  validDuration (snd (pulseTiming m)) = true
  /\ (clocksValid m = true -> validTime (fst (pulseTiming m)) = true).
Proof.
  split.
  - unfold pulseTiming.
    destruct (rawPulseTiming m) as [ts pd].
    destruct ((ts <? Fin 0)%num || (pd <=? Fin 0)%num || negb (Num.isFinite pd)) eqn:T;
      [reflexivity|].
    apply orb_false_iff in T. destruct T as [T T3].
    apply orb_false_iff in T. destruct T as [T1 T2].
    apply negb_false_iff in T3.
    simpl snd. unfold validDuration. rewrite T3, andb_true_r.
    destruct pd as [q| | |]; try discriminate.
    simpl in *. qbool. assumption.
  - unfold clocksValid. intro H.
    apply andb_true_iff in H. destruct H as [H _].
    apply andb_true_iff in H. destruct H as [H H1].
    apply andb_true_iff in H. destruct H as [H _].
    unfold validTime in H.
    destruct (rhythmTime m) as [t| | |] eqn:Et; try discriminate.
    simpl in H. qbool.
    assert (F : validTime (Fin t mod DEFAULT_FALLBACK_BEAT_INTERVAL)%num = true).
    { destruct (rem_nonneg t 2.0 H) as (r & Er & Hr); [reflexivity|].
      unfold DEFAULT_FALLBACK_BEAT_INTERVAL. rewrite Er.
      unfold validTime. simpl. qbool. assumption. }
    unfold pulseTiming, rawPulseTiming. rewrite Et.
    destruct (lastBeatTime m) as [b| | |]; try discriminate.
    + change (Num.isFinite (Fin b) && (Fin b >? NInf)%num) with true. cbv iota.
      change (Fin t - Fin b)%num with (Fin (t + - b)).
      match goal with
      | |- context [(Fin (t + - b), ?pd)] => generalize pd
      end.
      intro pd. cbv beta iota.
      destruct ((Fin (t + - b) <? Fin 0)%num || (pd <=? Fin 0)%num
                || negb (Num.isFinite pd)) eqn:T; [exact F|].
      apply orb_false_iff in T. destruct T as [T _].
      apply orb_false_iff in T. destruct T as [T1 _].
      simpl fst. unfold validTime. simpl in *. qbool. assumption.
    + change (Num.isFinite NInf && (NInf >? NInf)%num) with false. cbv iota.
      change ((NInf =? Fin 0)%num && (Fin t >=? Fin 0)%num) with false. cbv iota.
      exact F.
Qed.

Lemma effectiveTimeOf_valid (now1 now2 t : num) :
  validTime t = true -> effectiveTimeOf now1 t = effectiveTimeOf now2 t.
Proof. intro H. unfold effectiveTimeOf. rewrite H. reflexivity. Qed.

Lemma abp_shape_finite_nonneg
    (Math_sin Math_exp : num -> num) (Math_pow : num -> num -> num)
    (performance_now t beatDuration s d : num) (shapeType : string) :
  exists x,
    generateAbpWaveformShape Math_sin Math_exp Math_pow performance_now
      t beatDuration s d shapeType = Fin x /\ 0 <= x.
Proof.
  unfold generateAbpWaveformShape.
  destruct (abp_flatZero s d).
  { exists 0. split; [reflexivity | lra]. }
  unfold abp_safeSys, abp_safeDia.
  destruct (abp_dia_finite d) as [dq ->]. destruct (abp_sys_finite s) as [sq ->].
  destruct (num_eq_Fin_inv _ _ (num_max_Fin 0 dq)) as (sd & Esd & Hsd).
  assert (Hsd0 : 0 <= sd) by (rewrite Hsd; apply Q.le_max_l).
  destruct (abp_noPulsePressure s d).
  { rewrite Esd. exists sd. split; [reflexivity | assumption]. }
  rewrite Esd. change (Fin sd + Fin 1)%num with (Fin (sd + 1)).
  destruct (num_eq_Fin_inv _ _ (num_max_Fin (sd + 1) sq)) as (ss & -> & Hss).
  change (Fin ss + Fin 15)%num with (Fin (ss + 15)).
  assert (Hss1 : sd + 1 <= ss) by (rewrite Hss; apply Q.le_max_l).
  destruct (clamp_ensureFinite_bounds (ss + 15) sd
              (abp_rawValue Math_sin Math_exp Math_pow performance_now
                 t beatDuration s d shapeType)) as (out & -> & Ho & _);
    [assumption | lra |].
  exists out. split; [reflexivity | assumption].
Qed.

(** [X20] Every sample the engine computes for the pleth, ABP and ETCO2
    traces is a finite, non-negative number, in every state of the engine
    and whatever [Math.sin], [Math.exp], [Math.pow] and the clock return. *)
Theorem engine_samples_finite_nonnegative
    (Math_sin Math_exp : num -> num) (Math_pow : num -> num -> num)
    (performance_now : num) (m : Monitor) :
  (exists a, _generateSpo2WaveformInternal Math_sin Math_exp Math_pow performance_now m
             = Fin a /\ 0 <= a)
  /\ (exists b, _generateAbpWaveformInternal Math_sin Math_exp Math_pow performance_now m
                = Fin b /\ 0 <= b)
  /\ (exists c, _generateEtco2WaveformInternal Math_exp performance_now m
                = Fin c /\ 0 <= c).
Proof.
  split; [|split].
  - unfold _generateSpo2WaveformInternal. destruct (pulseTiming m).
    apply pleth_finite_nonneg.
  - unfold _generateAbpWaveformInternal. destruct (pulseTiming m).
    destruct (abpShapeArguments m) as [[s d] sh].
    apply abp_shape_finite_nonneg.
  - unfold _generateEtco2WaveformInternal.
    repeat match goal with
    | |- context [if ?c then _ else _] => destruct c
    end;
    first [apply capnogram_finite_nonneg | exists 0; split; [reflexivity | lra]].
Qed.

(** [X21] With valid clocks (finite, non-negative simulated times, the last
    beat and the last breath finite or not yet recorded) the engine always
    hands the shape functions a valid elapsed time, so the samples of the
    three traces never depend on the wall clock: the fall-back to
    [performance.now()] inside the shape functions is not reachable from the
    engine. *)
Theorem engine_samples_ignore_wall_clock
    (Math_sin Math_exp : num -> num) (Math_pow : num -> num -> num)
    (now1 now2 : num) (m : Monitor) :
  clocksValid m = true ->
  _generateSpo2WaveformInternal Math_sin Math_exp Math_pow now1 m
  = _generateSpo2WaveformInternal Math_sin Math_exp Math_pow now2 m
  /\ _generateAbpWaveformInternal Math_sin Math_exp Math_pow now1 m
     = _generateAbpWaveformInternal Math_sin Math_exp Math_pow now2 m
  /\ _generateEtco2WaveformInternal Math_exp now1 m
     = _generateEtco2WaveformInternal Math_exp now2 m.
Proof.
  intro Hc.
  destruct (pulseTiming_valid m) as [_ Hv]. specialize (Hv Hc).
  split; [|split].
  - unfold _generateSpo2WaveformInternal.
    destruct (pulseTiming m) as [ts pd]. simpl in Hv.
    unfold generatePlethPulseShape.
    rewrite (effectiveTimeOf_valid now1 now2 ts Hv). reflexivity.
  - unfold _generateAbpWaveformInternal.
    destruct (pulseTiming m) as [ts pd]. simpl in Hv.
    destruct (abpShapeArguments m) as [[s d] sh].
    unfold generateAbpWaveformShape, abp_rawValue.
    rewrite (effectiveTimeOf_valid now1 now2 ts Hv). reflexivity.
  - unfold clocksValid in Hc.
    apply andb_true_iff in Hc. destruct Hc as [Hc Hlb].
    apply andb_true_iff in Hc. destruct Hc as [Hc _].
    apply andb_true_iff in Hc. destruct Hc as [_ Hr].
    unfold validTime in Hr.
    destruct (respiratoryTime m) as [u| | |] eqn:Eu; try discriminate.
    unfold _generateEtco2WaveformInternal. rewrite Eu.
    destruct (ensureFinite_finite (rr (etco2 (currentParams m))) 0) as [r ->].
    destruct (Fin r >? Fin 0)%num eqn:Er; [|reflexivity].
    simpl in Er. qbool.
    assert (Ez : Qeq_bool r 0 = false) by (qbool; lra).
    assert (Ed : (Fin 60.0 / Fin r)%num = Fin (60.0 / r)) by (simpl; rewrite Ez; reflexivity).
    rewrite Ed. change (Fin (60.0 / r) <? PInf)%num with true. simpl andb.
    assert (V : forall x, validTime (Num.max (Fin 0) (Fin x)) = true).
    { intro x. simpl. destruct (Qle_bool 0 x) eqn:E; unfold validTime; simpl; qbool; lra. }
    assert (P : forall x dur v sh,
               generateEtco2WaveformShape Math_exp now1 (Num.max (Fin 0) (Fin x)) dur v sh
               = generateEtco2WaveformShape Math_exp now2 (Num.max (Fin 0) (Fin x)) dur v sh).
    { intros x dur v sh. unfold generateEtco2WaveformShape, etco2_t_rel.
      rewrite (effectiveTimeOf_valid now1 now2 _ (V x)). reflexivity. }
    destruct (lastBreathTime m) as [lb| | |]; try discriminate.
    + change (Fin lb >? NInf)%num with true. cbv iota.
      change (Fin u - Fin lb)%num with (Fin (u + - lb)).
      destruct ((Fin r =? Fin 0)%num || String.eqb (etco2_shape (etco2 (currentParams m)))
                                          "disconnect");
        [apply P|].
      destruct (String.eqb (etco2_shape (etco2 (currentParams m))) "cpr_low_flow");
        apply P.
    + change (NInf >? NInf)%num with false. cbv iota.
      assert (R : exists x, (Fin u mod Fin (60.0 / r))%num = Fin x).
      { assert (Hq : 0 < 60.0 / r) by (apply Qlt_shift_div_l; [assumption | reflexivity]).
        assert (Hz : Qeq_bool (60.0 / r) 0 = false) by (qbool; lra).
        simpl. rewrite Hz. eauto. }
      destruct R as [x ->].
      destruct ((Fin r =? Fin 0)%num || String.eqb (etco2_shape (etco2 (currentParams m)))
                                          "disconnect");
        [apply P|].
      destruct (String.eqb (etco2_shape (etco2 (currentParams m))) "cpr_low_flow");
        apply P.
Qed.

(** The sample monitor one second into its run, the clock at 0 ms and at
    5000 ms. *)
Lemma engine_samples_example :
  _generateSpo2WaveformInternal (fun _ => Fin 1) (fun _ => Fin 1) (fun _ _ => Fin 1)
    (Fin 0) sampleMonitorAt1s
  = _generateSpo2WaveformInternal (fun _ => Fin 1) (fun _ => Fin 1) (fun _ _ => Fin 1)
      (Fin 5000) sampleMonitorAt1s.
Proof.
  assert (H : clocksValid sampleMonitorAt1s = true) by (vm_compute; reflexivity).
  exact (proj1 (engine_samples_ignore_wall_clock
                  (fun _ => Fin 1) (fun _ => Fin 1) (fun _ _ => Fin 1)
                  (Fin 0) (Fin 5000) sampleMonitorAt1s H)).
Defined.

(** [X22] The arterial trace is never forced flat for want of a pulse.
    The pulse duration the ABP sample is computed with is always a positive
    finite number (2 s when no beat is recorded), so the test
    [pulseDuration === Infinity] that would zero the pressures can never
    succeed: for every rhythm that is not CPR, pulseless ones included, the
    trace is drawn from the current pressures and shape, and it is flat only
    when both current pressures are exactly 0 (or both below 1). *)
Theorem abp_trace_never_forced_flat (m : Monitor) :
  isCprArtifact (ecg_params (ecg (currentParams m))) = false ->
  (snd (pulseTiming m) =? PInf)%num = false
  /\ abpShapeArguments m
     = if (sys (abp (currentParams m)) =? Fin 0)%num
          && (dia (abp (currentParams m)) =? Fin 0)%num
       then (Fin 0, Fin 0, "damped"%string)
       else (ensureFinite (sys (abp (currentParams m))) (Fin 0),
             ensureFinite (dia (abp (currentParams m))) (Fin 0),
             strOr (abp_shape (abp (currentParams m))) DEFAULT_ABP_SHAPE).
Proof.
  intro Hc.
  assert (F : (snd (pulseTiming m) =? PInf)%num = false).
  { destruct (pulseTiming_valid m) as [V _]. unfold validDuration in V.
    apply andb_true_iff in V. destruct V as [_ V].
    destruct (snd (pulseTiming m)); try discriminate. reflexivity. }
  split; [exact F|].
  unfold abpShapeArguments. rewrite F, Hc. reflexivity.
Qed.

(** Asystole on the sample monitor, the pressures still at 120/80. *)
Lemma abp_trace_in_asystole :
  abpShapeArguments sampleAsystole = (Fin 120, Fin 80, "normal"%string).
Proof.
  exact (proj2 (abp_trace_never_forced_flat sampleAsystole eq_refl)).
Defined.

(** * The sweep buffers *)

Lemma jsSet_length (i : nat) (v : cell) (l : list cell) :
  (i < length l)%nat -> length (jsSet i v l) = length l.
Proof.
  revert l. induction i as [|i IH]; intros [|x l] H; simpl in *; try lia.
  rewrite IH by lia. reflexivity.
Qed.

Lemma jsGet_jsSet_same (i : nat) (v : cell) (l : list cell) :
  jsGet i (jsSet i v l) = v.
Proof.
  unfold jsGet. revert l. induction i as [|i IH]; intros [|x l]; simpl; auto.
Qed.

Lemma jsGet_jsSet_other (i n : nat) (v : cell) (l : list cell) :
  i <> n -> jsGet n (jsSet i v l) = jsGet n l.
Proof.
  unfold jsGet. revert n l. induction i as [|i IH]; intros [|n] [|x l] H; simpl;
    try lia; try reflexivity.
  - destruct n; reflexivity.
  - rewrite IH by lia. destruct n; reflexivity.
  - apply IH. lia.
Qed.

Lemma gapHits_iff (size index : Z) (n : nat) :
  forall (i c : Z),
    gapHits size index n i c = true
    <-> exists g, (i <= g < i + Z.of_nat n)%Z /\ Z.rem (index + g) size = c.
Proof.
  induction n as [|n IH]; intros i c.
  - simpl. split; [discriminate|]. intros (g & Hg & _). lia.
  - simpl gapHits. rewrite orb_true_iff, IH, Z.eqb_eq. split.
    + intros [H | (g & Hg & H)].
      * exists i. split; [lia | assumption].
      * exists g. split; [lia | assumption].
    + intros (g & Hg & H).
      destruct (Z.eq_dec g i) as [-> | Hne].
      * left. assumption.
      * right. exists g. split; [lia | assumption].
Qed.

(** The gap loop on an array of [size] cells. *)
Lemma clearGap_spec (size index : Z) :
  (0 < size)%Z -> (0 <= index)%Z ->
  forall (n : nat) (i : Z) (buffer : list cell),
    (0 <= i)%Z -> length buffer = Z.to_nat size ->
    length (clearGap size index n i buffer) = Z.to_nat size
    /\ forall c : nat,
         jsGet c (clearGap size index n i buffer)
         = if gapHits size index n i (Z.of_nat c) then Null else jsGet c buffer.
Proof.
  intros Hs Hi. induction n as [|n IH]; intros i buffer H0 Hl.
  - simpl. split; [assumption | reflexivity].
  - simpl clearGap. simpl gapHits.
    assert (R : (0 <= Z.rem (index + i) size < size)%Z).
    { apply Z.rem_bound_pos; lia. }
    assert (G : ((Z.rem (index + i) size >=? 0)%Z && (Z.rem (index + i) size <? size)%Z)
                = true).
    { apply andb_true_iff. split; [apply Z.geb_le | apply Z.ltb_lt]; lia. }
    rewrite G.
    set (gi := Z.to_nat (Z.rem (index + i) size)).
    assert (Hgi : (gi < length buffer)%nat) by (subst gi; lia).
    destruct (IH (i + 1)%Z (jsSet gi Null buffer)) as [L Gt].
    { lia. }
    { rewrite jsSet_length by assumption. assumption. }
    split; [assumption|].
    intro c. rewrite Gt.
    destruct (Z.rem (index + i) size =? Z.of_nat c)%Z eqn:E.
    + apply Z.eqb_eq in E. assert (gi = c) by (subst gi; lia). subst c.
      simpl orb. destruct (gapHits _ _ _ _ _); [reflexivity|].
      apply jsGet_jsSet_same.
    + apply Z.eqb_neq in E. simpl orb.
      destruct (gapHits _ _ _ _ _); [reflexivity|].
      apply jsGet_jsSet_other. subst gi. lia.
Qed.

(** One write into one array: the sample at the index, [null] in the gap
    ahead of it, every other cell as it was. *)
Lemma sweepWrite_spec (size index : Z) (value : num) (buffer : list cell) :
  (0 <= index < size)%Z -> length buffer = Z.to_nat size ->
  length (sweepWrite size index value buffer) = Z.to_nat size
  /\ forall c : nat,
       jsGet c (sweepWrite size index value buffer)
       = if (Z.of_nat c =? index)%Z then sampleCell value
         else if gapHits size index GAP_SAMPLES 0 (Z.of_nat c) then Null
         else jsGet c buffer.
Proof.
  intros Hi Hl. unfold sweepWrite.
  destruct (clearGap_spec size index ltac:(lia) ltac:(lia) GAP_SAMPLES 0%Z buffer
              ltac:(lia) Hl) as [L G].
  assert (T : ((index >=? 0)%Z && (index <? size)%Z) = true).
  { apply andb_true_iff. split; [apply Z.geb_le | apply Z.ltb_lt]; lia. }
  rewrite T. split.
  - rewrite jsSet_length by lia. assumption.
  - intro c. destruct (Z.of_nat c =? index)%Z eqn:E.
    + apply Z.eqb_eq in E. replace (Z.to_nat index) with c by lia.
      apply jsGet_jsSet_same.
    + apply Z.eqb_neq in E. rewrite jsGet_jsSet_other by lia. apply G.
Qed.

Lemma wrapIndex_bounds (size index : Z) :
  (0 < size)%Z -> (0 <= wrapIndex size index < size)%Z.
Proof.
  intro H. unfold wrapIndex.
  destruct (index >=? size)%Z eqn:E1.
  - simpl. lia.
  - destruct (index <? 0)%Z eqn:E2; [lia|].
    apply Z.ltb_ge in E2. rewrite Z.geb_leb in E1. apply Z.leb_gt in E1. lia.
Qed.

(** [X23] One logical step on the sweep buffers, for any buffers of the
    constructor's sizes and any value of the write index (an index at or past
    the end, or negative, restarts at 0): the arrays keep their lengths, the
    ECG sample (or [null] when it is not a finite number) is written at the
    guarded index, the 9 cells after it, wrapping at the end of the array,
    are [null], every other cell is untouched, and the index ends one past
    the cell written. *)
Theorem sweep_step_writes_sample_and_gap
    (ecgValue spo2Value abpValue etco2Value : num) (b : SweepBuffers) :
  length (sweepBufferECG b) = Z.to_nat BUFFER_SIZE ->
  let i := wrapIndex BUFFER_SIZE (sweepIndex b) in
  let b' := writeSamples ecgValue spo2Value abpValue etco2Value b in
  (0 <= i < BUFFER_SIZE)%Z
  /\ sweepIndex b' = (i + 1)%Z
  /\ length (sweepBufferECG b') = Z.to_nat BUFFER_SIZE
  /\ jsGet (Z.to_nat i) (sweepBufferECG b') = sampleCell ecgValue
  /\ (forall g, (1 <= g <= 9)%Z ->
        jsGet (Z.to_nat ((i + g) mod BUFFER_SIZE)) (sweepBufferECG b') = Null)
  /\ (forall c : nat,
        (forall g, (0 <= g <= 9)%Z -> Z.of_nat c <> ((i + g) mod BUFFER_SIZE)%Z) ->
        jsGet c (sweepBufferECG b') = jsGet c (sweepBufferECG b)).
Proof.
  intros Hl i b'.
  assert (Hi : (0 <= i < BUFFER_SIZE)%Z) by (apply wrapIndex_bounds; reflexivity).
  destruct (sweepWrite_spec BUFFER_SIZE i ecgValue (sweepBufferECG b) Hi Hl) as [L G].
  change (sweepBufferECG b') with (sweepWrite BUFFER_SIZE i ecgValue (sweepBufferECG b)).
  split; [assumption|]. split; [reflexivity|]. split; [assumption|].
  assert (Rm : forall g, (0 <= g)%Z -> Z.rem (i + g) BUFFER_SIZE = ((i + g) mod BUFFER_SIZE)%Z).
  { intros g Hg. apply Z.rem_mod_nonneg; [lia | reflexivity]. }
  split; [|split].
  - rewrite G. replace (Z.of_nat (Z.to_nat i) =? i)%Z with true; [reflexivity|].
    symmetry. apply Z.eqb_eq. lia.
  - intros g Hg. rewrite G.
    assert (Hm : (0 <= (i + g) mod BUFFER_SIZE < BUFFER_SIZE)%Z)
      by (apply Z.mod_pos_bound; reflexivity).
    rewrite Z2Nat.id by lia.
    assert (Hne : ((i + g) mod BUFFER_SIZE <> i)%Z).
    { intro E. change BUFFER_SIZE with 900%Z in *.
      destruct (Z_lt_ge_dec (i + g) 900) as [Hlt | Hge].
      - rewrite Z.mod_small in E by lia. lia.
      - assert (E2 : ((i + g) mod 900 = i + g - 900)%Z).
        { symmetry. apply Z.mod_unique with (q := 1%Z); lia. }
        lia. }
    apply Z.eqb_neq in Hne. rewrite Hne.
    assert (Hh : gapHits BUFFER_SIZE i GAP_SAMPLES 0 ((i + g) mod BUFFER_SIZE) = true).
    { apply gapHits_iff. exists g. split; [simpl; lia | apply Rm; lia]. }
    rewrite Hh. reflexivity.
  - intros c Hc. rewrite G.
    assert (E1 : (Z.of_nat c =? i)%Z = false).
    { apply Z.eqb_neq. intro E. apply (Hc 0%Z); [lia|].
      rewrite Z.add_0_r, Z.mod_small by lia. assumption. }
    rewrite E1.
    destruct (gapHits BUFFER_SIZE i GAP_SAMPLES 0 (Z.of_nat c)) eqn:E2; [|reflexivity].
    exfalso. apply gapHits_iff in E2. destruct E2 as (g & Hg & E).
    simpl in Hg. apply (Hc g); [lia|]. rewrite <- Rm by lia. symmetry. assumption.
Qed.

(** The first write after the start: index 0. *)
Lemma sweep_first_write :
  jsGet (Z.to_nat (wrapIndex BUFFER_SIZE (sweepIndex emptyBuffers)))
    (sweepBufferECG (writeSamples (Fin 1) (Fin 0.5) (Fin 100) (Fin 0) emptyBuffers))
  = sampleCell (Fin 1).
Proof.
  exact (proj1 (proj2 (proj2 (proj2
           (sweep_step_writes_sample_and_gap (Fin 1) (Fin 0.5) (Fin 100) (Fin 0)
              emptyBuffers eq_refl))))).
Defined.

Lemma mod_eq_sub (a b n : Z) :
  (0 < n)%Z -> (a mod n = b mod n)%Z -> ((b - a) mod n = 0)%Z.
Proof.
  intros Hn E. rewrite Zminus_mod, E, Z.sub_diag. apply Z.mod_0_l. lia.
Qed.

Lemma mod_nonzero_small (d n : Z) : (0 < d < n)%Z -> (d mod n <> 0)%Z.
Proof. intros H. rewrite Z.mod_small by lia. lia. Qed.

(** One more sample keeps the sweep invariant. *)
Lemma holdsLatest_step (size : Z) (vals : list num) (index : Z) (buffer : list cell)
    (v : num) :
  (10 <= size)%Z ->
  holdsLatest size vals index buffer ->
  holdsLatest size (vals ++ [v]) (wrapIndex size index + 1)
    (sweepWrite size (wrapIndex size index) v buffer).
Proof.
  intros Hs (L & Hidx & Hw & Hk & Hg).
  set (N := Z.of_nat (length vals)) in *.
  assert (HN : (0 <= N)%Z) by (subst N; lia).
  assert (Hi : (0 <= wrapIndex size index < size)%Z) by (apply wrapIndex_bounds; lia).
  destruct (sweepWrite_spec size (wrapIndex size index) v buffer Hi L) as [L' G].
  set (i := wrapIndex size index) in *.
  assert (Rm : forall g, (0 <= g)%Z -> Z.rem (i + g) size = ((N + g) mod size)%Z).
  { intros g Hg0. rewrite Z.rem_mod_nonneg by lia. rewrite Hw.
    apply Z.add_mod_idemp_l. lia. }
  assert (Hlen : Z.of_nat (length (vals ++ [v])) = (N + 1)%Z).
  { rewrite length_app. simpl. subst N. lia. }
  unfold holdsLatest. rewrite Hlen.
  split; [assumption|]. split; [lia|]. split; [|split].
  - (* the guarded index *)
    rewrite <- (Z.add_mod_idemp_l N 1 size) by lia. rewrite <- Hw.
    unfold wrapIndex at 1. fold i.
    destruct (Z.eq_dec (i + 1) size) as [E | E].
    + rewrite E. rewrite Z_mod_same_full.
      replace (size >=? size)%Z with true by (symmetry; apply Z.geb_le; lia).
      reflexivity.
    + replace (i + 1 >=? size)%Z with false
        by (symmetry; rewrite Z.geb_leb; apply Z.leb_gt; lia).
      replace (i + 1 <? 0)%Z with false by (symmetry; apply Z.ltb_ge; lia).
      rewrite Z.mod_small by lia. reflexivity.
  - (* the latest samples *)
    intros k Hk0 Hk1. rewrite G.
    assert (Hm : (0 <= k mod size < size)%Z) by (apply Z.mod_pos_bound; lia).
    rewrite Z2Nat.id by lia.
    destruct (Z.eq_dec k N) as [-> | Hne].
    + rewrite <- Hw. fold i. rewrite Z.eqb_refl.
      rewrite app_nth2 by (subst N; lia).
      replace (Z.to_nat N - length vals)%nat with O by (subst N; lia). reflexivity.
    + assert (Hfar : forall g, (0 <= g <= 9)%Z -> (k mod size <> (N + g) mod size)%Z).
      { intros g Hg0 E. apply mod_eq_sub in E; [|lia].
        apply (mod_nonzero_small (N + g - k) size); [lia | assumption]. }
      assert (E1 : (k mod size =? i)%Z = false).
      { apply Z.eqb_neq. intro E. apply (Hfar 0%Z); [lia|].
        rewrite Z.add_0_r, <- Hw. assumption. }
      rewrite E1.
      destruct (gapHits size i GAP_SAMPLES 0 (k mod size)) eqn:E2.
      { exfalso. apply gapHits_iff in E2. destruct E2 as (g & Hg0 & E).
        simpl in Hg0. rewrite Rm in E by lia. apply (Hfar g); [lia|]. symmetry. assumption. }
      rewrite Hk by lia.
      rewrite app_nth1 by (subst N; lia). reflexivity.
  - (* the gap *)
    intros g _ Hg1. rewrite G.
    replace (N + 1 - 1 + g)%Z with (N + g)%Z by lia.
    assert (Hm : (0 <= (N + g) mod size < size)%Z) by (apply Z.mod_pos_bound; lia).
    rewrite Z2Nat.id by lia.
    assert (E1 : ((N + g) mod size =? i)%Z = false).
    { apply Z.eqb_neq. intro E. subst i. rewrite Hw in E.
      apply mod_eq_sub in E; [|lia].
      apply (mod_nonzero_small (N - (N + g) + size) size); [lia|].
      rewrite <- (Z_mod_plus_full (N - (N + g)) 1 size) in E.
      rewrite Z.mul_1_l in E. assumption. }
    rewrite E1.
    assert (E2 : gapHits size i GAP_SAMPLES 0 ((N + g) mod size) = true).
    { apply gapHits_iff. exists g. split; [simpl; lia | apply Rm; lia]. }
    rewrite E2. reflexivity.
Qed.

Lemma writeRun_snoc (l : list (num * num * num * num)) (e p a c : num)
    (b : SweepBuffers) :
  writeRun (l ++ [(e, p, a, c)]) b = writeSamples e p a c (writeRun l b).
Proof. unfold writeRun. rewrite fold_left_app. reflexivity. Qed.

Lemma holdsLatest_start (size : Z) :
  (0 < size)%Z -> holdsLatest size [] 0 (repeat Null (Z.to_nat size)).
Proof.
  intro H. unfold holdsLatest. simpl length.
  split; [apply repeat_length|]. split; [lia|]. split.
  - unfold wrapIndex.
    replace (0 >=? size)%Z with false by (symmetry; rewrite Z.geb_leb; apply Z.leb_gt; lia).
    reflexivity.
  - split; intros; lia.
Qed.

(** [X24] The sweep display.  After any run of logical steps from a fresh
    start, each trace array holds the latest [size - 9] samples of its
    channel, every one in the cell numbered by its position in the run
    modulo the size of the array, with 9 [null] cells (the gap) ahead of the
    last sample written; the ECG array wraps after 900 samples (9 s) and
    the ETCO2 array after 1500 (15 s), each on its own index. *)
Theorem sweep_holds_latest_samples (samples : list (num * num * num * num)) :
  holdsLatest BUFFER_SIZE (map ecgSampleOf samples)
    (sweepIndex (writeRun samples emptyBuffers))
    (sweepBufferECG (writeRun samples emptyBuffers))
  /\ holdsLatest ETCO2_BUFFER_SIZE (map etco2SampleOf samples)
       (etco2SweepIndex (writeRun samples emptyBuffers))
       (sweepBufferETCO2 (writeRun samples emptyBuffers)).
Proof.
  induction samples as [|[[[e p] a] c] l IH] using rev_ind.
  - split; apply holdsLatest_start; reflexivity.
  - destruct IH as [IH1 IH2].
    rewrite writeRun_snoc, !map_app. simpl map.
    split.
    + apply (holdsLatest_step BUFFER_SIZE _ _ _ e) in IH1; [exact IH1 | discriminate].
    + apply (holdsLatest_step ETCO2_BUFFER_SIZE _ _ _ c) in IH2; [exact IH2 | discriminate].
Qed.

(** * The chaotic generator *)

Lemma generateNoise_band (d n : Q) :
  0 <= d -> d < 1 -> 0 <= n ->
  exists x, generateNoise (Fin d) (Fin n) = Fin x /\ - n <= x /\ x <= n.
Proof.
  intros Hd0 Hd1 Hn. exists ((d + - 0.5) * n * 2). split; [reflexivity|].
  assert (P1 : 0 <= d * n) by (apply Qmult_le_0_compat; assumption).
  assert (P2 : 0 <= (1 - d) * n) by (apply Qmult_le_0_compat; lra).
  split.
  - setoid_replace ((d + - 0.5) * n * 2) with (2 * (d * n) - n) by ring. lra.
  - setoid_replace ((d + - 0.5) * n * 2) with (n - 2 * ((1 - d) * n)) by ring. lra.
Qed.

(** A point on the segment between two values within the band is within
    the band. *)
Lemma segment_within_band (A l x p : Q) :
  - A <= l -> l <= A -> - A <= x -> x <= A -> 0 <= p -> p <= 1 ->
  - A <= l + (x + - l) * p /\ l + (x + - l) * p <= A.
Proof.
  intros L1 L2 X1 X2 P0 P1.
  assert (E : l + (x + - l) * p == l * (1 - p) + x * p) by ring.
  rewrite E.
  assert (Q1 : 0 <= (l + A) * (1 - p)) by (apply Qmult_le_0_compat; lra).
  assert (Q2 : 0 <= (x + A) * p) by (apply Qmult_le_0_compat; lra).
  assert (Q3 : 0 <= (A - l) * (1 - p)) by (apply Qmult_le_0_compat; lra).
  assert (Q4 : 0 <= (A - x) * p) by (apply Qmult_le_0_compat; lra).
  split.
  - setoid_replace (l * (1 - p) + x * p)
      with ((l + A) * (1 - p) + (x + A) * p - A) by ring. lra.
  - setoid_replace (l * (1 - p) + x * p)
      with (A - ((A - l) * (1 - p) + (A - x) * p)) by ring. lra.
Qed.

(** One call of the chaotic generator keeps the invariant of the module
    state and returns a value within amplitude plus noise. *)
Lemma generateChaotic_step
    (A n h : Q) (d : ChaoticDraws) (params : RhythmParams) (props : ChaoticProps)
    (st : ChaoticState) :
  orDefault (Fin 0.7) (vf_amp props) = Fin A -> 0 <= A ->
  orDefault (Fin 0.03) (noise_amp params) = Fin n -> 0 <= n ->
  orDefault DEFAULT_VF_HOLD_DURATION (vf_hold_duration props) = Fin h ->
  unitDraw (cd_target d) -> unitDraw (cd_noise d) ->
  chaoticStateOk A st ->
  withinBand (A + n) (fst (generateChaotic d params props st))
  /\ chaoticStateOk A (snd (generateChaotic d params props st)).
Proof.
  intros HA HA0 Hn Hn0 Hh (dt & Edt & Dt0 & Dt1) (dn & Edn & Dn0 & Dn1) Hst.
  unfold generateChaotic. rewrite HA, Hn, Hh, Edt, Edn.
  destruct (generateNoise_band dn n Dn0 Dn1 Hn0) as (z & -> & Z1 & Z2).
  set (st1 := if (holdCounter st <=? Fin 0)%num then _ else st).
  assert (H1 : chaoticStateOk A st1).
  { subst st1. destruct (holdCounter st <=? Fin 0)%num; [|assumption].
    destruct Hst as (_ & Hx & _).
    split; [exact Hx|]. split.
    - exists ((dt + - 0.5) * 2 * A). split; [reflexivity|].
      assert (P1 : 0 <= dt * A) by (apply Qmult_le_0_compat; assumption).
      assert (P2 : 0 <= (1 - dt) * A) by (apply Qmult_le_0_compat; lra).
      split.
      + setoid_replace ((dt + - 0.5) * 2 * A) with (2 * (dt * A) - A) by ring. lra.
      + setoid_replace ((dt + - 0.5) * 2 * A) with (A - 2 * ((1 - dt) * A)) by ring. lra.
    - exists 0. split; [reflexivity | lra]. }
  clearbody st1.
  destruct H1 as ((l & El & L1 & L2) & (x & Ex & X1 & X2) & (k & Ek & K0)).
  rewrite El, Ex, Ek.
  destruct ((Fin h >? Fin 0)%num && (Fin k <? Fin h)%num) eqn:C.
  - apply andb_true_iff in C. destruct C as [C1 C2]. simpl in C1, C2. qbool.
    assert (Hz : Qeq_bool h 0 = false) by (qbool; lra).
    assert (Ep : (Fin k / Fin h)%num = Fin (k / h)) by (simpl; rewrite Hz; reflexivity).
    rewrite Ep.
    assert (P0 : 0 <= k / h) by (apply Qle_shift_div_l; lra).
    assert (P1 : k / h <= 1) by (apply Qle_shift_div_r; lra).
    destruct (segment_within_band A l x (k / h) L1 L2 X1 X2 P0 P1) as [S1 S2].
    simpl. split.
    + eexists. split; [reflexivity|]. lra.
    + split; [exists l; repeat split; assumption|].
      split; [exists x; repeat split; assumption|].
      exists (k + 1). split; [reflexivity | lra].
  - simpl. rewrite El, Ex, Ek. split.
    + eexists. split; [reflexivity|]. lra.
    + split; [exists l; repeat split; assumption|].
      split; [exists x; repeat split; assumption|].
      exists k. split; [reflexivity | assumption].
Qed.

(** [X25] The chaotic (VF) generator stays within its amplitude.  From the
    state the module is loaded with, and for a fixed rhythm definition with
    a non-negative amplitude and noise amplitude (0.7 and 0.03 by default)
    and any finite hold duration, every value of any run of calls is a
    finite number of magnitude at most amplitude plus noise amplitude,
    whatever numbers in [0, 1) [Math.random()] returns. *)
Theorem chaotic_trace_within_amplitude
    (A n h : Q) (params : RhythmParams) (props : ChaoticProps) (ds : list ChaoticDraws) :
  orDefault (Fin 0.7) (vf_amp props) = Fin A -> 0 <= A ->
  orDefault (Fin 0.03) (noise_amp params) = Fin n -> 0 <= n ->
  orDefault DEFAULT_VF_HOLD_DURATION (vf_hold_duration props) = Fin h ->
  Forall (fun d => unitDraw (cd_target d) /\ unitDraw (cd_noise d)) ds ->
  Forall (withinBand (A + n)) (chaoticRun params props initialChaoticState ds).
Proof.
  intros HA HA0 Hn Hn0 Hh Hds.
  assert (H0 : chaoticStateOk A initialChaoticState).
  { split; [|split]; [exists 0; simpl; repeat split; lra ..|].
    exists 0. split; [reflexivity | lra]. }
  revert H0. generalize initialChaoticState.
  induction Hds as [|d ds [Hd1 Hd2] _ IH]; intros st Hst.
  - constructor.
  - simpl chaoticRun.
    destruct (generateChaotic_step A n h d params props st HA HA0 Hn Hn0 Hh Hd1 Hd2 Hst)
      as [Hv Hst'].
    destruct (generateChaotic d params props st) as [v st'].
    constructor; [exact Hv | apply IH; exact Hst'].
Qed.

(** Six calls with the default amplitudes: every value within 0.73. *)
Lemma chaotic_trace_example :
  Forall (withinBand (0.7 + 0.03))
    (chaoticRun vfib sampleChaoticProps initialChaoticState sampleChaoticDraws).
Proof.
  apply (chaotic_trace_within_amplitude 0.7 0.03 4 vfib sampleChaoticProps
           sampleChaoticDraws); try reflexivity; try (vm_compute; discriminate).
  repeat constructor;
    (eexists; split; [reflexivity | split; vm_compute; first [discriminate | reflexivity]]).
Defined.

(** * The temperature conversions *)

(** [X26] The two temperature conversions are inverse to each other on
    every finite temperature (in exact arithmetic), and each is strictly
    increasing: a temperature set on the Fahrenheit slider, stored in
    Celsius and displayed in Fahrenheit again is the temperature that was
    set. *)
Theorem temperature_conversions_round_trip (x y : Q) :
  fahrenheitToCelsius (celsiusToFahrenheit (Fin x)) =n= Fin x
  /\ celsiusToFahrenheit (fahrenheitToCelsius (Fin x)) =n= Fin x
  /\ (x < y ->
      (celsiusToFahrenheit (Fin x) <? celsiusToFahrenheit (Fin y))%num = true
      /\ (fahrenheitToCelsius (Fin x) <? fahrenheitToCelsius (Fin y))%num = true).
Proof.
  unfold celsiusToFahrenheit, fahrenheitToCelsius. simpl.
  split; [field|]. split; [field|].
  intro H. split; qbool.
  - assert (E : forall z, z * 9 / 5 + 32 == z * (9 # 5) + 32) by (intro z; field).
    rewrite !E. lra.
  - assert (E : forall z, (z + - (32)) * 5 / 9 == (z - 32) * (5 # 9)) by (intro z; field).
    rewrite !E. lra.
Qed.

(** * Compressions and relayed updates *)

(** [X27] The compression schedule of the CPR artifact rhythm: a
    compression that is due is stamped with the time of the step that
    noticed it (not with the time it was scheduled for, unlike a beat), the
    pulse of the pleth and ABP traces restarts with it, and the next
    compression is scheduled [max(0.1, 60 / artifact_freq)] seconds later
    (110 a minute by default); before it is due nothing changes. *)
Theorem cpr_compression_schedule (draw : num) (m : Monitor) (t nc f : Q) :
  generatorType (ecg_params (ecg (currentParams m))) = Some "artifact"%string ->
  artifactType (ecg_params (ecg (currentParams m))) = Some "cpr"%string ->
  orDefault (Fin 110) (artifact_freq (ecg_params (ecg (currentParams m)))) = Fin f ->
  0 < f ->
  rhythmTime m = Fin t -> nextCompressionTime m = Fin nc ->
  (nc <= t ->
     lastCompressionTime (checkBeatTimer draw m) = Fin t
     /\ lastBeatTime (checkBeatTimer draw m) = Fin t
     /\ nextCompressionTime (checkBeatTimer draw m) =n= Fin (t + Qmax 0.1 (60 / f))
     /\ nextBeatTime (checkBeatTimer draw m) = nextBeatTime m)
  /\ (t < nc -> checkBeatTimer draw m = m).
Proof.
  intros Hg Ha Hf Hpos Ht Hn. unfold checkBeatTimer. rewrite Hg, Ha, Ht, Hn.
  simpl strIs. simpl orb. simpl andb. cbv iota.
  destruct (Fin t >=? Fin nc)%num eqn:E; simpl in E; qbool.
  - split; [|intro; lra]. intros _.
    assert (F : forall x : Monitor,
               (lastCompressionTime (applyPendingAbp (applyPendingSpo2 x)),
                lastBeatTime (applyPendingAbp (applyPendingSpo2 x)),
                nextCompressionTime (applyPendingAbp (applyPendingSpo2 x)),
                nextBeatTime (applyPendingAbp (applyPendingSpo2 x)))
               = (lastCompressionTime x, lastBeatTime x, nextCompressionTime x,
                  nextBeatTime x)).
    { intro x. unfold applyPendingAbp, applyPendingSpo2.
      destruct (isSpo2UpdatePending x), (pendingSpo2Params x); simpl;
        destruct (isAbpUpdatePending x), (pendingAbpParams x); reflexivity. }
    specialize (F (_resetCompressionTiming m)). injection F as -> -> -> ->.
    unfold _resetCompressionTiming.
    set (m1 := set_lastCompressionTime (rhythmTime m) m).
    change (currentParams m1) with (currentParams m). rewrite Hg, Ha, Hf.
    simpl strIs. simpl andb. cbv iota.
    assert (H1 : Qlt_bool 0 f = true) by (qbool; assumption).
    assert (H2 : Qeq_bool f 0 = false) by (qbool; lra).
    rewrite H1, H2, Ht. cbv iota beta.
    destruct (Qle_bool 0.1 (60.0 / f)) eqn:Q; qbool; rewrite sixty_over in Q;
      (split; [reflexivity|]); (split; [reflexivity|]); (split; [|reflexivity]);
      unfold Num.add, Num.eq.
    + rewrite sixty_over, Q.max_r by assumption. reflexivity.
    + rewrite Q.max_l by lra. reflexivity.
  - split; [intro; lra|]. intros _. reflexivity.
Qed.

(** A compression due at 2 s, noticed at 2.004 s. *)
Lemma cpr_compression_example :
  lastCompressionTime (checkBeatTimer (Fin 0.5) sampleCpr) = Fin 2.004
  /\ lastBeatTime (checkBeatTimer (Fin 0.5) sampleCpr) = Fin 2.004
  /\ nextCompressionTime (checkBeatTimer (Fin 0.5) sampleCpr)
     =n= Fin (2.004 + Qmax 0.1 (60 / 110))
  /\ nextBeatTime (checkBeatTimer (Fin 0.5) sampleCpr) = nextBeatTime sampleCpr.
Proof.
  refine (proj1 (cpr_compression_schedule (Fin 0.5) sampleCpr 2.004 2 110
                   eq_refl eq_refl eq_refl eq_refl eq_refl eq_refl) _).
  vm_compute. discriminate.
Defined.

(** [X28] A relayed update that reaches a monitor that is not running is
    applied at once and in full: the channels the message carries replace
    those of the target, the others are kept, the rhythm definition is read
    from the receiver's own catalog, and the current parameters and the
    interpolation target both become the new target; no clock, timer or
    pending update is touched. *)
Theorem remote_update_on_stopped_monitor
    (RHYTHM_PARAMS : string -> option RhythmParams) (draw : num)
    (receivedParams : ReceivedParams) (m : Monitor) :
  animationRunning m = false ->
  let m' := handleRemoteParamUpdate RHYTHM_PARAMS draw receivedParams m in
  currentParams m' = targetParams m'
  /\ interpolationTargetParams m' = Some (targetParams m')
  /\ spo2 (targetParams m') = orDefault (spo2 (targetParams m)) (r_spo2 receivedParams)
  /\ abp (targetParams m') = orDefault (abp (targetParams m)) (r_abp receivedParams)
  /\ etco2 (targetParams m') = orDefault (etco2 (targetParams m)) (r_etco2 receivedParams)
  /\ temp (targetParams m') = orDefault (temp (targetParams m)) (r_temp receivedParams)
  /\ rhythm (ecg (targetParams m'))
     = rhythm (orDefault (ecg (targetParams m)) (r_ecg receivedParams))
  /\ hr (ecg (targetParams m'))
     = hr (orDefault (ecg (targetParams m)) (r_ecg receivedParams))
  /\ (rhythm (ecg (targetParams m')) <> ""%string ->
      ecg_params (ecg (targetParams m'))
      = orDefault emptyParams (RHYTHM_PARAMS (rhythm (ecg (targetParams m')))))
  /\ loopFields m' = loopFields m /\ clockFields m' = clockFields m
  /\ breathFields m'
     = (etco2 (targetParams m'), isEtco2UpdatePending m, pendingEtco2Params m,
        lastBreathTime m, nextBreathTime m, respiratoryTime m)
  /\ (nextBeatTime m', lastBeatTime m') = (nextBeatTime m, lastBeatTime m).
Proof.
  intros H m'. subst m'. unfold handleRemoteParamUpdate.
  change (animationRunning (set_targetParams ?t m)) with (animationRunning m).
  rewrite H. simpl negb. cbv iota.
  set (t0 := mergeReceived receivedParams (targetParams m)).
  assert (K : rhythm (ecg t0)
              = rhythm (orDefault (ecg (targetParams m)) (r_ecg receivedParams)))
    by reflexivity.
  destruct (String.eqb (rhythm (ecg t0)) "") eqn:E.
  - simpl. repeat split.
    intro Hne. apply String.eqb_eq in E. contradiction.
  - assert (P : forall p : RhythmParams,
               rhythm (ecg (set_ecg (set_ecg_params p (ecg t0)) t0)) = rhythm (ecg t0))
      by reflexivity.
    destruct (RHYTHM_PARAMS (rhythm (ecg t0))) as [p|] eqn:R;
      (repeat split; try reflexivity);
      intros _;
      change (ecg_params (ecg (targetParams ?x))) with
        (ecg_params (ecg (targetParams x)));
      match goal with
      | |- ecg_params (ecg (targetParams ?x)) = orDefault emptyParams (RHYTHM_PARAMS ?k) =>
          change k with (rhythm (ecg t0)); rewrite R; reflexivity
      end.
Qed.

(** An SpO2 update relayed to the sample monitor before it is started. *)
Lemma remote_update_example :
  spo2 (currentParams (handleRemoteParamUpdate sampleCatalog (Fin 0.5) spo2OnlyUpdate
                         (newMonitor sampleTarget)))
  = mkSpo2Channel (Fin 91) "low_perfusion" true.
Proof.
  pose proof (remote_update_on_stopped_monitor sampleCatalog (Fin 0.5) spo2OnlyUpdate
                (newMonitor sampleTarget) eq_refl) as H.
  cbv zeta in H. destruct H as (H1 & _ & H3 & _).
  rewrite H1. exact H3.
Defined.

(** ** The alarm check *)

Lemma checkAlarms_low_map (p : Params) :
  low_map (checkAlarms p)
  = if abp_visible (abp p)
       && negb (truthy (isArtifact (ecg_params (ecg p)))
                && strIs (artifactType (ecg_params (ecg p))) "cpr")
    then
      match ensureFiniteOrNull (sys (abp p)), ensureFiniteOrNull (dia (abp p)) with
      | Some sysv, Some diav =>
          if (sysv >? Fin 0)%num && (diav >=? Fin 0)%num && (sysv >? diav)%num then
            (Math_round (diav + (sysv - diav) / Fin 3)%num <? ALARM_LOW_MAP)%num
          else false
      | _, _ => false
      end
    else false.
Proof.
  unfold checkAlarms. cbv zeta.
  destruct (if ecg_visible (ecg p) && _ && _ && _ && _ then _ else _) as [a b].
  destruct (if etco2_visible (etco2 p) then _ else _) as [c d].
  reflexivity.
Qed.

Lemma round_below (x : Q) (n : Z) :
  inject_Z (Qfloor (x + 0.5)) < inject_Z n <-> x < inject_Z n - 0.5.
Proof.
  pose proof (Qfloor_le (x + 0.5)) as L.
  pose proof (Qlt_floor (x + 0.5)) as U.
  rewrite <- Zlt_Qlt. split; intro H.
  - assert (K : (Qfloor (x + 0.5) + 1 <= n)%Z) by lia.
    rewrite Zle_Qle in K. rewrite inject_Z_plus in *. simpl inject_Z in *. lra.
  - apply Z.lt_nge. intro K. rewrite Zle_Qle in K. lra.
Qed.

(** [X29] The low-MAP alarm is active exactly when the arterial channel is
    shown, the rhythm is not the CPR artifact, the pressures are finite with
    [0 < sys], [0 <= dia] and [dia < sys], and the mean pressure
    [dia + (sys - dia) / 3] is below 59.5: the estimate is rounded before
    it is compared with 60.  A collapsed pressure of 0/0, or a systolic
    value not above the diastolic one, never raises it. *)
Theorem low_map_alarm_rule (p : Params) :
  low_map (checkAlarms p) = true <->
  abp_visible (abp p) = true
  /\ (truthy (isArtifact (ecg_params (ecg p)))
      && strIs (artifactType (ecg_params (ecg p))) "cpr") = false
  /\ exists s d, sys (abp p) = Fin s /\ dia (abp p) = Fin d
       /\ 0 < s /\ 0 <= d /\ d < s /\ d + (s - d) / 3 < 59.5.
Proof.
  rewrite checkAlarms_low_map.
  destruct (abp_visible (abp p)); simpl andb;
    [|split; [discriminate | intros (H & _); discriminate]].
  destruct (truthy _ && strIs _ "cpr"); simpl negb; cbv iota;
    [split; [discriminate | intros (_ & H & _); discriminate]|].
  unfold ensureFiniteOrNull.
  destruct (sys (abp p)) as [s| | |]; simpl Num.isFinite; cbv iota;
    try (split; [discriminate | intros (_ & _ & s0 & d0 & H & _); discriminate]).
  destruct (dia (abp p)) as [d| | |]; simpl Num.isFinite; cbv iota;
    try (split; [discriminate | intros (_ & _ & s0 & d0 & _ & H & _); discriminate]).
  assert (E : (Fin d + (Fin s - Fin d) / Fin 3)%num = Fin (d + (s + - d) / 3))
    by reflexivity.
  rewrite E. unfold Math_round, ALARM_LOW_MAP, Num.gtb, Num.geb, Num.ltb, Num.leb.
  pose proof (round_below (d + (s + - d) / 3) 60) as R.
  change (inject_Z 60) with 60 in R.
  split.
  - intro H.
    destruct (Qlt_bool 0 s) eqn:A; [|discriminate].
    destruct (Qle_bool 0 d) eqn:B; [|discriminate].
    destruct (Qlt_bool d s) eqn:C; [|discriminate].
    simpl andb in H. cbv iota in H. qbool.
    split; [reflexivity|]. split; [reflexivity|].
    exists s, d. repeat split; try assumption.
    apply R in H. unfold Qminus in *. lra.
  - intros (_ & _ & s0 & d0 & Es & Ed & A & B & C & M).
    injection Es as <-. injection Ed as <-.
    assert (A' : Qlt_bool 0 s = true) by (qbool; assumption).
    assert (B' : Qle_bool 0 d = true) by (qbool; assumption).
    assert (C' : Qlt_bool d s = true) by (qbool; assumption).
    rewrite A', B', C'. simpl andb. cbv iota. qbool.
    apply R. unfold Qminus in *. lra.
Qed.

(** [X30] The alarm check on the values left by a shock that converts to a
    pulseless rhythm (not CPR): the SpO2, MAP and ETCO2 alarms and the
    high heart-rate alarm are all silent, whatever was shown before.  The
    low heart-rate alarm is silent too when the rhythm is flagged flat,
    chaotic, PEA or artifact; for a pulseless rhythm without such a flag
    (pulseless VT) it is active whenever the ECG channel is shown, since
    the heart rate is then 0. *)
Theorem alarms_after_shock_to_pulseless
    (RHYTHM_PARAMS : string -> option RhythmParams)
    (draw : num) (env : ShockEnv) (remoteRhythmKey : option string) (m : Monitor)
    (p : RhythmParams) :
  RHYTHM_PARAMS (shockRhythmKey env remoteRhythmKey) = Some p ->
  pulselessAfterShock (shockRhythmKey env remoteRhythmKey) p = true ->
  checkAlarms (currentParams (_executeShock RHYTHM_PARAMS draw env remoteRhythmKey m))
  = mkAlarms (ecg_visible (ecg (currentParams m)) && negb (hrAlarmSuppressed p))
      false false false false false.
Proof.
  intros Hp Hpl.
  destruct (executeShock_pulseless_snapshot RHYTHM_PARAMS draw env remoteRhythmKey
              m p Hp Hpl) as (E1 & E2 & E3 & E4 & _).
  cbv zeta in E1, E2, E3, E4.
  remember (currentParams (_executeShock RHYTHM_PARAMS draw env remoteRhythmKey m))
    as cp eqn:Ecp.
  clear Ecp Hp Hpl.
  unfold checkAlarms, hrAlarmSuppressed. rewrite E1, E2, E3, E4. simpl.
  destruct (ecg_visible (ecg (currentParams m)));
    destruct (spo2_visible (spo2 (currentParams m)));
    destruct (abp_visible (abp (currentParams m)));
    destruct (etco2_visible (etco2 (targetParams m)));
    destruct (isFlat p) as [[|]|]; destruct (isChaotic p) as [[|]|];
    destruct (isPEA p) as [[|]|]; destruct (isArtifact p) as [[|]|];
    simpl; try reflexivity;
    destruct (strIs (artifactType p) "cpr"); reflexivity.
Qed.

(** A shock on the sample monitor that converts to ventricular fibrillation
    leaves no alarm active. *)
Lemma alarms_after_shock_to_vfib :
  checkAlarms
    (currentParams
       (_executeShock sampleCatalog2 (Fin 0.5)
          (mkShockEnv "standalone" (Some "vfib"%string)) None sampleMonitor))
  = mkAlarms (ecg_visible (ecg (currentParams sampleMonitor))
              && negb (hrAlarmSuppressed vfib))
      false false false false false.
Proof.
  exact (alarms_after_shock_to_pulseless sampleCatalog2 (Fin 0.5)
           (mkShockEnv "standalone" (Some "vfib"%string)) None sampleMonitor
           vfib eq_refl eq_refl).
Defined.
